(** * aura: the URL analysis pipeline, embedded and verified

    A shallow embedding of the analysis back end of the aura repository
    (backend/app/services) together with the properties its specification
    states about it.

    - [Py]: the Python primitives the services rely on (binary64 floats with
      [round], [int], [min]/[max]; [str.lower], [in] on strings; the stable
      [list.sort]).
    - [SEO]: services/seo_analyzer.py, the rule scorer.
    - [LLM]: services/llm_analyzer.py, the semantic scorer's score formula.
    - [Job]: services/orchestrator.py, the single-URL pipeline.
    - [Aggregator]: services/batch_llm_analyzer.py and comparison_service.py.
    - [Batch]: services/competitive_orchestrator.py and its synchronous twin.

    Python floats are IEEE binary64 numbers and are modelled by Rocq's
    primitive floats, so that every arithmetic result below is the one the
    interpreter computes. *)

From Stdlib Require Import ZArith QArith Floats Uint63 List String Ascii Bool Lia.
From Stdlib Require Import Permutation Sorted.
From stdpp Require Import gmap strings pretty.
Import ListNotations.

Set Warnings "-inexact-float,-register-all,-abstract-large-number".
Local Open Scope string_scope.
Local Open Scope Z_scope.

(* ===================================================================== *)
(** * Python primitives *)
(* ===================================================================== *)

Module Py.

(** ** Floats *)

(** [float(n)] for a Python int. All integers converted in this development
    are far below 2^53, so the conversion is exact. *)
Definition float_of_Z (z : Z) : float :=
  if z <? 0 then PrimFloat.opp (PrimFloat.of_uint63 (Uint63.of_Z (- z)))
  else PrimFloat.of_uint63 (Uint63.of_Z z).

(** [int(x)]: truncation toward zero. Python raises on NaN and infinities;
    no caller below can pass one, the model returns 0 there. *)
Definition int_of_float (x : float) : Z :=
  match Prim2SF x with
  | S754_finite s m e =>
      let v := if 0 <=? e then Z.pos m * 2 ^ e else Z.pos m / 2 ^ (- e) in
      if s then - v else v
  | _ => 0
  end.

(** Round-half-even of the rational [n / d] ([d > 0]) to an integer. *)
Definition round_half_even (n d : Z) : Z :=
  let q := n / d in
  let r := n mod d in
  match 2 * r ?= d with
  | Lt => q
  | Gt => q + 1
  | Eq => if Z.even q then q else q + 1
  end.

(** The number of hundredths nearest to the exact value of a finite float
    (ties to even), sign apart: what the correctly rounded conversion to a
    decimal with two fractional digits produces. *)
Definition hundredths (x : float) : option (bool * Z) :=
  match Prim2SF x with
  | S754_zero s => Some (s, 0)
  | S754_finite s m e =>
      Some (s, if 0 <=? e then Z.pos m * 2 ^ e * 100
               else round_half_even (Z.pos m * 100) (2 ^ (- e)))
  | _ => None
  end.

(** [round(x, 2)]: CPython converts [x] to the correctly rounded decimal with
    two fractional digits and reads that decimal back as the nearest double.
    The division of two exactly represented integers is the nearest double
    of their quotient. *)
Definition round2 (x : float) : float :=
  match hundredths x with
  | Some (s, k) =>
      let y := PrimFloat.div (float_of_Z k) (float_of_Z 100) in
      if s then PrimFloat.opp y else y
  | None => x
  end.

(** [max(a, b)] and [min(a, b)]: the first argument is kept unless the
    second one is strictly greater (smaller). *)
Definition max (a b : float) : float := if PrimFloat.ltb a b then b else a.
Definition min (a b : float) : float := if PrimFloat.ltb b a then b else a.

(** The double nearest to a rational with small numerator and denominator. *)
Definition float_of_Q (q : Q) : float :=
  let r := Qred q in
  PrimFloat.div (float_of_Z (Qnum r)) (float_of_Z (Z.pos (Qden r))).

(** Rounding of an exact rational to two decimals, ties to even: the
    reading of "rounded to two decimals" over the rationals. *)
Definition Q_round2 (q : Q) : Q :=
  round_half_even (Qnum (q * 100)) (Z.pos (Qden (q * 100))) # 100.

(** [format(x, '.2f')] *)
Definition two_digits (n : Z) : string :=
  if n <? 10 then "0" +:+ pretty n else pretty n.

Definition format_2f (x : float) : string :=
  match hundredths x with
  | Some (s, k) =>
      (if s then "-" else "") +:+ pretty (k / 100) +:+ "." +:+ two_digits (k mod 100)
  | None => if PrimFloat.is_nan x then "nan"
            else if PrimFloat.ltb x 0 then "-inf" else "inf"
  end.

(** ** Strings *)

Definition len (s : string) : nat := String.length s.

(** Truthiness of a string: [if s] *)
Definition truthy (s : string) : bool :=
  match s with EmptyString => false | _ => true end.

Definition lower_ascii (c : ascii) : ascii :=
  let n := nat_of_ascii c in
  if (65 <=? n)%nat && (n <=? 90)%nat then ascii_of_nat (n + 32) else c.

Definition upper_ascii (c : ascii) : ascii :=
  let n := nat_of_ascii c in
  if (97 <=? n)%nat && (n <=? 122)%nat then ascii_of_nat (n - 32) else c.

Fixpoint map_string (f : ascii -> ascii) (s : string) : string :=
  match s with
  | EmptyString => EmptyString
  | String c s' => String (f c) (map_string f s')
  end.

(** [s.lower()] and [s.upper()] *)
Definition lower : string -> string := map_string lower_ascii.
Definition upper : string -> string := map_string upper_ascii.

(** [s.startswith(p)] *)
Fixpoint startswith (p s : string) : bool :=
  match p, s with
  | EmptyString, _ => true
  | String a p', String b s' => Ascii.eqb a b && startswith p' s'
  | String _ _, EmptyString => false
  end.

(** [needle in hay] *)
Fixpoint str_in (needle hay : string) : bool :=
  startswith needle hay ||
  match hay with
  | EmptyString => false
  | String _ hay' => str_in needle hay'
  end.

(** [any(word in s for word in words)] *)
Definition any_in (words : list string) (s : string) : bool :=
  existsb (fun w => str_in w s) words.

(** [s[:n]] *)
Definition take (n : nat) (s : string) : string := String.substring 0 n s.

Definition dquote : string := String (ascii_of_nat 34) EmptyString.

(** ** [list.sort(key=...)]

    Python's sort is stable: elements that compare equal keep their order.
    A stable sort is modelled by the insertion sort that puts an element
    after the elements that sort strictly before it and in front of all the
    others; [before x y] says that [x] sorts strictly before [y]. *)

Section Sort.
Context {A : Type} (before : A -> A -> bool).

Fixpoint insert_by (x : A) (l : list A) : list A :=
  match l with
  | [] => [x]
  | y :: l' => if before y x then y :: insert_by x l' else x :: y :: l'
  end.

Fixpoint sort_by (l : list A) : list A :=
  match l with
  | [] => []
  | x :: l' => insert_by x (sort_by l')
  end.
End Sort.

(** [l.sort(key=key)] for an integer key *)
Definition sort_by_key {A : Type} (key : A -> Z) : list A -> list A :=
  sort_by (fun x y => key x <? key y).

(** [l.sort(key=key, reverse=True)] for a float key; the reversed sort keeps
    the original order of equal elements too. *)
Definition sort_by_float_desc {A : Type} (key : A -> float) : list A -> list A :=
  sort_by (fun x y => PrimFloat.ltb (key y) (key x)).

(** ** Exceptions and tenacity's [retry] *)

(** An exception: its class name and [str(e)]. *)
Record exn := Exn { exn_type : string; exn_msg : string }.

(** [@retry(stop=stop_after_attempt(n), retry=retry_if_exception_type(Exception),
    reraise=True)]: the call is repeated until it returns or has failed [n]
    times; then the last exception is raised. [call k] is the outcome of
    the [k]-th call (counted from 0). *)
Fixpoint retry_from {A : Type} (call : nat -> exn + A) (k n : nat) : exn + A :=
  match n with
  | O => inl (Exn "RetryError" "")
  | S n' =>
      match call k with
      | inr a => inr a
      | inl e => match n' with O => inl e | S _ => retry_from call (S k) n' end
      end
  end.

Definition retry {A : Type} (n : nat) (call : nat -> exn + A) : exn + A :=
  retry_from call 0 n.

(** ** Coroutines over a store

    A method that reads and writes the session's objects and may raise is a
    function from the state to an outcome and the state it leaves. *)

Definition M (S A : Type) : Type := S -> (exn + A) * S.

Definition ret {S A : Type} (a : A) : M S A := fun w => (inr a, w).
Definition raise {S A : Type} (e : exn) : M S A := fun w => (inl e, w).
Definition bind {S A B : Type} (m : M S A) (k : A -> M S B) : M S B :=
  fun w => match m w with
           | (inr a, w') => k a w'
           | (inl e, w') => (inl e, w')
           end.
(** [try: m except Exception as e: handler(e)] *)
Definition try_except {S A : Type} (m : M S A) (handler : exn -> M S A)
  : M S A :=
  fun w => match m w with
           | (inr a, w') => (inr a, w')
           | (inl e, w') => handler e w'
           end.
(** A call that does not touch the state. *)
Definition lift {S A : Type} (r : exn + A) : M S A := fun w => (r, w).
Definition get {S : Type} : M S S := fun w => (inr w, w).

#[global] Instance M_ret {S : Type} : MRet (M S) := @ret S.
#[global] Instance M_bind {S : Type} : MBind (M S) := fun A B k m => bind m k.

End Py.

(* ===================================================================== *)
(** * Shared data: JSON values, recommendations, statuses *)
(* ===================================================================== *)

(** JSON-LD values as the crawler hands them over: what [JSON.parse] gave
    in the page, as the Python value it arrives as. *)
Inductive json :=
| JNull
| JBool (b : bool)
| JNum (n : Z)
| JFloat (x : float)
| JStr (s : string)
| JList (l : list json)
| JObj (fields : gmap string json).

(** [type(v).__name__] *)
Definition type_name (v : json) : string :=
  match v with
  | JNull => "NoneType"
  | JBool _ => "bool"
  | JNum _ => "int"
  | JFloat _ => "float"
  | JStr _ => "str"
  | JList _ => "list"
  | JObj _ => "dict"
  end.

(** A recommendation is a Python dict with the string keys [category],
    [priority], [title], [description] and [impact]. *)
Abbreviation recommendation := (gmap string string).

Definition mk_rec (category priority title description impact : string)
  : recommendation :=
  <["category" := category]> (<["priority" := priority]> (<["title" := title]>
    (<["description" := description]> (<["impact" := impact]> ∅)))).

(** models/analysis.py, [AnalysisStatus] *)
Inductive AnalysisStatus := PENDING | PROCESSING | COMPLETED | FAILED.

Definition status_eqb (a b : AnalysisStatus) : bool :=
  match a, b with
  | PENDING, PENDING | PROCESSING, PROCESSING
  | COMPLETED, COMPLETED | FAILED, FAILED => true
  | _, _ => false
  end.

Definition status_value (s : AnalysisStatus) : string :=
  match s with
  | PENDING => "pending" | PROCESSING => "processing"
  | COMPLETED => "completed" | FAILED => "failed"
  end.

(* ===================================================================== *)
(** * services/seo_analyzer.py: the rule scorer *)
(* ===================================================================== *)

Module SEO.

(** What the crawler returns, as far as the analyzers read it. The six
    analysed keys are read with [dict.get(key, default)]; [None] stands for
    an absent key. [structured_data] holds one entry per JSON-LD script of
    the page, each whatever value the script's text parsed to: an object,
    but also an array or a scalar. *)
Record crawl_data := {
  url : string;
  meta_tags : option (gmap string string);
  headings : option (gmap string (list string));
  load_time : option float;
  mobile_friendly : option bool;
  ssl_enabled : option bool;
  structured_data : option (list json);
  html : string;
  text : string
}.

(** The [{'score', 'issues', 'recommendations'}] dict of a category. *)
Record analysis := {
  score : Z;
  issues : list string;
  recommendations : list recommendation
}.

Definition add_score (n : Z) (a : analysis) : analysis :=
  {| score := score a + n; issues := issues a;
     recommendations := recommendations a |}.
Definition add_issue (i : string) (a : analysis) : analysis :=
  {| score := score a; issues := issues a ++ [i];
     recommendations := recommendations a |}.
Definition add_rec (r : recommendation) (a : analysis) : analysis :=
  {| score := score a; issues := issues a;
     recommendations := recommendations a ++ [r] |}.

Definition WEIGHTS : list (string * float) :=
  [ ("meta_tags", 0.25%float); ("headings", 0.15%float);
    ("performance", 0.20%float); ("mobile", 0.15%float);
    ("security", 0.10%float); ("structured_data", 0.15%float) ].

Definition TITLE_MIN_LENGTH : nat := 30.
Definition TITLE_MAX_LENGTH : nat := 60.
Definition DESCRIPTION_MIN_LENGTH : nat := 120.
Definition DESCRIPTION_MAX_LENGTH : nat := 160.

Definition PERF_EXCELLENT : float := 2.0%float.
Definition PERF_GOOD : float := 3.0%float.
Definition PERF_ACCEPTABLE : float := 5.0%float.

(** ** [_analyze_meta_tags] *)

Definition title_step (meta_tags : gmap string string) (a : analysis) : analysis :=
  let title := default "" (meta_tags !! "title") in
  if negb (Py.truthy title) then
    add_rec (mk_rec "seo" "critical" "Add Title Tag"
      "Every page must have a unique, descriptive title tag (30-60 characters)"
      "high")
      (add_issue "Missing title tag" a)
  else if (Py.len title <? TITLE_MIN_LENGTH)%nat then
    add_rec (mk_rec "seo" "high" "Expand Title Tag"
      ("Your title is only " +:+ pretty (Py.len title) +:+
       " characters. Expand it to 30-60 characters for better SEO.")
      "medium")
      (add_score 20
        (add_issue ("Title too short (" +:+ pretty (Py.len title) +:+
                    " chars, recommended: " +:+ pretty TITLE_MIN_LENGTH +:+
                    "-" +:+ pretty TITLE_MAX_LENGTH +:+ ")") a))
  else if (TITLE_MAX_LENGTH <? Py.len title)%nat then
    add_rec (mk_rec "seo" "medium" "Shorten Title Tag"
      ("Your title is " +:+ pretty (Py.len title) +:+
       " characters. Shorten it to 60 characters or less to avoid truncation in search results.")
      "medium")
      (add_score 30
        (add_issue ("Title too long (" +:+ pretty (Py.len title) +:+
                    " chars, recommended: " +:+ pretty TITLE_MIN_LENGTH +:+
                    "-" +:+ pretty TITLE_MAX_LENGTH +:+ ")") a))
  else add_score 40 a.

Definition description_step (meta_tags : gmap string string) (a : analysis)
  : analysis :=
  let description := default "" (meta_tags !! "description") in
  if negb (Py.truthy description) then
    add_rec (mk_rec "seo" "high" "Add Meta Description"
      "Add a compelling meta description (120-160 characters) to improve click-through rates from search results."
      "high")
      (add_issue "Missing meta description" a)
  else if (Py.len description <? DESCRIPTION_MIN_LENGTH)%nat then
    add_rec (mk_rec "seo" "medium" "Expand Meta Description"
      ("Your meta description is only " +:+ pretty (Py.len description) +:+
       " characters. Expand it to 120-160 characters for better engagement.")
      "medium")
      (add_score 20
        (add_issue ("Description too short (" +:+
                    pretty (Py.len description) +:+ " chars)") a))
  else if (DESCRIPTION_MAX_LENGTH <? Py.len description)%nat then
    add_score 30
      (add_issue ("Description too long (" +:+
                  pretty (Py.len description) +:+ " chars)") a)
  else add_score 40 a.

(** [[k for k in meta_tags.keys() if k.startswith('og:')]] *)
Definition og_tags (meta_tags : gmap string string) : list string :=
  List.filter (Py.startswith "og:") (map fst (map_to_list meta_tags)).

Definition open_graph_step (meta_tags : gmap string string) (a : analysis)
  : analysis :=
  let n := List.length (og_tags meta_tags) in
  if (4 <=? n)%nat then add_score 10 a
  else if (0 <? n)%nat then
    add_rec (mk_rec "seo" "low" "Complete Open Graph Tags"
      "Add complete Open Graph tags (og:title, og:description, og:image, og:url) to improve social media sharing."
      "low")
      (add_score 5 a)
  else
    add_rec (mk_rec "seo" "medium" "Add Open Graph Tags"
      "Add Open Graph meta tags to control how your content appears when shared on social media platforms."
      "medium") a.

Definition canonical_step (meta_tags : gmap string string) (a : analysis)
  : analysis :=
  if bool_decide (is_Some (meta_tags !! "canonical")) then add_score 10 a
  else
    add_rec (mk_rec "seo" "low" "Add Canonical URL"
      "Add a canonical link tag to prevent duplicate content issues."
      "low") a.

Definition _analyze_meta_tags (meta_tags : gmap string string) : analysis :=
  let a := {| score := 0; issues := []; recommendations := [] |} in
  let a := title_step meta_tags a in
  let a := description_step meta_tags a in
  let a := open_graph_step meta_tags a in
  let a := canonical_step meta_tags a in
  {| score := Z.min (score a) 100; issues := issues a;
     recommendations := recommendations a |}.

(** ** [_analyze_headings] *)

(** [len(headings.get(level, []))] *)
Definition heading_count (headings : gmap string (list string)) (level : string)
  : nat :=
  List.length (default [] (headings !! level)).

Definition level_name (i : nat) : string := "h" +:+ pretty i.

(** The loop [for i in range(1, 6)] with its [break]: the first level [i]
    whose successor is used while [i] itself is not. *)
Fixpoint hierarchy_gap (headings : gmap string (list string)) (levels : list nat)
  : option nat :=
  match levels with
  | [] => None
  | i :: rest =>
      if (0 <? heading_count headings (level_name (i + 1)))%nat
         && (heading_count headings (level_name i) =? 0)%nat
      then Some i
      else hierarchy_gap headings rest
  end.

Definition h1_step (headings : gmap string (list string)) (a : analysis)
  : analysis :=
  let h1_count := heading_count headings "h1" in
  if (h1_count =? 0)%nat then
    add_rec (mk_rec "seo" "critical" "Add H1 Heading"
      "Every page must have exactly one H1 tag that describes the main topic."
      "high")
      (add_issue "Missing H1 tag" (add_score (-50) a))
  else if (1 <? h1_count)%nat then
    add_rec (mk_rec "seo" "high" "Use Single H1 Tag"
      ("You have " +:+ pretty h1_count +:+
       " H1 tags. Use only one H1 per page for better SEO.")
      "medium")
      (add_issue ("Multiple H1 tags found (" +:+ pretty h1_count +:+
                  "), should have only one") (add_score (-20) a))
  else a.

Definition h2_step (headings : gmap string (list string)) (a : analysis)
  : analysis :=
  let h1_count := heading_count headings "h1" in
  let h2_count := heading_count headings "h2" in
  if (h2_count =? 0)%nat && (0 <? h1_count)%nat then
    add_rec (mk_rec "seo" "medium" "Add H2 Subheadings"
      "Add H2 tags to structure your content with clear subheadings."
      "medium")
      (add_issue "No H2 tags found - consider adding subheadings"
        (add_score (-30) a))
  else a.

Definition hierarchy_step (headings : gmap string (list string)) (a : analysis)
  : analysis :=
  match hierarchy_gap headings [1; 2; 3; 4; 5]%nat with
  | Some i =>
      add_rec (mk_rec "seo" "low" "Fix Heading Hierarchy"
        "Maintain proper heading hierarchy (H1 → H2 → H3) without skipping levels."
        "low")
        (add_score (-20)
          (add_issue ("Heading hierarchy issue: " +:+
                      Py.upper (level_name (i + 1)) +:+ " found without " +:+
                      Py.upper (level_name i)) a))
  | None => a
  end.

Definition _analyze_headings (headings : gmap string (list string)) : analysis :=
  let a := {| score := 100; issues := []; recommendations := [] |} in
  let a := h1_step headings a in
  let a := h2_step headings a in
  let a := hierarchy_step headings a in
  {| score := Z.max (score a) 0; issues := issues a;
     recommendations := recommendations a |}.

(** ** [_analyze_performance] *)

Record perf_analysis := {
  perf_score : Z;
  perf_issue : option string;
  perf_recommendations : list recommendation
}.

Definition _analyze_performance (load_time : float) : perf_analysis :=
  if PrimFloat.ltb load_time PERF_EXCELLENT then
    {| perf_score := 100; perf_issue := None; perf_recommendations := [] |}
  else if PrimFloat.ltb load_time PERF_GOOD then
    {| perf_score := 80;
       perf_issue := Some ("Page load time (" +:+ Py.format_2f load_time +:+
                           "s) is acceptable but could be improved");
       perf_recommendations :=
         [mk_rec "seo" "low" "Optimize Page Speed"
            ("Your page loads in " +:+ Py.format_2f load_time +:+
             " seconds. Consider optimizing images and minifying resources to reach under 2 seconds.")
            "low"] |}
  else if PrimFloat.ltb load_time PERF_ACCEPTABLE then
    {| perf_score := 50;
       perf_issue := Some ("Page load time (" +:+ Py.format_2f load_time +:+
                           "s) is slow");
       perf_recommendations :=
         [mk_rec "seo" "high" "Improve Page Speed"
            ("Your page takes " +:+ Py.format_2f load_time +:+
             " seconds to load. Optimize images, enable caching, and minify CSS/JS to improve speed.")
            "high"] |}
  else
    {| perf_score := 20;
       perf_issue := Some ("Page load time (" +:+ Py.format_2f load_time +:+
                           "s) is very slow");
       perf_recommendations :=
         [mk_rec "seo" "critical" "Critical: Fix Page Speed"
            ("Your page takes " +:+ Py.format_2f load_time +:+
             " seconds to load, which severely impacts SEO and user experience. Prioritize speed optimization.")
            "critical"] |}.

(** ** [_analyze_mobile] and [_analyze_security] *)

Definition _analyze_mobile (mobile_friendly : bool) : Z * list recommendation :=
  if mobile_friendly then (100, [])
  else (0, [mk_rec "seo" "critical" "Add Viewport Meta Tag"
              ("Add <meta name=" +:+ Py.dquote +:+ "viewport" +:+ Py.dquote +:+
               " content=" +:+ Py.dquote +:+
               "width=device-width, initial-scale=1" +:+ Py.dquote +:+
               "> to make your site mobile-friendly. Mobile-first indexing requires this.")
              "critical"]).

Definition _analyze_security (ssl_enabled : bool) : Z * list recommendation :=
  if ssl_enabled then (100, [])
  else (0, [mk_rec "seo" "critical" "Enable HTTPS"
              ("Switch to HTTPS to secure your site. Google prioritizes HTTPS sites in search rankings and browsers mark HTTP sites as " +:+
               Py.dquote +:+ "Not Secure" +:+ Py.dquote +:+ ".")
              "critical"]).

(** ** [_analyze_structured_data] *)

Definition valid_types : list string :=
  [ "Organization"; "WebSite"; "Article"; "Product"; "LocalBusiness";
    "FAQPage"; "BreadcrumbList" ].

(** [item_type = item.get('@type', '')], then for a list its first element,
    or [''] when the list is empty. *)
Definition item_type (item : gmap string json) : json :=
  match default (JStr "") (item !! "@type") with
  | JList l => match l with t :: _ => t | [] => JStr "" end
  | t => t
  end.

(** [item_type in valid_types]: only a string equals a string. *)
Definition in_valid_types (t : json) : bool :=
  match t with
  | JStr s => existsb (String.eqb s) valid_types
  | _ => false
  end.

(** [item.get(...)] on an entry of [structured_data]: a dict has the
    method, any other value raises [AttributeError]. *)
Definition no_get (item : json) : Py.exn :=
  Py.Exn "AttributeError"
    ("'" +:+ type_name item +:+ "' object has no attribute 'get'").

Definition entry_type (item : json) : Py.exn + json :=
  match item with
  | JObj fields => inr (item_type fields)
  | _ => inl (no_get item)
  end.

(** The [for item in structured_data] loop with its [break]: the entries
    after the first recognised one are not looked at. *)
Fixpoint has_valid_schema (structured_data : list json) : Py.exn + bool :=
  match structured_data with
  | [] => inr false
  | item :: rest =>
      match entry_type item with
      | inl err => inl err
      | inr t => if in_valid_types t then inr true else has_valid_schema rest
      end
  end.

Definition _analyze_structured_data (structured_data : list json)
  : Py.exn + analysis :=
  match structured_data with
  | [] =>
      inr {| score := 0; issues := [];
             recommendations :=
               [mk_rec "seo" "medium" "Add Structured Data"
                  "Add Schema.org structured data (JSON-LD) to help search engines understand your content better and enable rich snippets."
                  "medium"] |}
  | _ =>
      match has_valid_schema structured_data with
      | inl err => inl err
      | inr true => inr {| score := 100; issues := []; recommendations := [] |}
      | inr false =>
          inr {| score := 50; issues := [];
                 recommendations :=
                   [mk_rec "seo" "low" "Improve Structured Data"
                      "Consider adding more specific schema types like Organization, Product, or Article for better search engine understanding."
                      "low"] |}
      end
  end.

(** ** [analyze] *)

(** The [metrics] entry of the result: the analysed inputs, defaults applied. *)
Record seo_metrics := {
  m_meta_tags : gmap string string;
  m_headings : gmap string (list string);
  m_load_time : float;
  m_mobile_friendly : bool;
  m_ssl_enabled : bool;
  m_structured_data : list json
}.

Record seo_result := {
  seo_score : float;
  category_scores : list (string * Z);
  seo_issues : list string;
  seo_recommendations : list recommendation;
  metrics : seo_metrics
}.

(** [self.WEIGHTS[key]]; every key of [scores] is a key of [WEIGHTS]. *)
Definition weight (key : string) : float :=
  match List.find (fun kw => String.eqb (fst kw) key) WEIGHTS with
  | Some kw => snd kw
  | None => 0%float
  end.

(** [sum(scores[key] * self.WEIGHTS[key] for key in scores)]: the dict is
    walked in insertion order and the products are added left to right,
    starting from 0. *)
Definition total_score (scores : list (string * Z)) : float :=
  fold_left
    (fun acc ks => PrimFloat.add acc
                     (PrimFloat.mul (Py.float_of_Z (snd ks)) (weight (fst ks))))
    scores 0%float.

(** [analyze]: the six analyses run in this order, so an exception of the
    structured-data analysis leaves [analyze] with it; nothing else in the
    body can raise. *)
Definition analyze (cd : crawl_data) : Py.exn + seo_result :=
  let meta := default ∅ (meta_tags cd) in
  let hs := default ∅ (headings cd) in
  let lt := default 0%float (load_time cd) in
  let mf := default false (mobile_friendly cd) in
  let ssl := default false (ssl_enabled cd) in
  let sd := default [] (structured_data cd) in
  let meta_analysis := _analyze_meta_tags meta in
  let heading_analysis := _analyze_headings hs in
  let perf_analysis := _analyze_performance lt in
  let '(mobile_score, mobile_recs) := _analyze_mobile mf in
  let '(security_score, security_recs) := _analyze_security ssl in
  match _analyze_structured_data sd with
  | inl err => inl err
  | inr sd_analysis =>
      let scores :=
        [ ("meta_tags", score meta_analysis);
          ("headings", score heading_analysis);
          ("performance", perf_score perf_analysis);
          ("mobile", mobile_score);
          ("security", security_score);
          ("structured_data", score sd_analysis) ] in
      inr {| seo_score := Py.round2 (total_score scores);
             category_scores := scores;
             seo_issues :=
               issues meta_analysis ++ issues heading_analysis ++
               match perf_issue perf_analysis with
               | Some i => [i]
               | None => []
               end;
             seo_recommendations :=
               recommendations meta_analysis ++
               recommendations heading_analysis ++
               perf_recommendations perf_analysis ++ mobile_recs ++
               security_recs ++ recommendations sd_analysis;
             metrics :=
               {| m_meta_tags := meta; m_headings := hs; m_load_time := lt;
                  m_mobile_friendly := mf; m_ssl_enabled := ssl;
                  m_structured_data := sd |} |}
  end.

(** [scores[key]] *)
Definition category_score (r : seo_result) (key : string) : Z :=
  match List.find (fun ks => String.eqb (fst ks) key) (category_scores r) with
  | Some ks => snd ks
  | None => 0
  end.

(** The snapshot of the specification's first end-to-end scenario. *)
Definition scenario1_description : string :=
  "This domain is established to be used for illustrative examples in documents and in literature without prior coordination or permission.".

Definition scenario1 : crawl_data :=
  {| url := "https://example.com";
     meta_tags := Some (<["title" := "Example Domain Reference Page"]>
                          (<["description" := scenario1_description]> ∅));
     headings := Some (<["h1" := ["Example Domain"]]>
                         (<["h2" := ["More information"]]> ∅));
     load_time := Some 1.5%float;
     mobile_friendly := Some true;
     ssl_enabled := Some true;
     structured_data := Some [ JObj (<["@type" := JStr "Organization"]> ∅) ];
     html := "<html></html>";
     text := "Example Domain" |}.

(** ** The rule score as the specification words it *)

(** "A weighted average of six categories with fixed weights: meta 25%,
    headings 15%, performance 20%, mobile 15%, security 10%,
    structured-data 15%", over the rationals. *)
Definition spec_weighted_sum (meta hd perf mobile sec sd : Z) : Q :=
  (0.25 * inject_Z meta + 0.15 * inject_Z hd + 0.20 * inject_Z perf +
   0.15 * inject_Z mobile + 0.10 * inject_Z sec + 0.15 * inject_Z sd)%Q.

Definition spec_rule_score (meta hd perf mobile sec sd : Z) : Q :=
  Py.Q_round2 (spec_weighted_sum meta hd perf mobile sec sd).

End SEO.


(* ===================================================================== *)
(** * services/llm_analyzer.py: the semantic scorer *)
(* ===================================================================== *)

Module LLM.

(** The JSON object the provider is asked for: the narrative fields
    ([what_it_does], [products_services], [target_audience], [unique_value],
    [overall_impression]) as a dict of strings, and [clarity_score]. *)
Record llm_result := {
  narrative : gmap string string;
  clarity : option Z
}.

Definition required_fields : list string :=
  [ "what_it_does"; "products_services"; "target_audience"; "unique_value" ].

(** The loop over [required_fields]: [completeness_score] starts at 0 and
    grows by 7.5 for every field with substantial content. *)
Definition completeness_score (r : gmap string string) : float :=
  fold_left
    (fun acc field =>
       let value := default "" (r !! field) in
       if Py.truthy value && (20 <? Py.len value)%nat
       then PrimFloat.add acc 7.5%float else acc)
    required_fields 0%float.

Definition penalty (r : gmap string string) : Z :=
  let overall_impression := Py.lower (default "" (r !! "overall_impression")) in
  if Py.any_in ["unclear"; "confusing"; "vague"; "difficult"] overall_impression
  then 10
  else if Py.any_in ["missing"; "lacking"; "insufficient"] overall_impression
  then 5
  else 0.

Definition _calculate_aeo_score (r : gmap string string) (clarity_score : Z)
  : float :=
  let base_score :=
    PrimFloat.mul
      (PrimFloat.div (Py.float_of_Z clarity_score) (Py.float_of_Z 10))
      (Py.float_of_Z 70) in
  let final_score :=
    PrimFloat.sub (PrimFloat.add base_score (completeness_score r))
                  (Py.float_of_Z (penalty r)) in
  Py.round2 (Py.min (Py.max final_score (Py.float_of_Z 0)) (Py.float_of_Z 100)).

(** [_generate_aeo_recommendations] *)
Definition _generate_aeo_recommendations (r : gmap string string)
    (clarity_score : Z) : list recommendation :=
  let what_it_does := default "" (r !! "what_it_does") in
  let unique_value := default "" (r !! "unique_value") in
  let target_audience := default "" (r !! "target_audience") in
  let products_services := default "" (r !! "products_services") in
  let overall_impression := Py.lower (default "" (r !! "overall_impression")) in
  (if clarity_score <? 7 then
     [mk_rec "aeo" "high" "Improve Content Clarity"
        ("Your website purpose scored " +:+ pretty clarity_score +:+
         "/10 for clarity. AI engines struggle to understand what you do. Add a clear value proposition and product descriptions in the first paragraph of your homepage.")
        "high"]
   else []) ++
  (if negb (Py.truthy what_it_does) || (Py.len what_it_does <? 30)%nat
      || Py.str_in "unclear" (Py.lower what_it_does) then
     [mk_rec "aeo" "critical" "Define Your Value Proposition"
        ("AI engines cannot clearly determine what your website does. Add a prominent, clear headline that explains your core offering in simple terms. Example: " +:+
         Py.dquote +:+ "We help X do Y" +:+ Py.dquote +:+ " or " +:+
         Py.dquote +:+ "The leading platform for Z" +:+ Py.dquote +:+ ".")
        "critical"]
   else []) ++
  (if negb (Py.truthy unique_value) || (Py.len unique_value <? 20)%nat
      || Py.str_in "unclear" (Py.lower unique_value)
      || Py.str_in "not clear" (Py.lower unique_value) then
     [mk_rec "aeo" "medium" "Highlight Unique Selling Points"
        "Your unique differentiators are not clear to AI engines. Add a section highlighting what sets you apart from competitors. This helps AI assistants recommend you over alternatives."
        "medium"]
   else []) ++
  (if negb (Py.truthy target_audience) || (Py.len target_audience <? 20)%nat
      || Py.str_in "unclear" (Py.lower target_audience) then
     [mk_rec "aeo" "medium" "Clarify Target Audience"
        ("Make it clearer who your product/service is for. AI engines need to understand your target audience to recommend you to the right users. Add phrases like " +:+
         Py.dquote +:+ "Perfect for..." +:+ Py.dquote +:+ " or " +:+
         Py.dquote +:+ "Designed for..." +:+ Py.dquote +:+ " in your content.")
        "medium"]
   else []) ++
  (if negb (Py.truthy products_services) || (Py.len products_services <? 30)%nat
   then
     [mk_rec "aeo" "high" "Detail Your Products/Services"
        "Your products or services are not clearly described. Add detailed descriptions of what you offer, including key features and benefits. This helps AI engines match user queries to your offerings."
        "high"]
   else []) ++
  (if Py.any_in ["poor"; "difficult"; "confusing"; "very unclear"]
        overall_impression then
     [mk_rec "aeo" "critical" "Comprehensive Content Overhaul Needed"
        "AI engines find your website difficult to understand and recommend. Consider a content audit focusing on: (1) Clear headline with value proposition, (2) Simple language explaining what you do, (3) Prominent product/service descriptions, (4) Customer benefits over features."
        "critical"]
   else []).

(** The result of [analyze_brand_recognition]. *)
Record aeo_result := {
  aeo_score : float;
  brand_recognition : llm_result;
  llm_model : string;
  aeo_recommendations : list recommendation
}.

(** What one call to the provider leads to inside the [try] block: the API
    call raises, the response text is empty, the cleaned text is not JSON,
    or [json.loads] yields the result object. *)
Inductive attempt :=
| ApiError (msg : string)
| EmptyResponse
| InvalidJson (msg : string)
| Parsed (r : llm_result).

Definition model : string := "claude-haiku-4-5-20251001".

(** One execution of the body of [analyze_brand_recognition]. An empty
    response raises [LLMAnalysisException] inside the [try] and is wrapped
    again by the [except Exception] clause. *)
Definition analyze_once (a : attempt) : Py.exn + aeo_result :=
  match a with
  | ApiError msg =>
      inl (Py.Exn "LLMAnalysisException" ("Anthropic Claude API error: " +:+ msg))
  | EmptyResponse =>
      inl (Py.Exn "LLMAnalysisException"
             "Anthropic Claude API error: Claude returned empty response")
  | InvalidJson msg =>
      inl (Py.Exn "LLMAnalysisException"
             ("Invalid JSON response from Claude: " +:+ msg))
  | Parsed r =>
      let clarity_score := default 5 (clarity r) in
      inr {| aeo_score := _calculate_aeo_score (narrative r) clarity_score;
             brand_recognition := r;
             llm_model := model;
             aeo_recommendations :=
               _generate_aeo_recommendations (narrative r) clarity_score |}
  end.

(** [analyze_brand_recognition] under its [@retry] decorator. *)
Definition analyze_brand_recognition (provider : nat -> attempt)
  : Py.exn + aeo_result :=
  Py.retry 3 (fun k => analyze_once (provider k)).

(** ** The semantic score as the specification words it *)

(** "For each of the four narrative fields whose value is present and longer
    than 20 characters" *)
Definition spec_complete_fields (r : gmap string string) : Z :=
  Z.of_nat (List.length
    (List.filter
       (fun field =>
          match r !! field with
          | Some value => (20 <? Py.len value)%nat
          | None => false
          end)
       required_fields)).




End LLM.

(* ===================================================================== *)
(** * services/orchestrator.py: the single-URL pipeline *)
(* ===================================================================== *)

Module Job.

(** [request.error_details] *)
Record error_details := {
  ed_type : string;
  ed_step : option string;
  ed_progress : Z
}.

(** models/analysis.py, [AnalysisRequest]. The timestamps are kept as flags:
    set or not. *)
Record AnalysisRequest := {
  url : string;
  status : AnalysisStatus;
  progress : Z;
  current_step : option string;
  started_at : bool;
  completed_at : bool;
  error_message : option string;
  err_details : option error_details
}.

(** models/analysis.py, [AnalysisResult] *)
Record AnalysisResult := {
  page_html : string;
  page_text : string;
  screenshot_path : string;
  seo_score : float;
  seo_metrics : SEO.seo_metrics;
  aeo_score : float;
  aeo_metrics : LLM.llm_result;
  recommendations : list recommendation
}.

(** The dict handed to the progress callback. *)
Record progress_data := {
  pd_status : string;
  pd_step : option string;
  pd_progress : option Z;
  pd_error : option string
}.

(** The state a pipeline run works on: the request object of the session,
    the request row as each [commit] wrote it (oldest first, the row the
    API created at its head), the result row, and the payloads sent to the
    progress callback. *)
Record world := {
  request : AnalysisRequest;
  committed : list AnalysisRequest;
  result : option AnalysisResult;
  sent : list progress_data
}.

(** The collaborators of a run: the crawler, the provider behind the
    semantic scorer, the file system the screenshot is written to, and
    whether a progress callback is installed. *)
Record env := {
  crawl : string -> Py.exn + SEO.crawl_data;
  provider : nat -> LLM.attempt;
  save_screenshot : Py.exn + string;
  has_callback : bool
}.

(** The row [POST /analysis] creates. *)
Definition new_request (u : string) : AnalysisRequest :=
  {| url := u; status := PENDING; progress := 0; current_step := None;
     started_at := false; completed_at := false;
     error_message := None; err_details := None |}.

Definition new_world (u : string) : world :=
  {| request := new_request u; committed := [new_request u];
     result := None; sent := [] |}.

(** ** The operations of a run on its state *)

Abbreviation M := (Py.M world).

Definition modify_request (f : AnalysisRequest -> AnalysisRequest) : M unit :=
  fun w => (inr tt, {| request := f (request w); committed := committed w;
                       result := result w; sent := sent w |}).
(** [await self.db.commit()] *)
Definition commit : M unit :=
  fun w => (inr tt, {| request := request w;
                       committed := committed w ++ [request w];
                       result := result w; sent := sent w |}).
(** [self.db.add(result)] *)
Definition add_result (r : AnalysisResult) : M unit :=
  fun w => (inr tt, {| request := request w; committed := committed w;
                       result := Some r; sent := sent w |}).
(** [await self.progress_callback(str(request.id), data)], when one is set *)
Definition callback (e : env) (d : progress_data) : M unit :=
  fun w => (inr tt,
            {| request := request w; committed := committed w;
               result := result w;
               sent := if has_callback e then sent w ++ [d] else sent w |}).

(** ** The methods of [AnalysisOrchestrator] *)

Definition _update_progress (e : env) (step : string) (p : Z) : M unit :=
  modify_request (fun r =>
    {| url := url r; status := status r; progress := p;
       current_step := Some step; started_at := started_at r;
       completed_at := completed_at r; error_message := error_message r;
       err_details := err_details r |});;
  commit;;
  callback e {| pd_status := "processing"; pd_step := Some step;
                pd_progress := Some p; pd_error := None |}.

Definition _update_status (s : AnalysisStatus) (step : string) (p : Z) : M unit :=
  modify_request (fun r =>
    {| url := url r; status := s; progress := p; current_step := Some step;
       started_at :=
         match s with PROCESSING => true | _ => started_at r end;
       completed_at :=
         match s with COMPLETED => true | _ => completed_at r end;
       error_message := error_message r; err_details := err_details r |});;
  commit.

Definition _handle_error (e : env) (error : Py.exn) : M unit :=
  modify_request (fun r =>
    {| url := url r; status := FAILED; progress := progress r;
       current_step := current_step r; started_at := started_at r;
       completed_at := completed_at r;
       error_message := Some (Py.exn_msg error);
       err_details := Some {| ed_type := Py.exn_type error;
                              ed_step := current_step r;
                              ed_progress := progress r |} |});;
  commit;;
  callback e {| pd_status := "failed"; pd_step := None; pd_progress := None;
                pd_error := Some (Py.exn_msg error) |}.

Definition _crawl_website (e : env) (u : string) : M SEO.crawl_data :=
  match crawl e u with
  | inr cd => Py.ret cd
  | inl err =>
      Py.raise (Py.Exn "CrawlerException"
               ("Failed to crawl " +:+ u +:+ ": " +:+ Py.exn_msg err))
  end.

Definition _analyze_seo (cd : SEO.crawl_data) : M SEO.seo_result :=
  Py.lift (SEO.analyze cd).

Definition _analyze_with_llm (e : env) : M LLM.aeo_result :=
  Py.lift (LLM.analyze_brand_recognition (provider e)).

Definition priority_order (p : string) : Z :=
  if String.eqb p "critical" then 0
  else if String.eqb p "high" then 1
  else if String.eqb p "medium" then 2
  else if String.eqb p "low" then 3
  else 3.

(** [lambda x: priority_order.get(x.get('priority', 'low'), 3)] *)
Definition priority_key (x : recommendation) : Z :=
  priority_order (default "low" (x !! "priority")).

(** The merged and sorted recommendations of [_save_results]. *)
Definition merge_recommendations (seo aeo : list recommendation)
  : list recommendation :=
  Py.sort_by_key priority_key (seo ++ aeo).

Definition _save_results (e : env) (cd : SEO.crawl_data)
    (seo_results : SEO.seo_result) (aeo_results : LLM.aeo_result)
  : M AnalysisResult :=
  path ← Py.lift (save_screenshot e);
  let all_recommendations :=
    merge_recommendations (SEO.seo_recommendations seo_results)
                          (LLM.aeo_recommendations aeo_results) in
  let r := {| page_html := Py.take 50000 (SEO.html cd);
              page_text := Py.take 50000 (SEO.text cd);
              screenshot_path := path;
              seo_score := SEO.seo_score seo_results;
              seo_metrics := SEO.metrics seo_results;
              aeo_score := LLM.aeo_score aeo_results;
              aeo_metrics := LLM.brand_recognition aeo_results;
              recommendations := all_recommendations |} in
  add_result r;;
  commit;;
  Py.ret r.

(** [run_analysis]: the request row exists (the API created it before the
    worker was started). *)
Definition run_analysis (e : env) : M AnalysisResult :=
  Py.try_except
    (_update_status PROCESSING "Starting analysis" 0;;
     _update_progress e "Crawling website" 10;;
     w ← Py.get;
     crawl_data ← _crawl_website e (url (request w));
     _update_progress e "Crawl completed" 30;;
     _update_progress e "Analyzing SEO metrics" 35;;
     seo_results ← _analyze_seo crawl_data;
     _update_progress e "SEO analysis completed" 60;;
     _update_progress e "Running AI analysis" 65;;
     aeo_results ← _analyze_with_llm e;
     _update_progress e "AI analysis completed" 90;;
     _update_progress e "Saving results" 95;;
     r ← _save_results e crawl_data seo_results aeo_results;
     _update_status COMPLETED "Analysis completed" 100;;
     Py.ret r)
    (fun err => _handle_error e err;; Py.raise err).

End Job.

(* ===================================================================== *)
(** * services/batch_llm_analyzer.py and comparison_service.py:
      the aggregator *)
(* ===================================================================== *)

Module Aggregator.

(** ** [BatchLLMAnalyzer] *)

(** The JSON object of the provider's answer; every key may be missing. *)
Record reply := {
  r_insights : option string;
  r_opportunities : option (list string);
  r_threats : option (list string);
  r_overall_winner : option (gmap string string)
}.

(** What one call to the provider leads to: the API call raises, the
    response text is not JSON, or [json.loads] yields the answer. *)
Inductive attempt :=
| ApiError (msg : string)
| InvalidJson (msg : string)
| Parsed (r : reply).

(** The dict [analyze_competitive_landscape] returns. *)
Record landscape := {
  insights : string;
  opportunities : list string;
  threats : list string;
  overall_winner : gmap string string
}.

(** One competitor summary of [_prepare_competitor_data]. *)
Record competitor := {
  c_url : string;
  c_label : option string;
  c_seo_score : float;
  c_aeo_score : float;
  c_seo_rank : Z;
  c_aeo_rank : Z;
  c_issues : list string;
  c_strengths : list string
}.

(** One execution of the body of [analyze_competitive_landscape]. The
    prompt built from [competitor_data] goes to the provider, whose answer
    the model takes as given. *)
Definition analyze_once (competitor_data : list competitor) (a : attempt)
  : Py.exn + landscape :=
  match competitor_data with
  | [] => inl (Py.Exn "LLMAnalysisException" "No competitor data provided")
  | _ :: _ =>
      match a with
      | ApiError msg =>
          inl (Py.Exn "LLMAnalysisException" ("OpenAI API error: " +:+ msg))
      | InvalidJson msg =>
          inl (Py.Exn "LLMAnalysisException"
                 ("Invalid JSON response from GPT: " +:+ msg))
      | Parsed r =>
          inr {| insights := default "" (r_insights r);
                 opportunities := default [] (r_opportunities r);
                 threats := default [] (r_threats r);
                 overall_winner := default ∅ (r_overall_winner r) |}
      end
  end.

(** [analyze_competitive_landscape] under its [@retry] decorator. *)
Definition analyze_competitive_landscape (competitor_data : list competitor)
    (provider : nat -> attempt) : Py.exn + landscape :=
  Py.retry 3 (fun k => analyze_once competitor_data (provider k)).

(** ** [ComparisonService] *)

(** A completed analysis: the result row with the URL of its request. *)
Definition completed_result : Type := string * Job.AnalysisResult.

Record ranking := {
  url : string;
  label : option string;
  score : float;
  rank : Z;
  delta_from_leader : float;
  delta_from_average : float
}.

Record leader := {
  l_url : string;
  l_score : float;
  l_label : option string
}.

(** [sum(xs)] over floats, from 0, left to right *)
Definition float_sum (xs : list float) : float :=
  fold_left PrimFloat.add xs 0%float.

(** [_get_url_label]: always [None]. *)
Definition _get_url_label (r : completed_result) : option string := None.

(** [_calculate_rankings(results, metric_type)] *)
Definition _calculate_rankings (results : list completed_result)
    (metric_type : string) : list ranking :=
  let scores :=
    map (fun r : completed_result =>
           (fst r,
            Py.round2 (if String.eqb metric_type "seo"
                       then Job.seo_score (snd r) else Job.aeo_score (snd r)),
            _get_url_label r))
        results in
  let scores := Py.sort_by_float_desc (fun s => snd (fst s)) scores in
  let avg_score :=
    match scores with
    | [] => 0%float
    | _ :: _ =>
        PrimFloat.div (float_sum (map (fun s => snd (fst s)) scores))
                      (Py.float_of_Z (Z.of_nat (List.length scores)))
    end in
  let leader_score :=
    match scores with
    | [] => 0%float
    | s :: _ => snd (fst s)
    end in
  imap (fun idx item =>
          {| url := fst (fst item);
             label := snd item;
             score := snd (fst item);
             rank := Z.of_nat idx + 1;
             delta_from_leader :=
               Py.round2 (PrimFloat.sub (snd (fst item)) leader_score);
             delta_from_average :=
               Py.round2 (PrimFloat.sub (snd (fst item)) avg_score) |})
       scores.

Definition leader_of (rankings : list ranking) : option leader :=
  match rankings with
  | [] => None
  | r :: _ => Some {| l_url := url r; l_score := score r; l_label := label r |}
  end.

(** [_identify_market_leader]: the [seo] and the [aeo] leader *)
Definition _identify_market_leader (seo_rankings aeo_rankings : list ranking)
  : option leader * option leader :=
  (leader_of seo_rankings, leader_of aeo_rankings).

Definition average_of (rankings : list ranking) : float :=
  match rankings with
  | [] => 0%float
  | _ :: _ =>
      PrimFloat.div (float_sum (map score rankings))
                    (Py.float_of_Z (Z.of_nat (List.length rankings)))
  end.

(** [_calculate_market_average]: the [seo] and the [aeo] average *)
Definition _calculate_market_average (seo_rankings aeo_rankings : list ranking)
  : float * float :=
  (Py.round2 (average_of seo_rankings), Py.round2 (average_of aeo_rankings)).

(** [_extract_top_issues]: the stored [seo_metrics] dict has no [issues]
    key, so the issues are the descriptions of the critical and high
    recommendations among the first five. *)
Definition _extract_top_issues (r : Job.AnalysisResult) : list string :=
  map (fun rec : recommendation => default "" (rec !! "description"))
      (List.filter
         (fun rec : recommendation =>
            match rec !! "priority" with
            | Some p => String.eqb p "critical" || String.eqb p "high"
            | None => false
            end)
         (firstn 5 (Job.recommendations r))).

(** [_extract_strengths]: the stored [seo_metrics] dict has neither a
    [category_scores] nor a [metrics] key, so no strength is found. *)
Definition _extract_strengths (r : Job.AnalysisResult) : list string := [].

(** [{r['url']: r['rank'] for r in rankings}]: a later entry for the same
    URL replaces an earlier one. *)
Definition rank_map (rankings : list ranking) : gmap string Z :=
  list_to_map (rev (map (fun r => (url r, rank r)) rankings)).

Definition _prepare_competitor_data (results : list completed_result)
    (seo_rankings aeo_rankings : list ranking) : list competitor :=
  map (fun r : completed_result =>
         {| c_url := fst r;
            c_label := _get_url_label r;
            c_seo_score := Py.round2 (Job.seo_score (snd r));
            c_aeo_score := Py.round2 (Job.aeo_score (snd r));
            c_seo_rank := default 0 (rank_map seo_rankings !! fst r);
            c_aeo_rank := default 0 (rank_map aeo_rankings !! fst r);
            c_issues := firstn 5 (_extract_top_issues (snd r));
            c_strengths := firstn 3 (_extract_strengths (snd r)) |})
      results.

Record axis_comparison := {
  rankings : list ranking;
  average : float;
  axis_leader : option leader
}.

(** models/competitive.py, [ComparisonResult] *)
Record ComparisonResult := {
  seo_comparison : axis_comparison;
  aeo_comparison : axis_comparison;
  market_leader : option leader * option leader;
  market_average : float * float;
  competitive_insights : string;
  cmp_opportunities : list string;
  cmp_threats : list string
}.

(** Steps 1 to 6 of [generate_comparison], from the fetched results to the
    record that is about to be saved: [None] when fewer than two results
    are there, an exception when the narrative call fails for good. *)
Definition build_comparison (results : list completed_result)
    (provider : nat -> attempt) : Py.exn + option ComparisonResult :=
  if (List.length results <? 2)%nat then inr None
  else
    let seo_rankings := _calculate_rankings results "seo" in
    let aeo_rankings := _calculate_rankings results "aeo" in
    let market_leader := _identify_market_leader seo_rankings aeo_rankings in
    let market_average := _calculate_market_average seo_rankings aeo_rankings in
    let competitor_data :=
      _prepare_competitor_data results seo_rankings aeo_rankings in
    match analyze_competitive_landscape competitor_data provider with
    | inl e => inl e
    | inr llm_insights =>
        inr (Some
          {| seo_comparison :=
               {| rankings := seo_rankings; average := fst market_average;
                  axis_leader := fst market_leader |};
             aeo_comparison :=
               {| rankings := aeo_rankings; average := snd market_average;
                  axis_leader := snd market_leader |};
             market_leader := market_leader;
             market_average := market_average;
             competitive_insights := insights llm_insights;
             cmp_opportunities := opportunities llm_insights;
             cmp_threats := threats llm_insights |})
    end.

End Aggregator.

(* ===================================================================== *)
(** * services/competitive_orchestrator.py and
      competitive_orchestrator_sync.py: the batch pipeline *)
(* ===================================================================== *)

Module Batch.

(** models/competitive.py, [CompetitiveAnalysisBatch]; timestamps as flags. *)
Record CompetitiveAnalysisBatch := {
  id : string;
  status : AnalysisStatus;
  progress : Z;
  total_urls : Z;
  completed_count : Z;
  failed_count : Z;
  started_at : bool;
  completed_at : bool;
  error_message : option string
}.

(** The dicts the batch-level progress callback receives, by shape. *)
Inductive event :=
| StatusUpdate (st : string) (p : Z)
| UrlProgress (p : Z) (current_url total : Z) (current_step : string)
              (individual : Z * string * string)
| Final (st : string) (p : Z) (completed failed total : Z)
        (has_comparison : bool)
| Failure (p : Z) (error : string).

Definition event_progress (ev : event) : Z :=
  match ev with
  | StatusUpdate _ p | UrlProgress p _ _ _ _ | Final _ p _ _ _ _
  | Failure p _ => p
  end.

(** The state a batch run works on: the batch object of the session, the
    batch row as each [commit] wrote it (oldest first, the row the API
    created at its head), the member jobs in [order_index] order, the
    comparison row, and the payloads sent to the progress callback. *)
Record world := {
  batch : CompetitiveAnalysisBatch;
  committed : list CompetitiveAnalysisBatch;
  urls : list Job.world;
  comparison : option Aggregator.ComparisonResult;
  sent : list event
}.

(** The collaborators: those of each member job, by index, the provider
    behind the narrative call, and whether a progress callback is set. *)
Record env := {
  url_env : nat -> Job.env;
  narrative : nat -> Aggregator.attempt;
  has_callback : bool
}.

(** What [POST /competitive] creates for the given URLs. *)
Definition new_batch (i : string) (us : list string) : CompetitiveAnalysisBatch :=
  {| id := i; status := PENDING; progress := 0;
     total_urls := Z.of_nat (List.length us);
     completed_count := 0; failed_count := 0;
     started_at := false; completed_at := false; error_message := None |}.

Definition new_world (i : string) (us : list string) : world :=
  {| batch := new_batch i us; committed := [new_batch i us];
     urls := map Job.new_world us; comparison := None; sent := [] |}.

(** The dict a run returns. *)
Record summary := {
  s_status : string;
  s_total_urls : Z;
  s_completed_count : Z;
  s_failed_count : Z;
  s_has_comparison : bool
}.

(** ** The operations of a run on its state *)

Abbreviation M := (Py.M world).

Definition modify_batch (f : CompetitiveAnalysisBatch -> CompetitiveAnalysisBatch)
  : M unit :=
  fun w => (inr tt, {| batch := f (batch w); committed := committed w;
                       urls := urls w; comparison := comparison w;
                       sent := sent w |}).
(** [commit()] on the session that holds the batch *)
Definition commit : M unit :=
  fun w => (inr tt, {| batch := batch w; committed := committed w ++ [batch w];
                       urls := urls w; comparison := comparison w;
                       sent := sent w |}).
(** [self.db.add(comparison)] *)
Definition add_comparison (c : Aggregator.ComparisonResult) : M unit :=
  fun w => (inr tt, {| batch := batch w; committed := committed w;
                       urls := urls w; comparison := Some c; sent := sent w |}).
Definition send (evs : list event) : M unit :=
  fun w => (inr tt, {| batch := batch w; committed := committed w;
                       urls := urls w; comparison := comparison w;
                       sent := sent w ++ evs |}).
(** [await self.progress_callback(str(batch_id), data)], when one is set *)
Definition callback (e : env) (ev : event) : M unit :=
  send (if has_callback e then [ev] else []).
Definition set_url (i : nat) (cw : Job.world) : M unit :=
  fun w => (inr tt, {| batch := batch w; committed := committed w;
                       urls := <[i := cw]> (urls w);
                       comparison := comparison w; sent := sent w |}).

Fixpoint for_each (l : list nat) (f : nat -> M unit) : M unit :=
  match l with
  | [] => Py.ret tt
  | i :: l' => f i;; for_each l' f
  end.

Definition set_progress (p : Z) (b : CompetitiveAnalysisBatch)
  : CompetitiveAnalysisBatch :=
  {| id := id b; status := status b; progress := p; total_urls := total_urls b;
     completed_count := completed_count b; failed_count := failed_count b;
     started_at := started_at b; completed_at := completed_at b;
     error_message := error_message b |}.
Definition set_status (s : AnalysisStatus) (b : CompetitiveAnalysisBatch)
  : CompetitiveAnalysisBatch :=
  {| id := id b; status := s; progress := progress b; total_urls := total_urls b;
     completed_count := completed_count b; failed_count := failed_count b;
     started_at := started_at b; completed_at := completed_at b;
     error_message := error_message b |}.
Definition set_counts (c f : Z) (b : CompetitiveAnalysisBatch)
  : CompetitiveAnalysisBatch :=
  {| id := id b; status := status b; progress := progress b;
     total_urls := total_urls b; completed_count := c; failed_count := f;
     started_at := started_at b; completed_at := completed_at b;
     error_message := error_message b |}.
Definition set_started (b : CompetitiveAnalysisBatch) : CompetitiveAnalysisBatch :=
  {| id := id b; status := status b; progress := progress b;
     total_urls := total_urls b; completed_count := completed_count b;
     failed_count := failed_count b; started_at := true;
     completed_at := completed_at b; error_message := error_message b |}.
Definition set_completed_at (b : CompetitiveAnalysisBatch)
  : CompetitiveAnalysisBatch :=
  {| id := id b; status := status b; progress := progress b;
     total_urls := total_urls b; completed_count := completed_count b;
     failed_count := failed_count b; started_at := started_at b;
     completed_at := true; error_message := error_message b |}.
Definition set_error (m : string) (b : CompetitiveAnalysisBatch)
  : CompetitiveAnalysisBatch :=
  {| id := id b; status := status b; progress := progress b;
     total_urls := total_urls b; completed_count := completed_count b;
     failed_count := failed_count b; started_at := started_at b;
     completed_at := completed_at b; error_message := Some m |}.
(** [if error_message: batch.error_message = error_message] *)
Definition set_error_if (m : option string) (b : CompetitiveAnalysisBatch)
  : CompetitiveAnalysisBatch :=
  match m with
  | Some msg => if Py.truthy msg then set_error msg b else b
  | None => b
  end.

(** ** [ComparisonService.generate_comparison] on the batch's rows *)

(** [_fetch_completed_results]: the result rows of the member requests
    whose request is COMPLETED. *)
Definition _fetch_completed_results : M (list Aggregator.completed_result) :=
  w ← Py.get;
  Py.ret
    (omap (fun cw : Job.world =>
             match Job.result cw with
             | Some r =>
                 if status_eqb (Job.status (Job.request cw)) COMPLETED
                 then Some (Job.url (Job.request cw), r) else None
             | None => None
             end)
          (urls w)).

(** [generate_comparison]: the comparison is added and committed once the
    narrative call has returned; an exception leaves no row. With
    [own_session] the service works on a session of its own and its commit
    does not write the orchestrator's batch object. *)
Definition generate_comparison (e : env) (own_session : bool)
  : M (option Aggregator.ComparisonResult) :=
  results ← _fetch_completed_results;
  c ← Py.lift (Aggregator.build_comparison results (narrative e));
  match c with
  | None => Py.ret None
  | Some cmp =>
      add_comparison cmp;;
      (if own_session then Py.ret tt else commit);;
      Py.ret (Some cmp)
  end.

(** ** [CompetitiveOrchestrator] (asynchronous) *)

Definition _update_batch_status (e : env) (s : AnalysisStatus) (p : Z)
    (error_message : option string) : M unit :=
  modify_batch (fun b =>
    let b := set_progress p (set_status s b) in
    let b := match s with PROCESSING => set_started b | _ => b end in
    let b := match s with COMPLETED | FAILED => set_completed_at b | _ => b end in
    set_error_if error_message b);;
  commit;;
  callback e (StatusUpdate (status_value s) p).

(** The callback [individual_progress] that
    [_create_individual_progress_callback] builds for the URL at
    [url_index]: the batch-level event for one progress payload of that
    URL's pipeline. *)
Definition aggregate_progress (url_index total_urls url_progress : Z) : Z :=
  let base_contribution :=
    PrimFloat.mul
      (PrimFloat.div (Py.float_of_Z url_index) (Py.float_of_Z total_urls))
      (Py.float_of_Z 100) in
  let current_contribution :=
    PrimFloat.mul
      (PrimFloat.mul
         (PrimFloat.div (Py.float_of_Z url_progress) (Py.float_of_Z 100))
         (PrimFloat.div (Py.float_of_Z 1) (Py.float_of_Z total_urls)))
      (Py.float_of_Z 100) in
  Py.int_of_float (PrimFloat.add base_contribution current_contribution).

Definition individual_progress (url_index total_urls : Z)
    (progress_data : Job.progress_data) : event :=
  let url_progress := default 0 (Job.pd_progress progress_data) in
  let step := default "" (Job.pd_step progress_data) in
  UrlProgress
    (Z.min (aggregate_progress url_index total_urls url_progress) 99)
    (url_index + 1) total_urls
    ("URL " +:+ pretty (url_index + 1) +:+ "/" +:+ pretty total_urls +:+
     ": " +:+ step)
    (url_progress, step, Job.pd_status progress_data).

Definition child_env (e : env) (index : nat) (with_callback : bool) : Job.env :=
  {| Job.crawl := Job.crawl (url_env e index);
     Job.provider := Job.provider (url_env e index);
     Job.save_screenshot := Job.save_screenshot (url_env e index);
     Job.has_callback := with_callback |}.

(** [_analyze_single_url]: the member's pipeline runs with the individual
    callback (if the batch has a callback at all); its exception is
    logged and dropped. *)
Definition _analyze_single_url (e : env) (total : nat) (index : nat) : M unit :=
  w ← Py.get;
  match urls w !! index with
  | None => Py.ret tt
  | Some cw =>
      let '(_, cw') := Job.run_analysis (child_env e index (has_callback e)) cw in
      set_url index cw';;
      send (map (individual_progress (Z.of_nat index) (Z.of_nat total))
                (drop (List.length (Job.sent cw)) (Job.sent cw')))
  end.

(** [_analyze_all_urls_concurrently]: the member pipelines write disjoint
    rows, so their interleaving under the semaphore does not show in the
    rows they leave; they are run one after the other, in index order. *)
Definition _analyze_all_urls_concurrently (e : env) : M unit :=
  w ← Py.get;
  let total := List.length (urls w) in
  for_each (seq 0 total) (_analyze_single_url e total).

Definition _handle_batch_error (e : env) (error : Py.exn) : M unit :=
  modify_batch (fun b =>
    set_completed_at
      (set_error (Py.exn_msg error) (set_progress 100 (set_status FAILED b))));;
  commit;;
  callback e (Failure 100 (Py.exn_msg error)).

(** [sum(1 for entry in url_entries
         if entry.analysis_request.status == AnalysisStatus.COMPLETED)] *)
Definition count_completed (url_entries : list Job.world) : Z :=
  Z.of_nat (List.length
    (List.filter
       (fun cw => status_eqb (Job.status (Job.request cw)) COMPLETED)
       url_entries)).

Definition run_competitive_analysis (e : env) : M summary :=
  Py.try_except
    (_update_batch_status e PROCESSING 0 None;;
     w ← Py.get;
     match urls w with
     | [] =>
         Py.raise (Py.Exn "AnalysisException"
                     ("No URLs found for batch " +:+ id (batch w)))
     | _ :: _ =>
         _analyze_all_urls_concurrently e;;
         w ← Py.get;
         let url_entries := urls w in
         let completed_count := count_completed url_entries in
         let failed_count := Z.of_nat (List.length url_entries) - completed_count in
         modify_batch (set_counts completed_count failed_count);;
         comparison ←
           (if 2 <=? completed_count then generate_comparison e false
            else Py.ret None);
         let final_status :=
           if completed_count =? 0 then FAILED
           else if 2 <=? completed_count then COMPLETED
           else FAILED in
         modify_batch (fun b =>
           if completed_count =? 0 then
             set_progress 100 (set_error "All URL analyses failed" b)
           else if 2 <=? completed_count then set_progress 100 b
           else
             set_progress 100
               (set_error "Insufficient successful analyses (minimum 2 required)" b));;
         modify_batch (fun b => set_completed_at (set_status final_status b));;
         commit;;
         callback e (Final (status_value final_status) 100 completed_count
                       failed_count (Z.of_nat (List.length url_entries))
                       (bool_decide (is_Some comparison)));;
         Py.ret {| s_status := status_value final_status;
                   s_total_urls := Z.of_nat (List.length url_entries);
                   s_completed_count := completed_count;
                   s_failed_count := failed_count;
                   s_has_comparison := bool_decide (is_Some comparison) |}
     end)
    (fun err => _handle_batch_error e err;; Py.raise err).

(** ** [CompetitiveOrchestratorSync] *)

(** The dict [_analyze_single_url_async] returns for one URL. *)
Inductive url_result :=
| UrlCompleted (r : Job.AnalysisResult)
| UrlFailed (error : string).

Definition is_completed (r : url_result) : bool :=
  match r with UrlCompleted _ => true | UrlFailed _ => false end.

Definition _update_batch_progress (p : Z) : M unit :=
  modify_batch (set_progress p);;
  commit.

Definition _finalize_batch (s : AnalysisStatus) (completed_count failed_count : Z)
    (error_message : option string) : M unit :=
  modify_batch (fun b =>
    set_error_if error_message
      (set_completed_at
         (set_counts completed_count failed_count
            (set_progress 100 (set_status s b)))));;
  commit.

(** [_analyze_single_url_async] around [_run_single_analysis_async]: the
    member's pipeline runs without a callback; the URL counts as completed
    when the pipeline returned and its result row is found. *)
Definition _analyze_single_url_async (e : env) (index : nat) : M url_result :=
  w ← Py.get;
  match urls w !! index with
  | None => Py.ret (UrlFailed "Analysis returned None")
  | Some cw =>
      let '(outcome, cw') := Job.run_analysis (child_env e index false) cw in
      set_url index cw';;
      Py.ret match outcome with
             | inl err => UrlFailed (Py.exn_msg err)
             | inr _ =>
                 match Job.result cw' with
                 | Some r => UrlCompleted r
                 | None => UrlFailed "Analysis returned None"
                 end
             end
  end.

Fixpoint gather (l : list nat) (f : nat -> M url_result) : M (list url_result) :=
  match l with
  | [] => Py.ret []
  | i :: l' => r ← f i; rs ← gather l' f; Py.ret (r :: rs)
  end.

Definition _run_concurrent_analyses (e : env) : M (list url_result) :=
  w ← Py.get;
  gather (seq 0 (List.length (urls w))) (_analyze_single_url_async e).

Definition _generate_comparison_sync (e : env)
  : M (option Aggregator.ComparisonResult) :=
  generate_comparison e true.

Definition run_analysis (e : env) : M summary :=
  Py.try_except
    (_update_batch_progress 5;;
     w ← Py.get;
     match urls w with
     | [] =>
         Py.raise (Py.Exn "Exception"
                     ("No URLs found for batch " +:+ id (batch w)))
     | _ :: _ =>
         modify_batch (fun b => set_started (set_progress 10 (set_status PROCESSING b)));;
         commit;;
         results ← _run_concurrent_analyses e;
         _update_batch_progress 80;;
         let completed_results := List.filter is_completed results in
         comparison ←
           (if (2 <=? List.length completed_results)%nat
            then _generate_comparison_sync e else Py.ret None);
         _update_batch_progress 95;;
         let completed_count := Z.of_nat (List.length completed_results) in
         let failed_count := Z.of_nat (List.length results) - completed_count in
         let '(final_status, error_message) :=
           if completed_count =? 0 then (FAILED, Some "All URL analyses failed")
           else if 2 <=? completed_count then (COMPLETED, None)
           else (FAILED,
                 Some "Insufficient successful analyses (minimum 2 required)") in
         _finalize_batch final_status completed_count failed_count error_message;;
         Py.ret {| s_status := status_value final_status;
                   s_total_urls := Z.of_nat (List.length (urls w));
                   s_completed_count := completed_count;
                   s_failed_count := failed_count;
                   s_has_comparison := bool_decide (is_Some comparison) |}
     end)
    (fun err =>
       _finalize_batch FAILED 0 0 (Some (Py.take 500 (Py.exn_msg err)));;
       Py.raise err).

(** ** The batch progress as the specification words it *)

(** "batch_progress = floor(sum of child_progress / total), clamped at 99
    until the batch itself terminates" *)
Definition spec_batch_progress (child_progress : list Z) (total : Z) : Z :=
  Z.min (fold_right Z.add 0 child_progress / total) 99.

End Batch.

(* ===================================================================== *)
(** * Concrete runs used below *)
(* ===================================================================== *)

Module Runs.

Definition clear_reply : LLM.llm_result :=
  {| LLM.narrative :=
       <["what_it_does" := "Provides an example domain for documentation"]>
         (<["overall_impression" := "Clear enough but lacking detail"]> ∅);
     LLM.clarity := Some 8 |}.

(** A job whose every stage succeeds (the provider answers on the third
    attempt), and jobs that fail in the crawl or in the semantic stage. *)
Definition job_ok : Job.env :=
  {| Job.crawl := fun _ => inr SEO.scenario1;
     Job.provider :=
       fun k => match k with
                | 2%nat => LLM.Parsed clear_reply
                | _ => LLM.EmptyResponse
                end;
     Job.save_screenshot := inr "storage/screenshots/job.png";
     Job.has_callback := true |}.

Definition job_crawl_fails : Job.env :=
  {| Job.crawl := fun _ => inl (Py.Exn "TimeoutError" "Timeout 30000ms exceeded");
     Job.provider := fun _ => LLM.Parsed clear_reply;
     Job.save_screenshot := inr "storage/screenshots/job.png";
     Job.has_callback := true |}.

Definition job_scorer_fails : Job.env :=
  {| Job.crawl := fun _ => inr SEO.scenario1;
     Job.provider := fun _ => LLM.ApiError "rate limited";
     Job.save_screenshot := inr "storage/screenshots/job.png";
     Job.has_callback := true |}.

(** A page whose only JSON-LD script holds an array at its top level, and
    a job that crawls it: the rule scorer raises on the array. *)
Definition ld_array_page : SEO.crawl_data :=
  {| SEO.url := "https://example.com";
     SEO.meta_tags := Some (<["title" := "Example Domain Reference Page"]> ∅);
     SEO.headings := Some (<["h1" := ["Example Domain"]]> ∅);
     SEO.load_time := Some 1.5%float;
     SEO.mobile_friendly := Some true;
     SEO.ssl_enabled := Some true;
     SEO.structured_data :=
       Some [ JList [ JObj (<["@type" := JStr "Organization"]> ∅) ] ];
     SEO.html := "<html></html>";
     SEO.text := "Example Domain" |}.

Definition job_rules_fail : Job.env :=
  {| Job.crawl := fun _ => inr ld_array_page;
     Job.provider := fun _ => LLM.Parsed clear_reply;
     Job.save_screenshot := inr "storage/screenshots/job.png";
     Job.has_callback := true |}.

Definition narrative_ok : nat -> Aggregator.attempt :=
  fun _ => Aggregator.Parsed
             {| Aggregator.r_insights := Some "Both sites are close.";
                Aggregator.r_opportunities := Some ["Add Open Graph tags"];
                Aggregator.r_threats := None;
                Aggregator.r_overall_winner := None |}.

Definition narrative_fails : nat -> Aggregator.attempt :=
  fun _ => Aggregator.ApiError "overloaded".

(** Batches of two or three URLs. *)
Definition two_urls : list string := ["https://a.example"; "https://b.example"].
Definition three_urls : list string :=
  ["https://a.example"; "https://b.example"; "https://c.example"].

Definition all_ok : Batch.env :=
  {| Batch.url_env := fun _ => job_ok; Batch.narrative := narrative_ok;
     Batch.has_callback := true |}.

Definition all_fail : Batch.env :=
  {| Batch.url_env := fun _ => job_crawl_fails; Batch.narrative := narrative_ok;
     Batch.has_callback := true |}.

(** URL A fails in the crawl, B and C succeed. *)
Definition first_fails : Batch.env :=
  {| Batch.url_env := fun i => match i with O => job_crawl_fails | _ => job_ok end;
     Batch.narrative := narrative_ok; Batch.has_callback := true |}.

(** Only URL A succeeds. *)
Definition only_first_ok : Batch.env :=
  {| Batch.url_env := fun i => match i with O => job_ok | _ => job_scorer_fails end;
     Batch.narrative := narrative_ok; Batch.has_callback := true |}.

(** Every URL succeeds and the narrative call fails three times. *)
Definition narrative_down : Batch.env :=
  {| Batch.url_env := fun _ => job_ok; Batch.narrative := narrative_fails;
     Batch.has_callback := true |}.

End Runs.

(* ===================================================================== *)
(** * Properties of the rule scorer *)
(* ===================================================================== *)

Section RuleScorerShape.

(** The dict [analyze] builds once the structured-data analysis has
    returned [sd_analysis]. *)
Definition analyzed (cd : SEO.crawl_data) (sd_analysis : SEO.analysis)
  : SEO.seo_result :=
  let meta := default ∅ (SEO.meta_tags cd) in
  let hs := default ∅ (SEO.headings cd) in
  let lt := default 0%float (SEO.load_time cd) in
  let mf := default false (SEO.mobile_friendly cd) in
  let ssl := default false (SEO.ssl_enabled cd) in
  let scores :=
    [ ("meta_tags", SEO.score (SEO._analyze_meta_tags meta));
      ("headings", SEO.score (SEO._analyze_headings hs));
      ("performance", SEO.perf_score (SEO._analyze_performance lt));
      ("mobile", fst (SEO._analyze_mobile mf));
      ("security", fst (SEO._analyze_security ssl));
      ("structured_data", SEO.score sd_analysis) ] in
  {| SEO.seo_score := Py.round2 (SEO.total_score scores);
     SEO.category_scores := scores;
     SEO.seo_issues :=
       SEO.issues (SEO._analyze_meta_tags meta) ++
       SEO.issues (SEO._analyze_headings hs) ++
       match SEO.perf_issue (SEO._analyze_performance lt) with
       | Some i => [i]
       | None => []
       end;
     SEO.seo_recommendations :=
       SEO.recommendations (SEO._analyze_meta_tags meta) ++
       SEO.recommendations (SEO._analyze_headings hs) ++
       SEO.perf_recommendations (SEO._analyze_performance lt) ++
       snd (SEO._analyze_mobile mf) ++ snd (SEO._analyze_security ssl) ++
       SEO.recommendations sd_analysis;
     SEO.metrics :=
       {| SEO.m_meta_tags := meta; SEO.m_headings := hs; SEO.m_load_time := lt;
          SEO.m_mobile_friendly := mf; SEO.m_ssl_enabled := ssl;
          SEO.m_structured_data := default [] (SEO.structured_data cd) |} |}.

(** [analyze] raises what the structured-data analysis raises, and
    otherwise returns the dict built from the six analyses. *)
Lemma analyze_eq (cd : SEO.crawl_data) :
  SEO.analyze cd =
  match SEO._analyze_structured_data (default [] (SEO.structured_data cd)) with
  | inl err => inl err
  | inr sd_analysis => inr (analyzed cd sd_analysis)
  end.
Proof.
  unfold SEO.analyze, analyzed. cbv zeta.
  destruct (SEO._analyze_mobile _), (SEO._analyze_security _).
  destruct (SEO._analyze_structured_data _); reflexivity.
Qed.

Lemma analyze_returns (cd : SEO.crawl_data) (r : SEO.seo_result) :
  SEO.analyze cd = inr r ->
  exists sd_analysis,
    SEO._analyze_structured_data (default [] (SEO.structured_data cd))
    = inr sd_analysis
    /\ r = analyzed cd sd_analysis.
Proof.
  rewrite analyze_eq.
  destruct (SEO._analyze_structured_data _) as [err|a]; [discriminate|].
  intros [= <-]. eauto.
Qed.

(** The three dicts the structured-data analysis can return. *)
Definition no_structured_data : SEO.analysis :=
  {| SEO.score := 0; SEO.issues := [];
     SEO.recommendations :=
       [mk_rec "seo" "medium" "Add Structured Data"
          "Add Schema.org structured data (JSON-LD) to help search engines understand your content better and enable rich snippets."
          "medium"] |}.
Definition valid_structured_data : SEO.analysis :=
  {| SEO.score := 100; SEO.issues := []; SEO.recommendations := [] |}.
Definition plain_structured_data : SEO.analysis :=
  {| SEO.score := 50; SEO.issues := [];
     SEO.recommendations :=
       [mk_rec "seo" "low" "Improve Structured Data"
          "Consider adding more specific schema types like Organization, Product, or Article for better search engine understanding."
          "low"] |}.

Lemma structured_analysis_cases (sd : list json) (a : SEO.analysis) :
  SEO._analyze_structured_data sd = inr a ->
  (sd = [] /\ a = no_structured_data)
  \/ (sd <> [] /\ SEO.has_valid_schema sd = inr true
      /\ a = valid_structured_data)
  \/ (sd <> [] /\ SEO.has_valid_schema sd = inr false
      /\ a = plain_structured_data).
Proof.
  unfold SEO._analyze_structured_data. destruct sd as [|item sd].
  - intros [= <-]. left. split; reflexivity.
  - destruct (SEO.has_valid_schema (item :: sd)) as [err|[|]];
      [discriminate | |]; intros [= <-].
    + right; left. repeat split. discriminate.
    + right; right. repeat split. discriminate.
Qed.

(** The loop raises exactly on the first entry that is not a dict, if no
    entry before it is recognised. *)
Lemma has_valid_schema_raises (sd : list json) (err : Py.exn) :
  SEO.has_valid_schema sd = inl err ->
  exists before item after,
    sd = (before ++ item :: after)%list
    /\ err = SEO.no_get item
    /\ (forall fields, item <> JObj fields)
    /\ Forall (fun i => exists fields,
                 i = JObj fields
                 /\ SEO.in_valid_types (SEO.item_type fields) = false) before.
Proof.
  induction sd as [|item sd IH]; cbn [SEO.has_valid_schema]; [discriminate|].
  destruct item as [| b | n | x | str | l | fields];
    cbn [SEO.entry_type];
    try (intros [= <-]; eexists [], _, sd;
         repeat split; [discriminate | constructor]).
  destruct (SEO.in_valid_types (SEO.item_type fields)) eqn:E; [discriminate|].
  intros H. destruct (IH H) as (before & item & after & -> & -> & Hnd & Hb).
  exists (JObj fields :: before), item, after.
  repeat split; [exact Hnd|]. constructor; eauto.
Qed.

Lemma structured_analysis_raises (sd : list json) (err : Py.exn) :
  SEO._analyze_structured_data sd = inl err ->
  Py.exn_type err = "AttributeError"
  /\ exists item, In item sd /\ (forall fields, item <> JObj fields)
                  /\ err = SEO.no_get item.
Proof.
  unfold SEO._analyze_structured_data. destruct sd as [|i sd]; [discriminate|].
  destruct (SEO.has_valid_schema (i :: sd)) as [err'|[|]] eqn:E;
    [|discriminate|discriminate].
  intros [= ->].
  destruct (has_valid_schema_raises _ _ E)
    as (before & item & after & Hsd & -> & Hnd & _).
  split; [reflexivity|]. exists item. rewrite Hsd.
  repeat split; [|exact Hnd]. apply in_elt.
Qed.

(** On entries that are all dicts, the usual case, the loop returns. *)
Lemma has_valid_schema_dicts (sd : list (gmap string json)) :
  exists b, SEO.has_valid_schema (map JObj sd) = inr b.
Proof.
  induction sd as [|item sd [b IH]]; cbn [map SEO.has_valid_schema SEO.entry_type];
    [eauto|].
  destruct (SEO.in_valid_types (SEO.item_type item)); eauto.
Qed.

Lemma structured_analysis_dicts (sd : list (gmap string json)) :
  exists a, SEO._analyze_structured_data (map JObj sd) = inr a.
Proof.
  unfold SEO._analyze_structured_data.
  destruct (has_valid_schema_dicts sd) as [b ->].
  destruct (map JObj sd); [eauto|]. destruct b; eauto.
Qed.

(** The six entries of [scores], and the overall score computed from
    them, for any crawl data. *)
Lemma analyze_category_scores (cd : SEO.crawl_data) (a : SEO.analysis) :
  SEO.category_scores (analyzed cd a) =
  [ ("meta_tags", SEO.score (SEO._analyze_meta_tags (default ∅ (SEO.meta_tags cd))));
    ("headings", SEO.score (SEO._analyze_headings (default ∅ (SEO.headings cd))));
    ("performance",
     SEO.perf_score (SEO._analyze_performance (default 0%float (SEO.load_time cd))));
    ("mobile", fst (SEO._analyze_mobile (default false (SEO.mobile_friendly cd))));
    ("security", fst (SEO._analyze_security (default false (SEO.ssl_enabled cd))));
    ("structured_data", SEO.score a) ].
Proof. reflexivity. Qed.

Lemma analyze_seo_score (cd : SEO.crawl_data) (a : SEO.analysis) :
  SEO.seo_score (analyzed cd a) =
  Py.round2 (SEO.total_score (SEO.category_scores (analyzed cd a))).
Proof. reflexivity. Qed.

End RuleScorerShape.

Section RuleScorerScenario.

(** The snapshot of scenario 1 with an arbitrary description text. *)
Definition scenario1_with (description : string) : SEO.crawl_data :=
  {| SEO.url := "https://example.com";
     SEO.meta_tags := Some (<["title" := "Example Domain Reference Page"]>
                              (<["description" := description]> ∅));
     SEO.headings := Some (<["h1" := ["Example Domain"]]>
                             (<["h2" := ["More information"]]> ∅));
     SEO.load_time := Some 1.5%float;
     SEO.mobile_friendly := Some true;
     SEO.ssl_enabled := Some true;
     SEO.structured_data :=
       Some [ JObj (<["@type" := JStr "Organization"]> ∅) ];
     SEO.html := "<html></html>";
     SEO.text := "Example Domain" |}.

Lemma scenario1_is_instance :
  SEO.scenario1 = scenario1_with SEO.scenario1_description.
Proof. reflexivity. Qed.

Lemma scenario1_title_length :
  Py.len "Example Domain Reference Page" = 29%nat.
Proof. reflexivity. Qed.

Lemma description_step_136 (description : string) (a : SEO.analysis) :
  Py.len description = 136%nat ->
  SEO.description_step
    (<["title" := "Example Domain Reference Page"]>
       (<["description" := description]> ∅)) a
  = SEO.add_score 40 a.
Proof.
  intros Hlen. unfold SEO.description_step.
  replace (default "" (_ !! "description")) with description
    by (vm_compute; reflexivity).
  destruct description as [|c d]; [discriminate Hlen|].
  cbn [Py.truthy negb]. rewrite Hlen. reflexivity.
Qed.

Lemma scenario1_meta_score (description : string) :
  Py.len description = 136%nat ->
  SEO.score (SEO._analyze_meta_tags
               (<["title" := "Example Domain Reference Page"]>
                  (<["description" := description]> ∅))) = 60.
Proof.
  intros Hlen. unfold SEO._analyze_meta_tags. cbv zeta.
  rewrite (description_step_136 _ _ Hlen). vm_compute. reflexivity.
Qed.

(** C9, as the code has it: on the scenario-1 snapshot (29-character
    title, any 136-character description, one h1, one h2, 1.5 s load
    time, viewport, https, one Organization entry, no Open Graph tag, no
    canonical link) the rule scorer returns, and the 29-character title is
    below the 30-character minimum and earns 20 points, not 40: the
    sub-scores are meta 60, headings 100, performance 100, mobile 100,
    security 100, structured-data 100, and the overall rule score is
    exactly 90.00. *)
Theorem scenario1_rule_score (description : string) :
  Py.len description = 136%nat ->
  exists r,
    SEO.analyze (scenario1_with description) = inr r
    /\ SEO.category_scores r =
         [ ("meta_tags", 60); ("headings", 100); ("performance", 100);
           ("mobile", 100); ("security", 100); ("structured_data", 100) ]
    /\ SEO.seo_score r = 90%float.
Proof.
  intros Hlen. rewrite analyze_eq.
  replace (SEO._analyze_structured_data _) with
    (inr valid_structured_data : Py.exn + SEO.analysis)
    by (vm_compute; reflexivity).
  eexists. split; [reflexivity|].
  assert (Hscores :
    SEO.category_scores (analyzed (scenario1_with description)
                                  valid_structured_data) =
    [ ("meta_tags", 60); ("headings", 100); ("performance", 100);
      ("mobile", 100); ("security", 100); ("structured_data", 100) ]).
  { rewrite analyze_category_scores. cbn [scenario1_with SEO.meta_tags default].
    cbv [option_rect id]. rewrite (scenario1_meta_score _ Hlen).
    vm_compute. reflexivity. }
  split; [exact Hscores|].
  rewrite analyze_seo_score, Hscores. vm_compute. reflexivity.
Qed.

Lemma scenario1_rule_score_witness :
  Py.len SEO.scenario1_description = 136%nat
  /\ exists r,
       SEO.analyze (scenario1_with SEO.scenario1_description) = inr r
       /\ SEO.category_scores r =
            [ ("meta_tags", 60); ("headings", 100); ("performance", 100);
              ("mobile", 100); ("security", 100); ("structured_data", 100) ]
       /\ SEO.seo_score r = 90%float.
Proof.
  split; [reflexivity|].
  apply (scenario1_rule_score SEO.scenario1_description). reflexivity.
Defined.

(** C9 as stated fails on the scenario-1 snapshot: the meta sub-score is
    60, not 80, and the overall score is 90.00, not 95.00. *)
Lemma scenario1_rule_score_is_not_95 :
  exists r,
    SEO.analyze SEO.scenario1 = inr r
    /\ SEO.category_score r "meta_tags" = 60
    /\ 60 <> 80
    /\ SEO.seo_score r = 90%float
    /\ PrimFloat.eqb 90%float 95%float = false.
Proof.
  eexists. split; [vm_compute; reflexivity|].
  repeat split; try (vm_compute; reflexivity). lia.
Qed.

End RuleScorerScenario.

Section StructuredData.








End StructuredData.

Section RuleScore.

(** Membership in a list of integers, as a computation. *)
Definition mem (x : Z) (l : list Z) : bool := existsb (Z.eqb x) l.

Lemma mem_In (x : Z) (l : list Z) : mem x l = true <-> In x l.
Proof.
  unfold mem. rewrite existsb_exists. split.
  - intros [y [Hin Heq]]. apply Z.eqb_eq in Heq. now subst.
  - intros Hin. exists x. split; [assumption | apply Z.eqb_refl].
Qed.

Ltac delta t :=
  exists t; split; [reflexivity | cbn [SEO.score SEO.add_rec SEO.add_issue SEO.add_score]; lia].

(** What each step of the meta analysis adds to the score. *)
Lemma title_step_delta (m : gmap string string) (a : SEO.analysis) :
  exists t, mem t [0; 20; 30; 40] = true
            /\ SEO.score (SEO.title_step m a) = SEO.score a + t.
Proof.
  unfold SEO.title_step. repeat case_match;
    first [delta 0 | delta 20 | delta 30 | delta 40].
Qed.

Lemma description_step_delta (m : gmap string string) (a : SEO.analysis) :
  exists t, mem t [0; 20; 30; 40] = true
            /\ SEO.score (SEO.description_step m a) = SEO.score a + t.
Proof.
  unfold SEO.description_step. repeat case_match;
    first [delta 0 | delta 20 | delta 30 | delta 40].
Qed.

Lemma open_graph_step_delta (m : gmap string string) (a : SEO.analysis) :
  exists t, mem t [0; 5; 10] = true
            /\ SEO.score (SEO.open_graph_step m a) = SEO.score a + t.
Proof.
  unfold SEO.open_graph_step. repeat case_match;
    first [delta 0 | delta 5 | delta 10].
Qed.

Lemma canonical_step_delta (m : gmap string string) (a : SEO.analysis) :
  exists t, mem t [0; 10] = true
            /\ SEO.score (SEO.canonical_step m a) = SEO.score a + t.
Proof.
  unfold SEO.canonical_step. repeat case_match; first [delta 0 | delta 10].
Qed.

Lemma h1_step_delta (h : gmap string (list string)) (a : SEO.analysis) :
  exists t, mem t [0; -50; -20] = true
            /\ SEO.score (SEO.h1_step h a) = SEO.score a + t.
Proof.
  unfold SEO.h1_step. repeat case_match;
    first [delta 0 | delta (-50) | delta (-20)].
Qed.

Lemma h2_step_delta (h : gmap string (list string)) (a : SEO.analysis) :
  exists t, mem t [0; -30] = true
            /\ SEO.score (SEO.h2_step h a) = SEO.score a + t.
Proof.
  unfold SEO.h2_step. repeat case_match; first [delta 0 | delta (-30)].
Qed.

Lemma hierarchy_step_delta (h : gmap string (list string)) (a : SEO.analysis) :
  exists t, mem t [0; -20] = true
            /\ SEO.score (SEO.hierarchy_step h a) = SEO.score a + t.
Proof.
  unfold SEO.hierarchy_step. repeat case_match; first [delta 0 | delta (-20)].
Qed.

(** The values a category sub-score can take. *)
Definition meta_scores : list Z :=
  [0; 5; 10; 15; 20; 25; 30; 35; 40; 45; 50; 55; 60; 65; 70; 75; 80; 85; 90;
   95; 100].
Definition heading_scores : list Z :=
  [0; 10; 20; 30; 40; 50; 60; 70; 80; 90; 100].
Definition performance_scores : list Z := [100; 80; 50; 20].
Definition flag_scores : list Z := [100; 0].
Definition structured_scores : list Z := [0; 100; 50].

Ltac split_mem H :=
  apply mem_In in H; cbn [In] in H;
  repeat (destruct H as [H | H]); [subst .. | contradiction].

Lemma meta_score_range (m : gmap string string) :
  mem (SEO.score (SEO._analyze_meta_tags m)) meta_scores = true.
Proof.
  unfold SEO._analyze_meta_tags. cbv zeta. cbn [SEO.score].
  destruct (canonical_step_delta m
              (SEO.open_graph_step m (SEO.description_step m
                 (SEO.title_step m
                    {| SEO.score := 0; SEO.issues := [];
                       SEO.recommendations := [] |}))))
    as (c & Hc & ->).
  destruct (open_graph_step_delta m
              (SEO.description_step m
                 (SEO.title_step m
                    {| SEO.score := 0; SEO.issues := [];
                       SEO.recommendations := [] |})))
    as (o & Ho & ->).
  destruct (description_step_delta m
              (SEO.title_step m
                 {| SEO.score := 0; SEO.issues := [];
                    SEO.recommendations := [] |}))
    as (d & Hd & ->).
  destruct (title_step_delta m
              {| SEO.score := 0; SEO.issues := []; SEO.recommendations := [] |})
    as (t & Ht & ->).
  cbn [SEO.score].
  split_mem Hc; split_mem Ho; split_mem Hd; split_mem Ht; reflexivity.
Qed.

Lemma heading_score_range (h : gmap string (list string)) :
  mem (SEO.score (SEO._analyze_headings h)) heading_scores = true.
Proof.
  unfold SEO._analyze_headings. cbv zeta. cbn [SEO.score].
  destruct (hierarchy_step_delta h
              (SEO.h2_step h
                 (SEO.h1_step h
                    {| SEO.score := 100; SEO.issues := [];
                       SEO.recommendations := [] |})))
    as (c & Hc & ->).
  destruct (h2_step_delta h
              (SEO.h1_step h
                 {| SEO.score := 100; SEO.issues := [];
                    SEO.recommendations := [] |}))
    as (b & Hb & ->).
  destruct (h1_step_delta h
              {| SEO.score := 100; SEO.issues := []; SEO.recommendations := [] |})
    as (a & Ha & ->).
  cbn [SEO.score].
  split_mem Hc; split_mem Hb; split_mem Ha; reflexivity.
Qed.

Lemma performance_score_range (load_time : float) :
  mem (SEO.perf_score (SEO._analyze_performance load_time)) performance_scores
  = true.
Proof. unfold SEO._analyze_performance. repeat case_match; reflexivity. Qed.

Lemma mobile_score_range (b : bool) :
  mem (fst (SEO._analyze_mobile b)) flag_scores = true.
Proof. destruct b; reflexivity. Qed.

Lemma security_score_range (b : bool) :
  mem (fst (SEO._analyze_security b)) flag_scores = true.
Proof. destruct b; reflexivity. Qed.

Lemma structured_score_range (sd : list json) (a : SEO.analysis) :
  SEO._analyze_structured_data sd = inr a ->
  mem (SEO.score a) structured_scores = true.
Proof.
  intros H.
  destruct (structured_analysis_cases sd a H)
    as [[_ ->] | [(_ & _ & ->) | (_ & _ & ->)]]; reflexivity.
Qed.

(** The float computation of [analyze] against the exact weighted sum. *)
Definition rule_score_agrees (meta hd perf mobile sec sd : Z) : bool :=
  PrimFloat.Leibniz.eqb
    (Py.round2
       (SEO.total_score
          [ ("meta_tags", meta); ("headings", hd); ("performance", perf);
            ("mobile", mobile); ("security", sec); ("structured_data", sd) ]))
    (Py.float_of_Q (SEO.spec_rule_score meta hd perf mobile sec sd)).

Lemma rule_score_enumeration :
  forallb (fun meta =>
  forallb (fun hd =>
  forallb (fun perf =>
  forallb (fun mobile =>
  forallb (fun sec =>
  forallb (fun sd => rule_score_agrees meta hd perf mobile sec sd)
    structured_scores) flag_scores) flag_scores) performance_scores)
    heading_scores) meta_scores = true.
Proof. vm_compute. reflexivity. Qed.

Lemma rule_score_agrees_on_ranges (meta hd perf mobile sec sd : Z) :
  mem meta meta_scores = true -> mem hd heading_scores = true ->
  mem perf performance_scores = true -> mem mobile flag_scores = true ->
  mem sec flag_scores = true -> mem sd structured_scores = true ->
  rule_score_agrees meta hd perf mobile sec sd = true.
Proof.
  intros H1 H2 H3 H4 H5 H6.
  apply mem_In in H1, H2, H3, H4, H5, H6.
  pose proof rule_score_enumeration as E.
  rewrite forallb_forall in E. specialize (E _ H1).
  rewrite forallb_forall in E. specialize (E _ H2).
  rewrite forallb_forall in E. specialize (E _ H3).
  rewrite forallb_forall in E. specialize (E _ H4).
  rewrite forallb_forall in E. specialize (E _ H5).
  rewrite forallb_forall in E. exact (E _ H6).
Qed.

(** C3: for every crawl snapshot on which [analyze] returns, the
    [category_scores] it returns are the scores of the six category
    analyses of that snapshot, under the keys meta_tags, headings,
    performance, mobile, security and structured_data, and the overall
    rule score is the double that denotes the weighted sum of these six
    sub-scores, with weights meta 0.25, headings 0.15, performance 0.20,
    mobile 0.15, security 0.10, structured-data 0.15, taken over the
    rationals and rounded to two decimals. [analyze] returns unless the
    structured-data analysis raises, and then raises the same exception. *)
Theorem rule_score_is_weighted_sum (cd : SEO.crawl_data) :
  match SEO.analyze cd with
  | inr r =>
      exists sd_analysis,
        SEO._analyze_structured_data (default [] (SEO.structured_data cd))
        = inr sd_analysis
        /\ SEO.category_scores r =
           [ ("meta_tags",
              SEO.score (SEO._analyze_meta_tags (default ∅ (SEO.meta_tags cd))));
             ("headings",
              SEO.score (SEO._analyze_headings (default ∅ (SEO.headings cd))));
             ("performance",
              SEO.perf_score
                (SEO._analyze_performance (default 0%float (SEO.load_time cd))));
             ("mobile",
              fst (SEO._analyze_mobile (default false (SEO.mobile_friendly cd))));
             ("security",
              fst (SEO._analyze_security (default false (SEO.ssl_enabled cd))));
             ("structured_data", SEO.score sd_analysis) ]
        /\ SEO.seo_score r =
           Py.float_of_Q
             (Py.Q_round2
                (0.25 * inject_Z (SEO.category_score r "meta_tags")
                 + 0.15 * inject_Z (SEO.category_score r "headings")
                 + 0.20 * inject_Z (SEO.category_score r "performance")
                 + 0.15 * inject_Z (SEO.category_score r "mobile")
                 + 0.10 * inject_Z (SEO.category_score r "security")
                 + 0.15 * inject_Z (SEO.category_score r "structured_data"))%Q)
  | inl err =>
      SEO._analyze_structured_data (default [] (SEO.structured_data cd))
      = inl err
  end.
Proof.
  rewrite analyze_eq.
  destruct (SEO._analyze_structured_data (default [] (SEO.structured_data cd)))
    as [err|a] eqn:Esd; [reflexivity|].
  exists a. split; [reflexivity|]. split; [apply analyze_category_scores|].
  rewrite analyze_seo_score. unfold SEO.category_score.
  rewrite analyze_category_scores. cbn [List.find fst snd String.eqb].
  cbn -[SEO._analyze_meta_tags SEO._analyze_headings SEO._analyze_performance
        SEO._analyze_mobile SEO._analyze_security SEO._analyze_structured_data
        Py.round2 Py.float_of_Q Py.Q_round2 SEO.total_score Qmult Qplus inject_Z].
  apply FloatAxioms.Leibniz.eqb_spec.
  pose proof
    (rule_score_agrees_on_ranges _ _ _ _ _ _
       (meta_score_range (default ∅ (SEO.meta_tags cd)))
       (heading_score_range (default ∅ (SEO.headings cd)))
       (performance_score_range (default 0%float (SEO.load_time cd)))
       (mobile_score_range (default false (SEO.mobile_friendly cd)))
       (security_score_range (default false (SEO.ssl_enabled cd)))
       (structured_score_range _ _ Esd)) as H.
  unfold rule_score_agrees, SEO.spec_rule_score, SEO.spec_weighted_sum in H.
  exact H.
Qed.

End RuleScore.

(* ===================================================================== *)
(** * Properties of the semantic score *)
(* ===================================================================== *)

Section SemanticScore.

(** The arithmetic of [_calculate_aeo_score], from the three quantities the
    report contributes. *)
Definition aeo_core (clarity_score : Z) (completeness : float) (pen : Z) : float :=
  Py.round2
    (Py.min
       (Py.max
          (PrimFloat.sub
             (PrimFloat.add
                (PrimFloat.mul
                   (PrimFloat.div (Py.float_of_Z clarity_score) (Py.float_of_Z 10))
                   (Py.float_of_Z 70))
                completeness)
             (Py.float_of_Z pen))
          (Py.float_of_Z 0))
       (Py.float_of_Z 100)).


(** "Present and longer than 20 characters" *)
Definition field_ok (r : gmap string string) (field : string) : bool :=
  match r !! field with
  | Some value => (20 <? Py.len value)%nat
  | None => false
  end.

Lemma field_condition (r : gmap string string) (field : string) :
  Py.truthy (default "" (r !! field))
  && (20 <? Py.len (default "" (r !! field)))%nat
  = field_ok r field.
Proof.
  unfold field_ok. destruct (r !! field) as [[|c v]|]; reflexivity.
Qed.

Definition completeness_values : list float :=
  [0%float; 7.5%float; 15%float; 22.5%float; 30%float].

(** The completeness bonus is 7.5 times the number of complete fields. *)
Lemma completeness_score_value (r : gmap string string) :
  LLM.completeness_score r =
  nth (Z.to_nat (LLM.spec_complete_fields r)) completeness_values 0%float.
Proof.
  unfold LLM.completeness_score, LLM.spec_complete_fields, LLM.required_fields.
  cbn [fold_left List.filter]. cbv zeta.
  rewrite !field_condition. fold (field_ok r "what_it_does").
  fold (field_ok r "products_services"). fold (field_ok r "target_audience").
  fold (field_ok r "unique_value").
  destruct (field_ok r "what_it_does"), (field_ok r "products_services"),
    (field_ok r "target_audience"), (field_ok r "unique_value");
    vm_compute; reflexivity.
Qed.

Lemma complete_fields_range (r : gmap string string) :
  mem (LLM.spec_complete_fields r) [0; 1; 2; 3; 4] = true.
Proof.
  unfold LLM.spec_complete_fields, LLM.required_fields. cbn [List.filter].
  repeat case_match; reflexivity.
Qed.

Lemma penalty_range (r : gmap string string) :
  mem (LLM.penalty r) [0; 5; 10] = true.
Proof. unfold LLM.penalty. repeat case_match; reflexivity. Qed.


(** The clarity scores the comparison is carried out for: the integers
    from -100 to 100 (the provider is asked for a score from 1 to 10). *)
Definition clarity_scores : list Z :=
  map (fun n => Z.of_nat n - 100) (seq 0 201).

Lemma clarity_scores_In (c : Z) : -100 <= c <= 100 -> In c clarity_scores.
Proof.
  intros H. unfold clarity_scores. apply in_map_iff.
  exists (Z.to_nat (c + 100)). split; [lia|]. apply in_seq. lia.
Qed.





End SemanticScore.

(* ===================================================================== *)
(** * Properties of the batch progress events *)
(* ===================================================================== *)

Section BatchProgress.

Definition progress_event (p : Z) : Job.progress_data :=
  {| Job.pd_status := "processing"; Job.pd_step := Some "Crawling website";
     Job.pd_progress := Some p; Job.pd_error := None |}.

(** C7 as stated fails. With two URLs whose pipelines both stand at 10%,
    the event derived from the second URL's report carries 55, where the
    average of the child progresses is 10. With three URLs, the first done,
    the second at 35% and the third not started, the event carries 44,
    where the average is 45. *)
Lemma batch_progress_is_not_the_average :
  Batch.event_progress (Batch.individual_progress 1 2 (progress_event 10)) = 55
  /\ Batch.spec_batch_progress [10; 10] 2 = 10
  /\ 55 <> 10
  /\ Batch.event_progress (Batch.individual_progress 1 3 (progress_event 35)) = 44
  /\ Batch.spec_batch_progress [100; 35; 0] 3 = 45
  /\ 44 <> 45.
Proof. repeat split; try (vm_compute; reflexivity); lia. Qed.

Definition zrange (lo n : nat) : list Z := map Z.of_nat (seq lo n).

Lemma zrange_In (lo n : nat) (z : Z) :
  Z.of_nat lo <= z < Z.of_nat lo + Z.of_nat n -> In z (zrange lo n).
Proof.
  intros H. unfold zrange. apply in_map_iff. exists (Z.to_nat z).
  split; [lia|]. apply in_seq. lia.
Qed.

(** The truncated float sum is not negative and lies at most one below the
    exact quotient. *)
Definition aggregate_close (total index p : Z) : bool :=
  let a := Batch.aggregate_progress index total p in
  let exact := (100 * index + p) / total in
  implb (index <? total) ((exact - 1 <=? a) && (a <=? exact) && (0 <=? a)).

Lemma aggregate_enumeration :
  forallb (fun total =>
  forallb (fun index =>
  forallb (fun p => aggregate_close total index p) (zrange 0 101))
    (zrange 0 5)) (zrange 1 5) = true.
Proof. vm_compute. reflexivity. Qed.

Lemma aggregate_progress_bounds (total index p : Z) :
  1 <= total <= 5 -> 0 <= index < total -> 0 <= p <= 100 ->
  (100 * index + p) / total - 1 <= Batch.aggregate_progress index total p
  <= (100 * index + p) / total
  /\ 0 <= Batch.aggregate_progress index total p.
Proof.
  intros Ht Hi Hp. pose proof aggregate_enumeration as E.
  rewrite forallb_forall in E.
  specialize (E total (zrange_In 1 5 total ltac:(lia))).
  rewrite forallb_forall in E.
  specialize (E index (zrange_In 0 5 index ltac:(lia))).
  rewrite forallb_forall in E.
  specialize (E p (zrange_In 0 101 p ltac:(lia))).
  unfold aggregate_close in E. cbv zeta in E.
  replace (index <? total) with true in E by (symmetry; apply Z.ltb_lt; lia).
  cbn [implb] in E. apply andb_prop in E. destruct E as [E E3].
  apply andb_prop in E. destruct E as [E1 E2].
  apply Z.leb_le in E1, E2, E3. lia.
Qed.

(** C7, as the code has it: the batch-level progress value derived from a
    progress event of the URL at position [url_index] is computed from
    that URL's own progress [p] alone (0 when the payload carries none):
    it is int(url_index/total*100 + (p/100)*(1/total)*100) in binary64
    arithmetic, clamped at 99. That value is the floor of
    (100*url_index + p)/total or one below it: the URLs before
    [url_index] count as finished and those after it as not started,
    whatever their own progress is. *)
Theorem batch_progress_from_child_event
    (url_index total_urls : Z) (d : Job.progress_data) :
  1 <= total_urls <= 5 -> 0 <= url_index < total_urls ->
  0 <= default 0 (Job.pd_progress d) <= 100 ->
  let p := default 0 (Job.pd_progress d) in
  let v := Batch.event_progress (Batch.individual_progress url_index total_urls d) in
  v = Z.min (Batch.aggregate_progress url_index total_urls p) 99
  /\ (100 * url_index + p) / total_urls - 1
     <= Batch.aggregate_progress url_index total_urls p
     <= (100 * url_index + p) / total_urls
  /\ 0 <= v <= 99.
Proof.
  intros Ht Hi Hp. cbv zeta.
  pose proof (aggregate_progress_bounds total_urls url_index _ Ht Hi Hp) as [B B0].
  cbn [Batch.individual_progress Batch.event_progress].
  split; [reflexivity|]. split; [exact B|]. lia.
Qed.

Lemma batch_progress_from_child_event_witness :
  let v := Batch.event_progress (Batch.individual_progress 2 5 (progress_event 50)) in
  v = Z.min (Batch.aggregate_progress 2 5 50) 99
  /\ (100 * 2 + 50) / 5 - 1 <= Batch.aggregate_progress 2 5 50 <= (100 * 2 + 50) / 5
  /\ 0 <= v <= 99.
Proof.
  apply (batch_progress_from_child_event 2 5 (progress_event 50)); cbn; lia.
Defined.

(** The value the repository's own test expects: the third of five URLs at
    50% gives 50. *)
Lemma batch_progress_test_value :
  Batch.event_progress (Batch.individual_progress 2 5 (progress_event 50)) = 50.
Proof. vm_compute. reflexivity. Qed.

End BatchProgress.

(* ===================================================================== *)
(** * Properties of the stable sort by an integer key *)
(* ===================================================================== *)

Section StableSort.

Context {A : Type} (key : A -> Z).

Definition key_le (x y : A) : Prop := key x <= key y.

(** The sub-list of the elements with key [k], in their order. *)
Definition with_key (k : Z) (l : list A) : list A :=
  List.filter (fun y => key y =? k) l.

Lemma insert_by_key_perm (x : A) (l : list A) :
  Permutation (x :: l) (Py.insert_by (fun a b => key a <? key b) x l).
Proof.
  induction l as [|y l IH]; cbn [Py.insert_by]; [reflexivity|].
  destruct (key y <? key x); [|reflexivity].
  rewrite perm_swap. now apply perm_skip.
Qed.

Lemma sort_by_key_perm (l : list A) : Permutation l (Py.sort_by_key key l).
Proof.
  unfold Py.sort_by_key.
  induction l as [|x l IH]; cbn [Py.sort_by]; [reflexivity|].
  rewrite <- insert_by_key_perm. now apply perm_skip.
Qed.

Lemma insert_by_key_sorted (x : A) (l : list A) :
  StronglySorted key_le l ->
  StronglySorted key_le (Py.insert_by (fun a b => key a <? key b) x l).
Proof.
  induction l as [|y l IH]; intros Hs; cbn [Py.insert_by].
  - repeat constructor.
  - inversion Hs as [|? ? Hl Hy]; subst.
    destruct (key y <? key x) eqn:E.
    + apply Z.ltb_lt in E. constructor; [now apply IH|].
      apply (Permutation_Forall (insert_by_key_perm x l)).
      constructor; [unfold key_le; lia | assumption].
    + apply Z.ltb_ge in E. constructor; [assumption|].
      constructor; [assumption|].
      eapply List.Forall_impl; [|exact Hy]. unfold key_le. intros; lia.
Qed.

Lemma sort_by_key_sorted (l : list A) :
  StronglySorted key_le (Py.sort_by_key key l).
Proof.
  unfold Py.sort_by_key.
  induction l as [|x l IH]; cbn [Py.sort_by]; [constructor|].
  now apply insert_by_key_sorted.
Qed.

Lemma insert_by_key_stable (k : Z) (x : A) (l : list A) :
  with_key k (Py.insert_by (fun a b => key a <? key b) x l)
  = with_key k (x :: l).
Proof.
  unfold with_key.
  induction l as [|y l IH]; cbn [Py.insert_by]; [reflexivity|].
  destruct (key y <? key x) eqn:E; [|reflexivity].
  apply Z.ltb_lt in E. cbn [List.filter] in *. rewrite IH.
  destruct (key x =? k) eqn:Ex; [|reflexivity].
  apply Z.eqb_eq in Ex.
  replace (key y =? k) with false by (symmetry; apply Z.eqb_neq; lia).
  reflexivity.
Qed.

Lemma sort_by_key_stable (k : Z) (l : list A) :
  with_key k (Py.sort_by_key key l) = with_key k l.
Proof.
  unfold Py.sort_by_key.
  induction l as [|x l IH]; cbn [Py.sort_by]; [reflexivity|].
  rewrite insert_by_key_stable. unfold with_key in *. cbn [List.filter].
  now rewrite IH.
Qed.

Lemma with_key_In (k : Z) (x : A) (l : list A) :
  In x (with_key k l) <-> In x l /\ key x = k.
Proof.
  unfold with_key. rewrite filter_In. now rewrite Z.eqb_eq.
Qed.

(** Being sorted and stable determines the result: whatever stable sorting
    algorithm the interpreter runs, it returns the list [sort_by_key]
    returns. *)
Lemma sorted_stable_unique (l1 l2 : list A) :
  StronglySorted key_le l1 -> StronglySorted key_le l2 ->
  (forall k, with_key k l1 = with_key k l2) -> l1 = l2.
Proof.
  revert l2. induction l1 as [|x l1 IH]; intros l2 H1 H2 Hk.
  - destruct l2 as [|y l2]; [reflexivity|].
    specialize (Hk (key y)). unfold with_key in Hk. cbn [List.filter] in Hk.
    rewrite Z.eqb_refl in Hk. discriminate.
  - destruct l2 as [|y l2].
    + specialize (Hk (key x)). unfold with_key in Hk. cbn [List.filter] in Hk.
      rewrite Z.eqb_refl in Hk. discriminate.
    + inversion H1 as [|? ? Hs1 Hx]; subst.
      inversion H2 as [|? ? Hs2 Hy]; subst.
      rewrite List.Forall_forall in Hx, Hy.
      assert (Hxy : key x = key y).
      { assert (In x (with_key (key x) (y :: l2))) as Hin.
        { rewrite <- Hk. apply with_key_In. split; [now left | reflexivity]. }
        apply with_key_In in Hin. destruct Hin as [[-> | Hin] _]; [reflexivity|].
        assert (In y (with_key (key y) (x :: l1))) as Hin'.
        { rewrite Hk. apply with_key_In. split; [now left | reflexivity]. }
        apply with_key_In in Hin'. destruct Hin' as [[-> | Hin'] _]; [reflexivity|].
        specialize (Hx _ Hin'). specialize (Hy _ Hin). unfold key_le in *. lia. }
      pose proof (Hk (key x)) as Hhead. unfold with_key in Hhead.
      cbn [List.filter] in Hhead. rewrite <- Hxy, Z.eqb_refl in Hhead.
      injection Hhead as -> Htail. f_equal.
      apply IH; [assumption | assumption |].
      intros k. specialize (Hk k). unfold with_key in *.
      cbn [List.filter] in Hk.
      destruct (key y =? k) eqn:E; [|exact Hk].
      apply Z.eqb_eq in E. subst k. exact Htail.
Qed.

Lemma sort_by_key_characterised (l l' : list A) :
  StronglySorted key_le l' -> (forall k, with_key k l' = with_key k l) ->
  l' = Py.sort_by_key key l.
Proof.
  intros Hs Hk. apply sorted_stable_unique;
    [assumption | apply sort_by_key_sorted |].
  intros k. now rewrite Hk, sort_by_key_stable.
Qed.

End StableSort.

(* ===================================================================== *)
(** * Properties of the single-URL pipeline *)
(* ===================================================================== *)

Section Monad.

Context {S : Type}.

Lemma bind_inr {A B : Type} (m : Py.M S A) (k : A -> Py.M S B) (w w' : S) (a : A) :
  m w = (inr a, w') -> (m ≫= k) w = k a w'.
Proof. intros H. unfold mbind, Py.M_bind, Py.bind. now rewrite H. Qed.

Lemma bind_inl {A B : Type} (m : Py.M S A) (k : A -> Py.M S B) (w w' : S) (e : Py.exn) :
  m w = (inl e, w') -> (m ≫= k) w = (inl e, w').
Proof. intros H. unfold mbind, Py.M_bind, Py.bind. now rewrite H. Qed.

Lemma get_run (w : S) : Py.get w = (inr w, w).
Proof. reflexivity. Qed.
Lemma ret_run {A : Type} (a : A) (w : S) : Py.ret a w = (inr a, w).
Proof. reflexivity. Qed.
Lemma raise_run {A : Type} (e : Py.exn) (w : S) : @Py.raise S A e w = (inl e, w).
Proof. reflexivity. Qed.
Lemma lift_inr {A : Type} (r : Py.exn + A) (a : A) (w : S) :
  r = inr a -> Py.lift r w = (inr a, w).
Proof. now intros ->. Qed.
Lemma lift_inl {A : Type} (r : Py.exn + A) (e : Py.exn) (w : S) :
  r = inl e -> Py.lift r w = (inl e, w).
Proof. now intros ->. Qed.

End Monad.

Section JobRun.

(** The state changes of the pipeline's writes. *)
Definition upd_progress (e : Job.env) (step : string) (p : Z) (w : Job.world) : Job.world :=
  snd (Job._update_progress e step p w).
Definition upd_status (s : AnalysisStatus) (step : string) (p : Z) (w : Job.world) : Job.world :=
  snd (Job._update_status s step p w).
Definition handled (e : Job.env) (err : Py.exn) (w : Job.world) : Job.world :=
  snd (Job._handle_error e err w).

Lemma update_progress_run e step p w :
  Job._update_progress e step p w = (inr tt, upd_progress e step p w).
Proof. reflexivity. Qed.
Lemma update_status_run s step p w :
  Job._update_status s step p w = (inr tt, upd_status s step p w).
Proof. reflexivity. Qed.
Lemma handle_error_run e err w :
  Job._handle_error e err w = (inr tt, handled e err w).
Proof. reflexivity. Qed.

Definition crawl_error (u : string) (err : Py.exn) : Py.exn :=
  Py.Exn "CrawlerException" ("Failed to crawl " +:+ u +:+ ": " +:+ Py.exn_msg err).

Definition new_result (cd : SEO.crawl_data) (seo : SEO.seo_result)
    (aeo : LLM.aeo_result) (path : string) : Job.AnalysisResult :=
  {| Job.page_html := Py.take 50000 (SEO.html cd);
     Job.page_text := Py.take 50000 (SEO.text cd);
     Job.screenshot_path := path;
     Job.seo_score := SEO.seo_score seo;
     Job.seo_metrics := SEO.metrics seo;
     Job.aeo_score := LLM.aeo_score aeo;
     Job.aeo_metrics := LLM.brand_recognition aeo;
     Job.recommendations :=
       Job.merge_recommendations (SEO.seo_recommendations seo)
                                 (LLM.aeo_recommendations aeo) |}.

Definition added (r : Job.AnalysisResult) (w : Job.world) : Job.world :=
  snd (Job.add_result r w).
Definition committed_once (w : Job.world) : Job.world := snd (Job.commit w).
Definition saved (r : Job.AnalysisResult) (w : Job.world) : Job.world :=
  committed_once (added r w).

Lemma add_result_run r w : Job.add_result r w = (inr tt, added r w).
Proof. reflexivity. Qed.
Lemma commit_run w : Job.commit w = (inr tt, committed_once w).
Proof. reflexivity. Qed.

Definition run_spec (e : Job.env) (w : Job.world) : (Py.exn + Job.AnalysisResult) * Job.world :=
  let w1 := upd_progress e "Crawling website" 10
              (upd_status PROCESSING "Starting analysis" 0 w) in
  match Job.crawl e (Job.url (Job.request w1)) with
  | inl err => (inl (crawl_error (Job.url (Job.request w1)) err),
                handled e (crawl_error (Job.url (Job.request w1)) err) w1)
  | inr cd =>
      let w2 := upd_progress e "Analyzing SEO metrics" 35
                  (upd_progress e "Crawl completed" 30 w1) in
      match SEO.analyze cd with
      | inl err => (inl err, handled e err w2)
      | inr seo =>
          let w3 := upd_progress e "Running AI analysis" 65
                      (upd_progress e "SEO analysis completed" 60 w2) in
          match LLM.analyze_brand_recognition (Job.provider e) with
          | inl err => (inl err, handled e err w3)
          | inr aeo =>
              let w4 := upd_progress e "Saving results" 95
                          (upd_progress e "AI analysis completed" 90 w3) in
              match Job.save_screenshot e with
              | inl err => (inl err, handled e err w4)
              | inr path =>
                  (inr (new_result cd seo aeo path),
                   upd_status COMPLETED "Analysis completed" 100
                     (saved (new_result cd seo aeo path) w4))
              end
          end
      end
  end.

Lemma run_analysis_eq e w : Job.run_analysis e w = run_spec e w.
Proof.
  unfold Job.run_analysis, run_spec, Py.try_except. cbv zeta.
  rewrite (bind_inr _ _ _ _ _ (update_status_run _ _ _ _)).
  rewrite (bind_inr _ _ _ _ _ (update_progress_run _ _ _ _)).
  rewrite (bind_inr _ _ _ _ _ (get_run _)).
  unfold Job._crawl_website.
  destruct (Job.crawl e _) as [err|cd].
  - rewrite (bind_inl _ _ _ _ _ (raise_run _ _)).
    rewrite (bind_inr _ _ _ _ _ (handle_error_run _ _ _)). reflexivity.
  - rewrite (bind_inr _ _ _ _ _ (ret_run _ _)).
    rewrite (bind_inr _ _ _ _ _ (update_progress_run _ _ _ _)).
    rewrite (bind_inr _ _ _ _ _ (update_progress_run _ _ _ _)).
    unfold Job._analyze_seo.
    destruct (SEO.analyze cd) as [err|seo] eqn:Eseo.
    { rewrite (bind_inl _ _ _ _ _ (lift_inl _ _ _ eq_refl)).
      rewrite (bind_inr _ _ _ _ _ (handle_error_run _ _ _)). reflexivity. }
    rewrite (bind_inr _ _ _ _ _ (lift_inr _ _ _ eq_refl)).
    rewrite (bind_inr _ _ _ _ _ (update_progress_run _ _ _ _)).
    rewrite (bind_inr _ _ _ _ _ (update_progress_run _ _ _ _)).
    unfold Job._analyze_with_llm.
    destruct (LLM.analyze_brand_recognition _) as [err|aeo] eqn:Ellm.
    + rewrite (bind_inl _ _ _ _ _ (lift_inl _ _ _ eq_refl)).
      rewrite (bind_inr _ _ _ _ _ (handle_error_run _ _ _)). reflexivity.
    + rewrite (bind_inr _ _ _ _ _ (lift_inr _ _ _ eq_refl)).
      rewrite (bind_inr _ _ _ _ _ (update_progress_run _ _ _ _)).
      rewrite (bind_inr _ _ _ _ _ (update_progress_run _ _ _ _)).
      unfold Job._save_results.
      destruct (Job.save_screenshot e) as [err|path] eqn:Esave.
      * rewrite (bind_inl _ _ _ _ _ (bind_inl _ _ _ _ _ (lift_inl _ _ _ eq_refl))).
        rewrite (bind_inr _ _ _ _ _ (handle_error_run _ _ _)). reflexivity.
      * fold (new_result cd seo aeo path).
        erewrite (bind_inr (_ ≫= _)).
        2:{ rewrite (bind_inr _ _ _ _ _ (lift_inr _ _ _ eq_refl)).
            rewrite (bind_inr _ _ _ _ _ (add_result_run _ _)).
            rewrite (bind_inr _ _ _ _ _ (commit_run _)).
            apply ret_run. }
        rewrite (bind_inr _ _ _ _ _ (update_status_run _ _ _ _)).
        reflexivity.
Qed.

End JobRun.

Section JobFacts.

Lemma url_after_start (e : Job.env) (w : Job.world) :
  Job.url (Job.request (upd_progress e "Crawling website" 10
                          (upd_status PROCESSING "Starting analysis" 0 w)))
  = Job.url (Job.request w).
Proof. reflexivity. Qed.

(** The five ways a run can go, by the outcome of its crawl, of the rule
    scorer on the crawled page, and of its other collaborators. *)
Ltac job_cases e w :=
  rewrite ?run_analysis_eq; unfold run_spec; cbv zeta;
  rewrite ?url_after_start;
  destruct (Job.crawl e (Job.url (Job.request w))) as [?err|?cd];
  [| destruct (SEO.analyze _) as [?err|?seo];
     [| destruct (LLM.analyze_brand_recognition (Job.provider e)) as [?err|?aeo];
        [| destruct (Job.save_screenshot e) as [?err|?path] ] ] ].

(** How a run from the freshly created row ends. *)
Definition ends_completed (e : Job.env) (u : string) : Prop :=
  let out := fst (Job.run_analysis e (Job.new_world u)) in
  let w := snd (Job.run_analysis e (Job.new_world u)) in
  exists r, out = inr r
    /\ Job.status (Job.request w) = COMPLETED
    /\ Job.progress (Job.request w) = 100
    /\ Job.result w = Some r
    /\ map Job.progress (Job.committed w) = [0; 0; 10; 30; 35; 60; 65; 90; 95; 95; 100].

Definition ends_failed (e : Job.env) (u : string) : Prop :=
  let out := fst (Job.run_analysis e (Job.new_world u)) in
  let w := snd (Job.run_analysis e (Job.new_world u)) in
  exists err, out = inl err
    /\ Job.status (Job.request w) = FAILED
    /\ Job.result w = None
    /\ Job.error_message (Job.request w) = Some (Py.exn_msg err)
    /\ Job.err_details (Job.request w) =
         Some {| Job.ed_type := Py.exn_type err;
                 Job.ed_step := Job.current_step (Job.request w);
                 Job.ed_progress := Job.progress (Job.request w) |}
    /\ In (Job.progress (Job.request w),
           map Job.progress (Job.committed w))
          [ (10, [0; 0; 10; 10]);
            (35, [0; 0; 10; 30; 35; 35]);
            (65, [0; 0; 10; 30; 35; 60; 65; 65]);
            (95, [0; 0; 10; 30; 35; 60; 65; 90; 95; 95]) ].

Lemma job_ends (e : Job.env) (u : string) :
  ends_completed e u \/ ends_failed e u.
Proof.
  unfold ends_completed, ends_failed. cbv zeta.
  job_cases e (Job.new_world u).
  - right. eexists. lazy. repeat split. left. reflexivity.
  - right. eexists. lazy. repeat split. right; left. reflexivity.
  - right. eexists. lazy. repeat split. right; right; left. reflexivity.
  - right. eexists. lazy. repeat split. right; right; right; left. reflexivity.
  - left. exists (new_result cd seo aeo path).
    split; [reflexivity|]. split; [reflexivity|]. split; [reflexivity|].
    split; [reflexivity|]. lazy. reflexivity.
Qed.



(** C8: whenever a run returns, the Artifact it has persisted carries the
    rule suggestions followed by the semantic suggestions, sorted by
    priority with critical < high < medium < low: the list is a
    permutation of the concatenation, its priority keys never decrease, and
    for each priority the suggestions of that priority appear in the order
    they have in the concatenated input. *)
Theorem artifact_suggestions_sorted_stably
    (e : Job.env) (w : Job.world) (r : Job.AnalysisResult) :
  fst (Job.run_analysis e w) = inr r ->
  Job.result (snd (Job.run_analysis e w)) = Some r
  /\ (Job.priority_order "critical" < Job.priority_order "high"
      < Job.priority_order "medium"
      /\ Job.priority_order "medium" < Job.priority_order "low")
  /\ exists cd seo aeo,
       Job.crawl e (Job.url (Job.request w)) = inr cd
       /\ SEO.analyze cd = inr seo
       /\ LLM.analyze_brand_recognition (Job.provider e) = inr aeo
       /\ let input := (SEO.seo_recommendations seo
                          ++ LLM.aeo_recommendations aeo)%list in
          Permutation input (Job.recommendations r)
          /\ StronglySorted (key_le Job.priority_key) (Job.recommendations r)
          /\ forall k, with_key Job.priority_key k (Job.recommendations r)
                       = with_key Job.priority_key k input.
Proof.
  rewrite run_analysis_eq. unfold run_spec. cbv zeta.
  rewrite url_after_start.
  destruct (Job.crawl e (Job.url (Job.request w))) as [err|cd];
    [discriminate|].
  destruct (SEO.analyze cd) as [err|seo] eqn:Eseo; [discriminate|].
  destruct (LLM.analyze_brand_recognition (Job.provider e)) as [err|aeo];
    [discriminate|].
  destruct (Job.save_screenshot e) as [err|path]; [discriminate|].
  cbn [fst snd]. intros [= <-].
  split; [reflexivity|]. split; [vm_compute; repeat split; reflexivity|].
  exists cd, seo, aeo.
  split; [reflexivity|]. split; [exact Eseo|]. split; [reflexivity|].
  cbv zeta. cbn [new_result Job.recommendations].
  unfold Job.merge_recommendations.
  split; [apply sort_by_key_perm|].
  split; [apply sort_by_key_sorted|].
  intros k. apply sort_by_key_stable.
Qed.

Lemma artifact_suggestions_sorted_stably_witness :
  exists r,
    fst (Job.run_analysis Runs.job_ok (Job.new_world "https://a.example")) = inr r
    /\ map (fun x : recommendation => x !! "title") (Job.recommendations r) =
       [ Some "Expand Title Tag"; Some "Detail Your Products/Services";
         Some "Add Open Graph Tags"; Some "Highlight Unique Selling Points";
         Some "Clarify Target Audience"; Some "Add Canonical URL" ]
    /\ StronglySorted (key_le Job.priority_key) (Job.recommendations r).
Proof.
  destruct (fst (Job.run_analysis Runs.job_ok (Job.new_world "https://a.example")))
    as [err|r] eqn:E; [vm_compute in E; discriminate|].
  exists r. split; [reflexivity|].
  split.
  - apply (f_equal (fun o => match o with
                             | inr x => map (fun x : recommendation => x !! "title")
                                            (Job.recommendations x)
                             | inl _ => []
                             end)) in E.
    rewrite <- E. vm_compute. reflexivity.
  - pose proof (artifact_suggestions_sorted_stably Runs.job_ok
                  (Job.new_world "https://a.example") r E)
      as (_ & _ & cd & seo & aeo & _ & _ & _ & _ & Hs & _).
    exact Hs.
Defined.

End JobFacts.

(* ===================================================================== *)
(** * Properties of the batch pipeline *)
(* ===================================================================== *)

Section Children.

(** The row a member job is left in by its pipeline. *)
Definition run_child (e : Batch.env) (cb : bool) (i : nat) (cw : Job.world)
  : Job.world :=
  snd (Job.run_analysis (Batch.child_env e i cb) cw).

(** The members of two batch states apart, the rest is the same. *)
Definition same_but_urls_sent (w w' : Batch.world) : Prop :=
  Batch.batch w' = Batch.batch w
  /\ Batch.committed w' = Batch.committed w
  /\ Batch.comparison w' = Batch.comparison w.

Lemma analyze_single_url_run (e : Batch.env) (total k : nat)
    (w : Batch.world) (cw : Job.world) :
  Batch.urls w !! k = Some cw ->
  let res := Batch._analyze_single_url e total k w in
  fst res = inr tt
  /\ same_but_urls_sent w (snd res)
  /\ Batch.urls (snd res)
     = <[k := run_child e (Batch.has_callback e) k cw]> (Batch.urls w).
Proof.
  intros Hk. cbv zeta. unfold Batch._analyze_single_url.
  rewrite (bind_inr _ _ _ _ _ (get_run _)). rewrite Hk.
  unfold run_child.
  destruct (Job.run_analysis _ cw) as [out cw'].
  unfold same_but_urls_sent. repeat split.
Qed.

Lemma for_each_children (e : Batch.env) (total : nat) (todo : list Job.world) :
  forall (done : list Job.world) (w : Batch.world),
    Batch.urls w = (done ++ todo)%list ->
    let res := Batch.for_each (seq (List.length done) (List.length todo))
                 (Batch._analyze_single_url e total) w in
    fst res = inr tt
    /\ same_but_urls_sent w (snd res)
    /\ Batch.urls (snd res)
       = (done ++ imap (fun j => run_child e (Batch.has_callback e)
                                   (List.length done + j)) todo)%list.
Proof.
  induction todo as [|cw todo IH]; intros done w Hu; cbv zeta.
  - cbn [List.length seq Batch.for_each imap]. unfold same_but_urls_sent.
    repeat split. exact Hu.
  - cbn [List.length seq Batch.for_each].
    assert (Hk : Batch.urls w !! List.length done = Some cw).
    { rewrite Hu. apply list_lookup_middle. reflexivity. }
    destruct (analyze_single_url_run e total _ w cw Hk) as (Hf & Hs & Hurl).
    destruct (Batch._analyze_single_url e total (List.length done) w)
      as [out w1] eqn:E1.
    cbn [fst snd] in Hf, Hs, Hurl. subst out.
    rewrite (bind_inr _ _ _ _ _ E1).
    assert (Hu1 : Batch.urls w1
                  = ((done ++ [run_child e (Batch.has_callback e)
                                 (List.length done) cw]) ++ todo)%list).
    { rewrite Hurl, Hu.
      replace (List.length done) with (List.length done + 0)%nat at 1 by lia.
      rewrite insert_app_r. cbn. now rewrite <- app_assoc. }
    specialize (IH _ w1 Hu1). cbv zeta in IH.
    rewrite length_app in IH. cbn [List.length] in IH.
    replace (List.length done + 1)%nat with (S (List.length done)) in IH by lia.
    destruct IH as (IHf & IHs & IHu).
    split; [exact IHf|]. split.
    + destruct Hs as (? & ? & ?), IHs as (? & ? & ?).
      unfold same_but_urls_sent. repeat split; congruence.
    + rewrite IHu, <- app_assoc. cbn [app]. rewrite imap_cons.
      rewrite Nat.add_0_r.
      assert (Himap :
        imap ((fun j => run_child e (Batch.has_callback e)
                          (List.length done + j)) ∘ S) todo
        = imap (fun j => run_child e (Batch.has_callback e)
                           (S (List.length done) + j)) todo).
      { apply imap_ext. intros j x _. unfold compose.
        replace (List.length done + S j)%nat
          with (S (List.length done) + j)%nat by lia.
        reflexivity. }
      rewrite Himap. reflexivity.
Qed.

Lemma analyze_all_urls_run (e : Batch.env) (w : Batch.world) :
  let res := Batch._analyze_all_urls_concurrently e w in
  fst res = inr tt
  /\ same_but_urls_sent w (snd res)
  /\ Batch.urls (snd res)
     = imap (run_child e (Batch.has_callback e)) (Batch.urls w).
Proof.
  cbv zeta. unfold Batch._analyze_all_urls_concurrently.
  rewrite (bind_inr _ _ _ _ _ (get_run _)).
  exact (for_each_children e (List.length (Batch.urls w)) (Batch.urls w) [] w eq_refl).
Qed.

End Children.

Section ChildFacts.

(** A member job after its pipeline: COMPLETED with its result row, or
    FAILED without one. *)
Definition child_done (cw : Job.world) : Prop :=
  (Job.status (Job.request cw) = COMPLETED /\ exists r, Job.result cw = Some r)
  \/ (Job.status (Job.request cw) = FAILED /\ Job.result cw = None).

Lemma run_child_done (e : Batch.env) (cb : bool) (i : nat) (u : string) :
  child_done (run_child e cb i (Job.new_world u)).
Proof.
  unfold run_child, child_done.
  destruct (job_ends (Batch.child_env e i cb) u)
    as [(r & _ & Hs & _ & Hr & _) | (err & _ & Hs & Hr & _)]; eauto.
Qed.

Lemma children_done (e : Batch.env) (cb : bool) (us : list string) :
  Forall child_done (imap (run_child e cb) (map Job.new_world us)).
Proof.
  apply List.Forall_forall. intros cw Hin.
  apply list_elem_of_In, elem_of_lookup_imap in Hin.
  destruct Hin as (i & cw0 & -> & Hl).
  rewrite list_lookup_fmap in Hl.
  destruct (us !! i) as [u|]; [|discriminate]. injection Hl as <-.
  apply run_child_done.
Qed.

(** The rows [_fetch_completed_results] selects. *)
Definition fetched (kids : list Job.world) : list Aggregator.completed_result :=
  omap (fun cw : Job.world =>
          match Job.result cw with
          | Some r =>
              if status_eqb (Job.status (Job.request cw)) COMPLETED
              then Some (Job.url (Job.request cw), r) else None
          | None => None
          end) kids.

Lemma fetched_length (kids : list Job.world) :
  Forall child_done kids ->
  Z.of_nat (List.length (fetched kids)) = Batch.count_completed kids.
Proof.
  unfold Batch.count_completed, fetched.
  induction 1 as [|cw kids Hd _ IH]; [reflexivity|].
  cbn [omap list_omap List.filter].
  destruct Hd as [[Hs [r Hr]] | [Hs Hr]]; rewrite Hs, Hr; cbn.
  - cbn in IH. lia.
  - exact IH.
Qed.

Lemma children_terminal (e : Batch.env) (cb : bool) (us : list string) :
  Forall (fun cw => Job.status (Job.request cw) = COMPLETED
                    \/ Job.status (Job.request cw) = FAILED)
         (imap (run_child e cb) (map Job.new_world us)).
Proof.
  eapply List.Forall_impl; [|apply children_done].
  intros cw [[Hs _] | [Hs _]]; auto.
Qed.

End ChildFacts.

Section AggregatorFacts.

(** The narrative call succeeds within its three attempts, or fails in all
    three. *)
Definition narrative_succeeds (p : nat -> Aggregator.attempt) : Prop :=
  exists k r, (k < 3)%nat /\ p k = Aggregator.Parsed r.

Definition narrative_fails (p : nat -> Aggregator.attempt) : Prop :=
  forall k r, (k < 3)%nat -> p k <> Aggregator.Parsed r.

Lemma retry3_cases {A : Type} (call : nat -> Py.exn + A) :
  (exists k a, (k < 3)%nat /\ call k = inr a /\ Py.retry 3 call = inr a)
  \/ (exists e0 e1 e2, call 0%nat = inl e0 /\ call 1%nat = inl e1
                       /\ call 2%nat = inl e2 /\ Py.retry 3 call = inl e2).
Proof.
  unfold Py.retry. cbn [Py.retry_from].
  destruct (call 0%nat) as [e0|a0] eqn:E0; [|left; exists 0%nat, a0; auto].
  destruct (call 1%nat) as [e1|a1] eqn:E1; [|left; exists 1%nat, a1; auto].
  destruct (call 2%nat) as [e2|a2] eqn:E2; [|left; exists 2%nat, a2; auto].
  right. exists e0, e1, e2. auto.
Qed.

Lemma analyze_once_inr (cd : list Aggregator.competitor) (a : Aggregator.attempt) :
  cd <> [] ->
  (exists l, Aggregator.analyze_once cd a = inr l) <-> exists r, a = Aggregator.Parsed r.
Proof.
  intros Hne. destruct cd as [|c cd]; [congruence|].
  destruct a; cbn; split; intros [x Hx]; try discriminate; eauto.
Qed.

(** With at least two results the aggregator produces a comparison exactly
    when the narrative call succeeds, and raises the exception of the
    third attempt when it fails three times. *)
Lemma build_comparison_cases (results : list Aggregator.completed_result)
    (p : nat -> Aggregator.attempt) :
  (2 <= List.length results)%nat ->
  (narrative_succeeds p
   /\ exists cmp, Aggregator.build_comparison results p = inr (Some cmp))
  \/ (narrative_fails p
      /\ exists err msg,
           Aggregator.build_comparison results p = inl err
           /\ Py.exn_type err = "LLMAnalysisException"
           /\ (Py.exn_msg err = "OpenAI API error: " +:+ msg
               \/ Py.exn_msg err = "Invalid JSON response from GPT: " +:+ msg)).
Proof.
  intros Hlen. unfold Aggregator.build_comparison.
  replace (List.length results <? 2)%nat with false
    by (symmetry; apply Nat.ltb_ge; lia).
  set (cd := Aggregator._prepare_competitor_data results _ _).
  assert (Hcd : cd <> []).
  { subst cd. unfold Aggregator._prepare_competitor_data.
    destruct results; [cbn in Hlen; lia | discriminate]. }
  unfold Aggregator.analyze_competitive_landscape.
  destruct (retry3_cases (fun k => Aggregator.analyze_once cd (p k)))
    as [(k & l & Hk & Hcall & ->) | (e0 & e1 & e2 & H0 & H1 & H2 & ->)].
  - left. split; [|eauto].
    destruct (proj1 (analyze_once_inr cd (p k) Hcd) (ex_intro _ l Hcall)) as [r Hr].
    exists k, r. auto.
  - right. split.
    + intros k r Hk Hp.
      assert (exists l, Aggregator.analyze_once cd (p k) = inr l) as [l Hl]
        by (apply analyze_once_inr; eauto).
      destruct k as [|[|[|k]]]; [congruence | congruence | congruence | lia].
    + destruct cd as [|c cd']; [congruence|].
      cbn [Aggregator.analyze_once] in H2.
      destruct (p 2%nat) as [msg|msg|r]; [| |discriminate];
        injection H2 as <-; eexists; exists msg; cbn; auto.
Qed.

End AggregatorFacts.

Section AsyncRun.

Lemma bind_eq {S A B : Type} (m : Py.M S A) (k : A -> Py.M S B) (w : S) :
  (m ≫= k) w = match m w with
               | (inr a, w') => k a w'
               | (inl e, w') => (inl e, w')
               end.
Proof. reflexivity. Qed.

Lemma update_batch_status_run e s p m w :
  Batch._update_batch_status e s p m w
  = (inr tt, snd (Batch._update_batch_status e s p m w)).
Proof. reflexivity. Qed.

Lemma handle_batch_error_run e err w :
  Batch._handle_batch_error e err w
  = (inr tt, snd (Batch._handle_batch_error e err w)).
Proof. reflexivity. Qed.

Lemma modify_batch_run f w :
  Batch.modify_batch f w = (inr tt, snd (Batch.modify_batch f w)).
Proof. reflexivity. Qed.

(** The state [generate_comparison] leaves when it saves a comparison. *)
Definition compared (cmp : Aggregator.ComparisonResult) (own_session : bool)
    (w : Batch.world) : Batch.world :=
  {| Batch.batch := Batch.batch w;
     Batch.committed :=
       if own_session then Batch.committed w
       else (Batch.committed w ++ [Batch.batch w])%list;
     Batch.urls := Batch.urls w;
     Batch.comparison := Some cmp;
     Batch.sent := Batch.sent w |}.

Lemma fetch_completed_results_run (w : Batch.world) :
  Batch._fetch_completed_results w = (inr (fetched (Batch.urls w)), w).
Proof. reflexivity. Qed.

Lemma generate_comparison_run (e : Batch.env) (own : bool) (w : Batch.world) :
  Batch.generate_comparison e own w =
  match Aggregator.build_comparison (fetched (Batch.urls w)) (Batch.narrative e) with
  | inl err => (inl err, w)
  | inr None => (inr None, w)
  | inr (Some cmp) => (inr (Some cmp), compared cmp own w)
  end.
Proof.
  unfold Batch.generate_comparison.
  rewrite (bind_inr _ _ _ _ _ (fetch_completed_results_run _)).
  destruct (Aggregator.build_comparison _ _) as [err|[cmp|]].
  - now rewrite (bind_inl _ _ _ _ _ (lift_inl _ _ _ eq_refl)).
  - rewrite (bind_inr _ _ _ _ _ (lift_inr _ _ _ eq_refl)).
    destruct own, w; reflexivity.
  - now rewrite (bind_inr _ _ _ _ _ (lift_inr _ _ _ eq_refl)).
Qed.

(** The last steps of [run_competitive_analysis], from the final status to
    the returned dict. *)
Definition async_tail (e : Batch.env) (url_entries : list Job.world)
    (comparison : option Aggregator.ComparisonResult) : Batch.M Batch.summary :=
  let completed_count := Batch.count_completed url_entries in
  let failed_count := Z.of_nat (List.length url_entries) - completed_count in
  let final_status :=
    if completed_count =? 0 then FAILED
    else if 2 <=? completed_count then COMPLETED
    else FAILED in
  Batch.modify_batch (fun b =>
    if completed_count =? 0 then
      Batch.set_progress 100 (Batch.set_error "All URL analyses failed" b)
    else if 2 <=? completed_count then Batch.set_progress 100 b
    else
      Batch.set_progress 100
        (Batch.set_error "Insufficient successful analyses (minimum 2 required)" b));;
  Batch.modify_batch (fun b => Batch.set_completed_at (Batch.set_status final_status b));;
  Batch.commit;;
  Batch.callback e (Batch.Final (status_value final_status) 100 completed_count
                      failed_count (Z.of_nat (List.length url_entries))
                      (bool_decide (is_Some comparison)));;
  Py.ret {| Batch.s_status := status_value final_status;
            Batch.s_total_urls := Z.of_nat (List.length url_entries);
            Batch.s_completed_count := completed_count;
            Batch.s_failed_count := failed_count;
            Batch.s_has_comparison := bool_decide (is_Some comparison) |}.

Lemma async_tail_run e us cmp w :
  exists s, async_tail e us cmp w = (inr s, snd (async_tail e us cmp w)).
Proof. eexists. reflexivity. Qed.

Definition async_spec (e : Batch.env) (w0 : Batch.world)
  : (Py.exn + Batch.summary) * Batch.world :=
  let w1 := snd (Batch._update_batch_status e PROCESSING 0 None w0) in
  let w2 := snd (Batch._analyze_all_urls_concurrently e w1) in
  let c := Batch.count_completed (Batch.urls w2) in
  let f := Z.of_nat (List.length (Batch.urls w2)) - c in
  let w3 := snd (Batch.modify_batch (Batch.set_counts c f) w2) in
  if 2 <=? c then
    match Aggregator.build_comparison (fetched (Batch.urls w3)) (Batch.narrative e) with
    | inl err => (inl err, snd (Batch._handle_batch_error e err w3))
    | inr None => async_tail e (Batch.urls w2) None w3
    | inr (Some cmp) =>
        async_tail e (Batch.urls w2) (Some cmp) (compared cmp false w3)
    end
  else async_tail e (Batch.urls w2) None w3.

Lemma async_run_eq (e : Batch.env) (w0 : Batch.world) :
  Batch.urls w0 <> [] ->
  Batch.run_competitive_analysis e w0 = async_spec e w0.
Proof.
  intros Hne. unfold Batch.run_competitive_analysis, async_spec, Py.try_except.
  cbv zeta.
  rewrite (bind_inr _ _ _ _ _ (update_batch_status_run _ _ _ _ _)).
  rewrite (bind_inr _ _ _ _ _ (get_run _)).
  set (w1 := snd (Batch._update_batch_status e PROCESSING 0 None w0)).
  change (Batch.urls w1) with (Batch.urls w0) at 1.
  destruct (Batch.urls w0) as [|cw0 rest] eqn:Hurls; [congruence|].
  destruct (analyze_all_urls_run e w1) as (Hf & _ & _).
  destruct (Batch._analyze_all_urls_concurrently e w1) as [out w2] eqn:E2.
  cbn [fst snd] in *. subst out.
  rewrite (bind_inr _ _ _ _ _ E2).
  rewrite (bind_inr _ _ _ _ _ (get_run _)).
  rewrite (bind_inr _ _ _ _ _ (modify_batch_run _ _)).
  match goal with
  | |- context [ (?m ≫= ?k) (snd (Batch.modify_batch ?f w2)) ] =>
      change k with (async_tail e (Batch.urls w2))
  end.
  set (w3 := snd (Batch.modify_batch _ w2)).
  destruct (2 <=? Batch.count_completed (Batch.urls w2)) eqn:Ec.
  - rewrite (bind_eq (Batch.generate_comparison e false)).
    rewrite generate_comparison_run.
    destruct (Aggregator.build_comparison _ _) as [err|[cmp|]].
    + rewrite (bind_inr _ _ _ _ _ (handle_batch_error_run _ _ _)). reflexivity.
    + destruct (async_tail_run e (Batch.urls w2) (Some cmp) (compared cmp false w3))
        as [s Hs].
      now rewrite Hs.
    + destruct (async_tail_run e (Batch.urls w2) None w3) as [s Hs].
      now rewrite Hs.
  - rewrite (bind_inr _ _ _ _ _ (ret_run _ _)).
    destruct (async_tail_run e (Batch.urls w2) None w3) as [s Hs].
    now rewrite Hs.
Qed.

End AsyncRun.

Section SyncRun.

(** The dict [_analyze_single_url_async] returns for the member at [i]. *)
Definition child_result (e : Batch.env) (i : nat) (cw : Job.world)
  : Batch.url_result :=
  match Job.run_analysis (Batch.child_env e i false) cw with
  | (inl err, _) => Batch.UrlFailed (Py.exn_msg err)
  | (inr _, cw') =>
      match Job.result cw' with
      | Some r => Batch.UrlCompleted r
      | None => Batch.UrlFailed "Analysis returned None"
      end
  end.

Lemma analyze_single_url_async_run (e : Batch.env) (k : nat)
    (w : Batch.world) (cw : Job.world) :
  Batch.urls w !! k = Some cw ->
  let res := Batch._analyze_single_url_async e k w in
  fst res = inr (child_result e k cw)
  /\ same_but_urls_sent w (snd res)
  /\ Batch.urls (snd res) = <[k := run_child e false k cw]> (Batch.urls w).
Proof.
  intros Hk. cbv zeta. unfold Batch._analyze_single_url_async.
  rewrite (bind_inr _ _ _ _ _ (get_run _)). rewrite Hk.
  unfold run_child, child_result.
  destruct (Job.run_analysis _ cw) as [out cw'].
  unfold same_but_urls_sent. repeat split.
Qed.

Lemma gather_children (e : Batch.env) (todo : list Job.world) :
  forall (done : list Job.world) (w : Batch.world),
    Batch.urls w = (done ++ todo)%list ->
    let res := Batch.gather (seq (List.length done) (List.length todo))
                 (Batch._analyze_single_url_async e) w in
    fst res = inr (imap (fun j => child_result e (List.length done + j)) todo)
    /\ same_but_urls_sent w (snd res)
    /\ Batch.urls (snd res)
       = (done ++ imap (fun j => run_child e false (List.length done + j)) todo)%list.
Proof.
  induction todo as [|cw todo IH]; intros done w Hu; cbv zeta.
  - cbn [List.length seq Batch.gather imap]. unfold same_but_urls_sent.
    repeat split. exact Hu.
  - cbn [List.length seq Batch.gather].
    assert (Hk : Batch.urls w !! List.length done = Some cw).
    { rewrite Hu. apply list_lookup_middle. reflexivity. }
    destruct (analyze_single_url_async_run e _ w cw Hk) as (Hf & Hs & Hurl).
    destruct (Batch._analyze_single_url_async e (List.length done) w)
      as [out w1] eqn:E1.
    cbn [fst snd] in Hf, Hs, Hurl. subst out.
    rewrite (bind_inr _ _ _ _ _ E1).
    assert (Hu1 : Batch.urls w1
                  = ((done ++ [run_child e false (List.length done) cw]) ++ todo)%list).
    { rewrite Hurl, Hu.
      replace (List.length done) with (List.length done + 0)%nat at 1 by lia.
      rewrite insert_app_r. cbn. now rewrite <- app_assoc. }
    specialize (IH _ w1 Hu1). cbv zeta in IH.
    rewrite length_app in IH. cbn [List.length] in IH.
    replace (List.length done + 1)%nat with (S (List.length done)) in IH by lia.
    destruct IH as (IHf & IHs & IHu).
    destruct (Batch.gather (seq (S (List.length done)) (List.length todo))
                (Batch._analyze_single_url_async e) w1) as [outs w2] eqn:E2.
    cbn [fst snd] in IHf, IHs, IHu. subst outs.
    rewrite (bind_inr _ _ _ _ _ E2).
    rewrite !imap_cons, !Nat.add_0_r.
    assert (Hr :
      imap ((fun j => child_result e (List.length done + j)) ∘ S) todo
      = imap (fun j => child_result e (S (List.length done) + j)) todo).
    { apply imap_ext. intros j x _. unfold compose.
      replace (List.length done + S j)%nat
        with (S (List.length done) + j)%nat by lia.
      reflexivity. }
    assert (Hc :
      imap ((fun j => run_child e false (List.length done + j)) ∘ S) todo
      = imap (fun j => run_child e false (S (List.length done) + j)) todo).
    { apply imap_ext. intros j x _. unfold compose.
      replace (List.length done + S j)%nat
        with (S (List.length done) + j)%nat by lia.
      reflexivity. }
    rewrite Hr, Hc. cbn [fst snd Py.ret].
    split; [reflexivity|]. split.
    + destruct Hs as (? & ? & ?), IHs as (? & ? & ?).
      unfold same_but_urls_sent. repeat split; congruence.
    + rewrite IHu, <- app_assoc. reflexivity.
Qed.

Lemma run_concurrent_analyses_run (e : Batch.env) (w : Batch.world) :
  let res := Batch._run_concurrent_analyses e w in
  fst res = inr (imap (child_result e) (Batch.urls w))
  /\ same_but_urls_sent w (snd res)
  /\ Batch.urls (snd res) = imap (run_child e false) (Batch.urls w).
Proof.
  cbv zeta. unfold Batch._run_concurrent_analyses.
  rewrite (bind_inr _ _ _ _ _ (get_run _)).
  exact (gather_children e (Batch.urls w) [] w eq_refl).
Qed.

(** A URL counts as completed exactly when its job row is COMPLETED. *)
Lemma child_result_completed (e : Batch.env) (i : nat) (u : string) :
  Batch.is_completed (child_result e i (Job.new_world u))
  = status_eqb (Job.status (Job.request (run_child e false i (Job.new_world u))))
               COMPLETED.
Proof.
  unfold child_result, run_child.
  destruct (job_ends (Batch.child_env e i false) u)
    as [(r & Ho & Hs & _ & Hr & _) | (err & Ho & Hs & _)].
  - destruct (Job.run_analysis _ _) as [out cw']. cbn [fst snd] in *.
    subst out. now rewrite Hr, Hs.
  - destruct (Job.run_analysis _ _) as [out cw']. cbn [fst snd] in *.
    subst out. now rewrite Hs.
Qed.

Lemma completed_results_count (e : Batch.env) (us : list string) :
  Z.of_nat (List.length
    (List.filter Batch.is_completed
       (imap (child_result e) (map Job.new_world us))))
  = Batch.count_completed (imap (run_child e false) (map Job.new_world us)).
Proof.
  unfold Batch.count_completed. f_equal.
  generalize (child_result_completed e). generalize (child_result e).
  generalize (run_child e false). intros g h Hgh.
  revert g h Hgh. induction us as [|u us IH]; intros g h Hgh; [reflexivity|].
  cbn [map]. rewrite !imap_cons. cbn [List.filter]. rewrite Hgh.
  destruct (status_eqb _ _); cbn [List.length]; [f_equal|];
    apply IH; intros i u'; unfold compose; apply Hgh.
Qed.

Lemma update_batch_progress_run p w :
  Batch._update_batch_progress p w
  = (inr tt, snd (Batch._update_batch_progress p w)).
Proof. reflexivity. Qed.

Lemma finalize_batch_run s c f m w :
  Batch._finalize_batch s c f m w
  = (inr tt, snd (Batch._finalize_batch s c f m w)).
Proof. reflexivity. Qed.

Lemma batch_commit_run w : Batch.commit w = (inr tt, snd (Batch.commit w)).
Proof. reflexivity. Qed.

(** The last steps of the synchronous [run_analysis], from the 95% mark to
    the returned dict. *)
Definition sync_tail (n_urls : nat) (results : list Batch.url_result)
    (comparison : option Aggregator.ComparisonResult) : Batch.M Batch.summary :=
  Batch._update_batch_progress 95;;
  let completed_results := List.filter Batch.is_completed results in
  let completed_count := Z.of_nat (List.length completed_results) in
  let failed_count := Z.of_nat (List.length results) - completed_count in
  let '(final_status, error_message) :=
    if completed_count =? 0 then (FAILED, Some "All URL analyses failed")
    else if 2 <=? completed_count then (COMPLETED, None)
    else (FAILED,
          Some "Insufficient successful analyses (minimum 2 required)") in
  Batch._finalize_batch final_status completed_count failed_count error_message;;
  Py.ret {| Batch.s_status := status_value final_status;
            Batch.s_total_urls := Z.of_nat n_urls;
            Batch.s_completed_count := completed_count;
            Batch.s_failed_count := failed_count;
            Batch.s_has_comparison := bool_decide (is_Some comparison) |}.

Lemma sync_tail_run n results cmp w :
  exists s, sync_tail n results cmp w = (inr s, snd (sync_tail n results cmp w)).
Proof.
  unfold sync_tail. cbv zeta.
  destruct (Z.of_nat (List.length (List.filter Batch.is_completed results)) =? 0);
    [eexists; reflexivity|].
  destruct (2 <=? Z.of_nat (List.length (List.filter Batch.is_completed results)));
    eexists; reflexivity.
Qed.

Definition sync_spec (e : Batch.env) (w0 : Batch.world)
  : (Py.exn + Batch.summary) * Batch.world :=
  let w1 := snd (Batch._update_batch_progress 5 w0) in
  let w2 :=
    snd (Batch.commit
           (snd (Batch.modify_batch
                   (fun b => Batch.set_started
                               (Batch.set_progress 10 (Batch.set_status PROCESSING b)))
                   w1))) in
  let results := imap (child_result e) (Batch.urls w2) in
  let w3 := snd (Batch._update_batch_progress 80
                   (snd (Batch._run_concurrent_analyses e w2))) in
  let n := List.length (Batch.urls w1) in
  if (2 <=? List.length (List.filter Batch.is_completed results))%nat then
    match Aggregator.build_comparison (fetched (Batch.urls w3)) (Batch.narrative e) with
    | inl err =>
        (inl err,
         snd (Batch._finalize_batch FAILED 0 0
                (Some (Py.take 500 (Py.exn_msg err))) w3))
    | inr None => sync_tail n results None w3
    | inr (Some cmp) => sync_tail n results (Some cmp) (compared cmp true w3)
    end
  else sync_tail n results None w3.

Lemma sync_run_eq (e : Batch.env) (w0 : Batch.world) :
  Batch.urls w0 <> [] ->
  Batch.run_analysis e w0 = sync_spec e w0.
Proof.
  intros Hne. unfold Batch.run_analysis, sync_spec, Py.try_except.
  cbv zeta.
  rewrite (bind_inr _ _ _ _ _ (update_batch_progress_run _ _)).
  rewrite (bind_inr _ _ _ _ _ (get_run _)).
  set (w1 := snd (Batch._update_batch_progress 5 w0)).
  change (Batch.urls w1) with (Batch.urls w0) at 1.
  destruct (Batch.urls w0) as [|cw0 rest] eqn:Hurls; [congruence|].
  rewrite (bind_inr _ _ _ _ _ (modify_batch_run _ _)).
  rewrite (bind_inr _ _ _ _ _ (batch_commit_run _)).
  set (w2 := snd (Batch.commit _)).
  destruct (run_concurrent_analyses_run e w2) as (Hf & _ & _).
  destruct (Batch._run_concurrent_analyses e w2) as [out wc] eqn:E2.
  cbn [fst snd] in *. subst out.
  rewrite (bind_inr _ _ _ _ _ E2).
  rewrite (bind_inr _ _ _ _ _ (update_batch_progress_run _ _)).
  set (results := imap (child_result e) (Batch.urls w2)).
  set (w3 := snd (Batch._update_batch_progress 80 wc)).
  match goal with
  | |- context [ (?m ≫= ?k) w3 ] =>
      change k with (sync_tail (List.length (Batch.urls w1)) results)
  end.
  unfold Batch._generate_comparison_sync.
  destruct (2 <=? List.length (List.filter Batch.is_completed results))%nat eqn:Ec.
  - rewrite (bind_eq (Batch.generate_comparison e true)).
    rewrite generate_comparison_run.
    destruct (Aggregator.build_comparison _ _) as [err|[cmp|]].
    + rewrite (bind_inr _ _ _ _ _ (finalize_batch_run _ _ _ _ _)). reflexivity.
    + destruct (sync_tail_run (List.length (Batch.urls w1)) results (Some cmp)
                  (compared cmp true w3)) as [s Hs].
      now rewrite Hs.
    + destruct (sync_tail_run (List.length (Batch.urls w1)) results None w3)
        as [s Hs].
      now rewrite Hs.
  - rewrite (bind_inr _ _ _ _ _ (ret_run _ _)).
    destruct (sync_tail_run (List.length (Batch.urls w1)) results None w3)
      as [s Hs].
    now rewrite Hs.
Qed.

End SyncRun.

(** * How a batch run ends *)

Section BatchEnds.

Lemma narrative_not_both (p : nat -> Aggregator.attempt) :
  narrative_succeeds p -> narrative_fails p -> False.
Proof. intros (k & r & Hk & Hp) Hf. exact (Hf k r Hk Hp). Qed.

Lemma count_completed_nonneg (kids : list Job.world) :
  0 <= Batch.count_completed kids.
Proof. unfold Batch.count_completed. lia. Qed.

Lemma async_tail_final (e : Batch.env) (us : list Job.world)
    (cmp : option Aggregator.ComparisonResult) (w : Batch.world) :
  let w' := snd (async_tail e us cmp w) in
  let c := Batch.count_completed us in
  Batch.urls w' = Batch.urls w
  /\ Batch.comparison w' = Batch.comparison w
  /\ Batch.progress (Batch.batch w') = 100
  /\ Batch.total_urls (Batch.batch w') = Batch.total_urls (Batch.batch w)
  /\ Batch.completed_count (Batch.batch w') = Batch.completed_count (Batch.batch w)
  /\ Batch.failed_count (Batch.batch w') = Batch.failed_count (Batch.batch w)
  /\ Batch.status (Batch.batch w')
     = (if c =? 0 then FAILED else if 2 <=? c then COMPLETED else FAILED)
  /\ Batch.error_message (Batch.batch w')
     = (if c =? 0 then Some "All URL analyses failed"
        else if 2 <=? c then Batch.error_message (Batch.batch w)
        else Some "Insufficient successful analyses (minimum 2 required)").
Proof.
  cbv zeta. unfold async_tail. cbv zeta.
  destruct (Batch.count_completed us =? 0);
    [|destruct (2 <=? Batch.count_completed us)]; repeat split.
Qed.

Definition async_kids (e : Batch.env) (us : list string) : list Job.world :=
  imap (run_child e (Batch.has_callback e)) (map Job.new_world us).

(** How the asynchronous run of a freshly created batch ends. *)
Lemma async_ends (e : Batch.env) (i : string) (us : list string) :
  us <> [] ->
  let res := Batch.run_competitive_analysis e (Batch.new_world i us) in
  let w := snd res in
  let b := Batch.batch w in
  let c := Batch.count_completed (async_kids e us) in
  Batch.urls w = async_kids e us
  /\ Batch.total_urls b = Z.of_nat (List.length us)
  /\ Batch.progress b = 100
  /\ Batch.completed_count b = c
  /\ Batch.failed_count b = Z.of_nat (List.length us) - c
  /\ ((c = 0 /\ Batch.status b = FAILED
       /\ Batch.error_message b = Some "All URL analyses failed"
       /\ Batch.comparison w = None)
      \/ (c = 1 /\ Batch.status b = FAILED
          /\ Batch.error_message b
             = Some "Insufficient successful analyses (minimum 2 required)"
          /\ Batch.comparison w = None)
      \/ (2 <= c /\ narrative_succeeds (Batch.narrative e)
          /\ Batch.status b = COMPLETED /\ Batch.error_message b = None
          /\ exists cmp, Batch.comparison w = Some cmp)
      \/ (2 <= c /\ narrative_fails (Batch.narrative e)
          /\ exists err, fst res = inl err
               /\ Batch.status b = FAILED
               /\ Batch.error_message b = Some (Py.exn_msg err)
               /\ Batch.comparison w = None)).
Proof.
  intros Hne. cbv zeta.
  rewrite async_run_eq by (cbn; destruct us; [congruence | discriminate]).
  unfold async_spec. cbv zeta.
  set (w1 := snd (Batch._update_batch_status e PROCESSING 0 None (Batch.new_world i us))).
  destruct (analyze_all_urls_run e w1) as (_ & (Hb & _ & Hcmp) & Hu).
  set (w2 := snd (Batch._analyze_all_urls_concurrently e w1)) in *.
  change (Batch.urls w1) with (map Job.new_world us) in Hu.
  fold (async_kids e us) in Hu.
  assert (Hlen : List.length (Batch.urls w2) = List.length us).
  { rewrite Hu. unfold async_kids. now rewrite length_imap, length_map. }
  rewrite Hlen, Hu.
  set (c := Batch.count_completed (async_kids e us)).
  set (w3 := snd (Batch.modify_batch _ w2)).
  assert (Hu3 : Batch.urls w3 = async_kids e us) by exact Hu.
  assert (Hc3 : Batch.comparison w3 = None) by exact Hcmp.
  assert (Ht3 : Batch.total_urls (Batch.batch w3) = Z.of_nat (List.length us)).
  { change (Batch.total_urls (Batch.batch w3))
      with (Batch.total_urls (Batch.batch w2)). now rewrite Hb. }
  assert (Hcc3 : Batch.completed_count (Batch.batch w3) = c) by reflexivity.
  assert (Hfc3 : Batch.failed_count (Batch.batch w3) = Z.of_nat (List.length us) - c)
    by reflexivity.
  assert (He3 : Batch.error_message (Batch.batch w3) = None).
  { change (Batch.error_message (Batch.batch w3))
      with (Batch.error_message (Batch.batch w2)). now rewrite Hb. }
  pose proof (count_completed_nonneg (async_kids e us)) as Hc0. fold c in Hc0.
  destruct (2 <=? c) eqn:Ec.
  - apply Z.leb_le in Ec.
    assert (Hfl : (2 <= List.length (fetched (Batch.urls w3)))%nat).
    { rewrite Hu3. pose proof (fetched_length (async_kids e us)
                                 (children_done e _ us)). fold c in H. lia. }
    destruct (build_comparison_cases _ (Batch.narrative e) Hfl)
      as [(Hok & cmp & ->) | (Hfail & err & msg & -> & _)].
    + destruct (async_tail_final e (async_kids e us) (Some cmp) (compared cmp false w3))
        as (T1 & T2 & T3 & T4 & T5 & T6 & T7 & T8).
      fold c in T7, T8.
      replace (c =? 0) with false in T7, T8 by (symmetry; apply Z.eqb_neq; lia).
      replace (2 <=? c) with true in T7, T8 by (symmetry; apply Z.leb_le; lia).
      rewrite T1, T3, T4, T5, T6. repeat split; try assumption.
      right; right; left. repeat split; try assumption.
      * rewrite T8. exact He3.
      * exists cmp. rewrite T2. reflexivity.
    + repeat split; try assumption.
      right; right; right. repeat split; try assumption.
      exists err. repeat split. assumption.
  - apply Z.leb_gt in Ec.
    destruct (async_tail_final e (async_kids e us) None w3)
      as (T1 & T2 & T3 & T4 & T5 & T6 & T7 & T8).
    fold c in T7, T8. rewrite T1, T3, T4, T5, T6.
    repeat split; try assumption.
    destruct (Z.eq_dec c 0) as [E0|E0].
    + left. rewrite E0 in T7, T8. repeat split; try assumption; try congruence.
    + right; left.
      replace (c =? 0) with false in T7, T8 by (symmetry; apply Z.eqb_neq; lia).
      replace (2 <=? c) with false in T7, T8 by (symmetry; apply Z.leb_gt; lia).
      repeat split; try assumption; try lia; try congruence.
Qed.

Lemma sync_tail_final (n : nat) (results : list Batch.url_result)
    (cmp : option Aggregator.ComparisonResult) (w : Batch.world) :
  let w' := snd (sync_tail n results cmp w) in
  let c := Z.of_nat (List.length (List.filter Batch.is_completed results)) in
  Batch.urls w' = Batch.urls w
  /\ Batch.comparison w' = Batch.comparison w
  /\ Batch.progress (Batch.batch w') = 100
  /\ Batch.total_urls (Batch.batch w') = Batch.total_urls (Batch.batch w)
  /\ Batch.completed_count (Batch.batch w') = c
  /\ Batch.failed_count (Batch.batch w') = Z.of_nat (List.length results) - c
  /\ Batch.status (Batch.batch w')
     = (if c =? 0 then FAILED else if 2 <=? c then COMPLETED else FAILED)
  /\ Batch.error_message (Batch.batch w')
     = (if c =? 0 then Some "All URL analyses failed"
        else if 2 <=? c then Batch.error_message (Batch.batch w)
        else Some "Insufficient successful analyses (minimum 2 required)").
Proof.
  cbv zeta. unfold sync_tail. cbv zeta.
  destruct (Z.of_nat (List.length (List.filter Batch.is_completed results)) =? 0);
    [|destruct (2 <=? Z.of_nat (List.length (List.filter Batch.is_completed results)))];
    repeat split.
Qed.

Lemma finalize_failed_final (m : string) (w : Batch.world) :
  Py.truthy m = true ->
  let w' := snd (Batch._finalize_batch FAILED 0 0 (Some m) w) in
  Batch.urls w' = Batch.urls w
  /\ Batch.comparison w' = Batch.comparison w
  /\ Batch.total_urls (Batch.batch w') = Batch.total_urls (Batch.batch w)
  /\ Batch.progress (Batch.batch w') = 100
  /\ Batch.status (Batch.batch w') = FAILED
  /\ Batch.error_message (Batch.batch w') = Some m
  /\ Batch.completed_count (Batch.batch w') = 0
  /\ Batch.failed_count (Batch.batch w') = 0.
Proof.
  intros Hm. cbv zeta.
  unfold Batch._finalize_batch, Batch.modify_batch, Batch.commit, mbind,
    Py.M_bind, Py.bind, Batch.set_error_if.
  cbn [fst snd Batch.batch Batch.urls Batch.comparison]. rewrite Hm.
  repeat split.
Qed.

Definition sync_kids (e : Batch.env) (us : list string) : list Job.world :=
  imap (run_child e false) (map Job.new_world us).

(** How the synchronous run of a freshly created batch ends. *)
Lemma sync_ends (e : Batch.env) (i : string) (us : list string) :
  us <> [] ->
  let res := Batch.run_analysis e (Batch.new_world i us) in
  let w := snd res in
  let b := Batch.batch w in
  let c := Batch.count_completed (sync_kids e us) in
  Batch.urls w = sync_kids e us
  /\ Batch.total_urls b = Z.of_nat (List.length us)
  /\ Batch.progress b = 100
  /\ ((c = 0 /\ Batch.status b = FAILED
       /\ Batch.error_message b = Some "All URL analyses failed"
       /\ Batch.comparison w = None
       /\ Batch.completed_count b = c
       /\ Batch.failed_count b = Z.of_nat (List.length us) - c)
      \/ (c = 1 /\ Batch.status b = FAILED
          /\ Batch.error_message b
             = Some "Insufficient successful analyses (minimum 2 required)"
          /\ Batch.comparison w = None
          /\ Batch.completed_count b = c
          /\ Batch.failed_count b = Z.of_nat (List.length us) - c)
      \/ (2 <= c /\ narrative_succeeds (Batch.narrative e)
          /\ Batch.status b = COMPLETED /\ Batch.error_message b = None
          /\ (exists cmp, Batch.comparison w = Some cmp)
          /\ Batch.completed_count b = c
          /\ Batch.failed_count b = Z.of_nat (List.length us) - c)
      \/ (2 <= c /\ narrative_fails (Batch.narrative e)
          /\ (exists err, fst res = inl err
               /\ Batch.error_message b = Some (Py.take 500 (Py.exn_msg err)))
          /\ Batch.status b = FAILED
          /\ Batch.comparison w = None
          /\ Batch.completed_count b = 0
          /\ Batch.failed_count b = 0)).
Proof.
  intros Hne. cbv zeta.
  rewrite sync_run_eq by (cbn; destruct us; [congruence | discriminate]).
  unfold sync_spec. cbv zeta.
  set (w1 := snd (Batch._update_batch_progress 5 (Batch.new_world i us))).
  set (w2 := snd (Batch.commit _)).
  destruct (run_concurrent_analyses_run e w2) as (_ & (Hb & _ & Hcmp) & Hu).
  set (wc := snd (Batch._run_concurrent_analyses e w2)) in *.
  change (Batch.urls w2) with (map Job.new_world us) in *.
  change (Batch.urls w1) with (map Job.new_world us).
  fold (sync_kids e us) in Hu.
  set (results := imap (child_result e) (map Job.new_world us)).
  pose proof (completed_results_count e us) as Hcount. fold results in Hcount.
  fold (sync_kids e us) in Hcount.
  set (c := Batch.count_completed (sync_kids e us)) in *.
  assert (Hrl : List.length results = List.length us).
  { subst results. now rewrite length_imap, length_map. }
  rewrite length_map.
  set (w3 := snd (Batch._update_batch_progress 80 wc)).
  assert (Hu3 : Batch.urls w3 = sync_kids e us) by exact Hu.
  assert (Hc3 : Batch.comparison w3 = None) by exact Hcmp.
  assert (Ht3 : Batch.total_urls (Batch.batch w3) = Z.of_nat (List.length us)).
  { change (Batch.total_urls (Batch.batch w3))
      with (Batch.total_urls (Batch.batch wc)). now rewrite Hb. }
  assert (He3 : Batch.error_message (Batch.batch w3) = None).
  { change (Batch.error_message (Batch.batch w3))
      with (Batch.error_message (Batch.batch wc)). now rewrite Hb. }
  pose proof (count_completed_nonneg (sync_kids e us)) as Hc0. fold c in Hc0.
  destruct (2 <=? List.length (List.filter Batch.is_completed results))%nat eqn:Ec.
  - apply Nat.leb_le in Ec.
    assert (Hc2 : 2 <= c) by lia.
    assert (Hfl : (2 <= List.length (fetched (Batch.urls w3)))%nat).
    { rewrite Hu3. pose proof (fetched_length (sync_kids e us)
                                 (children_done e _ us)). fold c in H. lia. }
    destruct (build_comparison_cases _ (Batch.narrative e) Hfl)
      as [(Hok & cmp & ->) | (Hfail & err & msg & -> & _ & Hmsg)].
    + destruct (sync_tail_final (List.length us) results (Some cmp)
                  (compared cmp true w3))
        as (T1 & T2 & T3 & T4 & T5 & T6 & T7 & T8).
      rewrite Hcount in T5, T6, T7, T8. rewrite Hrl in T6.
      replace (c =? 0) with false in T7, T8 by (symmetry; apply Z.eqb_neq; lia).
      replace (2 <=? c) with true in T7, T8 by (symmetry; apply Z.leb_le; lia).
      rewrite T1, T3, T4. repeat split; try assumption.
      right; right; left. repeat split; try assumption.
      * rewrite T8. exact He3.
      * exists cmp. rewrite T2. reflexivity.
    + assert (Htr : Py.truthy (Py.take 500 (Py.exn_msg err)) = true).
      { destruct Hmsg as [-> | ->]; reflexivity. }
      destruct (finalize_failed_final _ w3 Htr)
        as (F1 & F2 & F3 & F4 & F5 & F6 & F7 & F8).
      cbn [snd fst]. rewrite F1, F3, F4.
      repeat split; try assumption.
      right; right; right. repeat split; try assumption; try congruence.
      exists err. split; [reflexivity | assumption].
  - apply Nat.leb_gt in Ec.
    destruct (sync_tail_final (List.length us) results None w3)
      as (T1 & T2 & T3 & T4 & T5 & T6 & T7 & T8).
    rewrite Hcount in T5, T6, T7, T8. rewrite Hrl in T6.
    rewrite T1, T3, T4.
    repeat split; try assumption.
    destruct (Z.eq_dec c 0) as [E0|E0].
    + left. rewrite E0 in T7, T8. rewrite E0.
      repeat split; try assumption; try congruence; try lia.
    + right; left.
      replace (c =? 0) with false in T7, T8 by (symmetry; apply Z.eqb_neq; lia).
      replace (2 <=? c) with false in T7, T8 by (symmetry; apply Z.leb_gt; lia).
      repeat split; try assumption; try lia; try congruence.
Qed.

End BatchEnds.

(** * The quorum rule, the narrative failure and the counters *)

Section BatchOutcome.

(** C1: for a Batch of at least one URL run by either orchestrator, every
    child Job ends COMPLETED or FAILED, and with [c] the number of
    COMPLETED children: if [c = 0] the Batch is FAILED with error
    "All URL analyses failed", progress 100 and no Comparison; if [c = 1]
    the Batch is FAILED with error
    "Insufficient successful analyses (minimum 2 required)" and no
    Comparison; if [2 <= c] and the narrative call of the Aggregator
    succeeds within its attempts, the Batch is COMPLETED with progress 100
    and a Comparison is persisted. *)
Theorem batch_quorum_rule (e : Batch.env) (i : string) (us : list string)
    (w : Batch.world) :
  us <> [] ->
  w = snd (Batch.run_competitive_analysis e (Batch.new_world i us))
  \/ w = snd (Batch.run_analysis e (Batch.new_world i us)) ->
  let b := Batch.batch w in
  let c := Batch.count_completed (Batch.urls w) in
  Forall (fun cw => Job.status (Job.request cw) = COMPLETED
                    \/ Job.status (Job.request cw) = FAILED) (Batch.urls w)
  /\ (c = 0 ->
      Batch.status b = FAILED
      /\ Batch.error_message b = Some "All URL analyses failed"
      /\ Batch.progress b = 100
      /\ Batch.comparison w = None)
  /\ (c = 1 ->
      Batch.status b = FAILED
      /\ Batch.error_message b
         = Some "Insufficient successful analyses (minimum 2 required)"
      /\ Batch.comparison w = None)
  /\ (2 <= c -> narrative_succeeds (Batch.narrative e) ->
      Batch.status b = COMPLETED
      /\ Batch.progress b = 100
      /\ exists cmp, Batch.comparison w = Some cmp).
Proof.
  intros Hne [-> | ->]; cbv zeta.
  - destruct (async_ends e i us Hne) as (Hu & _ & Hp & _ & _ & Hcases).
    cbv zeta in Hu, Hp, Hcases. rewrite Hu.
    split; [apply children_terminal|].
    destruct Hcases as [(Hc & Hs & Hm & Hcmp) | [(Hc & Hs & Hm & Hcmp)
      | [(Hc & Hok & Hs & Hm & Hcmp) | (Hc & Hfail & _)]]].
    + repeat split; try assumption; intros; lia.
    + repeat split; try assumption; intros; lia.
    + repeat split; try assumption; intros; lia.
    + split; [intros; lia|]. split; [intros; lia|].
      intros _ Hok. destruct (narrative_not_both _ Hok Hfail).
  - destruct (sync_ends e i us Hne) as (Hu & _ & Hp & Hcases).
    cbv zeta in Hu, Hp, Hcases. rewrite Hu.
    split; [apply children_terminal|].
    destruct Hcases as [(Hc & Hs & Hm & Hcmp & _) | [(Hc & Hs & Hm & Hcmp & _)
      | [(Hc & Hok & Hs & Hm & Hcmp & _) | (Hc & Hfail & _)]]].
    + repeat split; try assumption; intros; lia.
    + repeat split; try assumption; intros; lia.
    + repeat split; try assumption; intros; lia.
    + split; [intros; lia|]. split; [intros; lia|].
      intros _ Hok. destruct (narrative_not_both _ Hok Hfail).
Qed.

Lemma batch_quorum_rule_witness :
  Batch.count_completed
    (Batch.urls (snd (Batch.run_analysis Runs.first_fails
                        (Batch.new_world "b1" Runs.three_urls)))) = 2
  /\ Batch.status
       (Batch.batch (snd (Batch.run_analysis Runs.first_fails
                            (Batch.new_world "b1" Runs.three_urls)))) = COMPLETED
  /\ Batch.progress
       (Batch.batch (snd (Batch.run_analysis Runs.first_fails
                            (Batch.new_world "b1" Runs.three_urls)))) = 100
  /\ exists cmp,
       Batch.comparison (snd (Batch.run_analysis Runs.first_fails
                                (Batch.new_world "b1" Runs.three_urls)))
       = Some cmp.
Proof.
  assert (Hne : Runs.three_urls <> []) by (unfold Runs.three_urls; discriminate).
  assert (Hc : Batch.count_completed
                 (Batch.urls (snd (Batch.run_analysis Runs.first_fails
                                     (Batch.new_world "b1" Runs.three_urls)))) = 2)
    by (vm_compute; reflexivity).
  split; [exact Hc|].
  destruct (batch_quorum_rule Runs.first_fails "b1" Runs.three_urls _ Hne
              (or_intror eq_refl)) as (_ & _ & _ & H).
  apply H.
  - rewrite Hc. discriminate.
  - exists 0%nat. eexists. split; [repeat constructor | reflexivity].
Defined.

(** C1 as stated fails on the messages: with both children failed the
    stored error is "All URL analyses failed", not "all analyses failed",
    and with one child completed it is
    "Insufficient successful analyses (minimum 2 required)", with a capital
    letter. *)
Lemma batch_error_messages_differ :
  (Batch.count_completed
     (Batch.urls (snd (Batch.run_analysis Runs.all_fail
                         (Batch.new_world "b1" Runs.two_urls)))) = 0
   /\ Batch.error_message
        (Batch.batch (snd (Batch.run_analysis Runs.all_fail
                             (Batch.new_world "b1" Runs.two_urls))))
      = Some "All URL analyses failed"
   /\ Batch.error_message
        (Batch.batch (snd (Batch.run_analysis Runs.all_fail
                             (Batch.new_world "b1" Runs.two_urls))))
      <> Some "all analyses failed")
  /\ (Batch.count_completed
        (Batch.urls (snd (Batch.run_analysis Runs.only_first_ok
                            (Batch.new_world "b1" Runs.two_urls)))) = 1
      /\ Batch.error_message
           (Batch.batch (snd (Batch.run_analysis Runs.only_first_ok
                                (Batch.new_world "b1" Runs.two_urls))))
         = Some "Insufficient successful analyses (minimum 2 required)"
      /\ Batch.error_message
           (Batch.batch (snd (Batch.run_analysis Runs.only_first_ok
                                (Batch.new_world "b1" Runs.two_urls))))
         <> Some "insufficient successful analyses (minimum 2 required)").
Proof.
  repeat split; try (vm_compute; reflexivity); vm_compute; discriminate.
Qed.

(** C6: when at least two children are COMPLETED and the narrative call
    fails in each of its three attempts, the Aggregator raises instead of
    returning a comparison, no Comparison is persisted, and the run of
    either orchestrator raises that exception and leaves the Batch FAILED
    with progress 100 and the exception's message as error (cut to 500
    characters by the synchronous orchestrator). *)
Theorem narrative_failure_fails_batch (e : Batch.env) (i : string)
    (us : list string) :
  us <> [] ->
  narrative_fails (Batch.narrative e) ->
  let a := Batch.run_competitive_analysis e (Batch.new_world i us) in
  let s := Batch.run_analysis e (Batch.new_world i us) in
  (forall results, (2 <= List.length results)%nat ->
     exists err, Aggregator.build_comparison results (Batch.narrative e) = inl err)
  /\ (2 <= Batch.count_completed (Batch.urls (snd a)) ->
      exists err,
        fst a = inl err
        /\ Batch.status (Batch.batch (snd a)) = FAILED
        /\ Batch.progress (Batch.batch (snd a)) = 100
        /\ Batch.error_message (Batch.batch (snd a)) = Some (Py.exn_msg err)
        /\ Batch.comparison (snd a) = None)
  /\ (2 <= Batch.count_completed (Batch.urls (snd s)) ->
      exists err,
        fst s = inl err
        /\ Batch.status (Batch.batch (snd s)) = FAILED
        /\ Batch.progress (Batch.batch (snd s)) = 100
        /\ Batch.error_message (Batch.batch (snd s))
           = Some (Py.take 500 (Py.exn_msg err))
        /\ Batch.comparison (snd s) = None).
Proof.
  intros Hne Hfail. cbv zeta. split; [|split].
  - intros results Hlen.
    destruct (build_comparison_cases results (Batch.narrative e) Hlen)
      as [(Hok & _) | (_ & err & _ & Herr & _)].
    + destruct (narrative_not_both _ Hok Hfail).
    + eauto.
  - destruct (async_ends e i us Hne) as (Hu & _ & Hp & _ & _ & Hcases).
    cbv zeta in Hu, Hp, Hcases. rewrite Hu. intros Hc.
    destruct Hcases as [(Hc0 & _) | [(Hc1 & _)
      | [(_ & Hok & _) | (_ & _ & err & Hr & Hs & Hm & Hcmp)]]];
      [lia | lia | destruct (narrative_not_both _ Hok Hfail) |].
    exists err. repeat split; assumption.
  - destruct (sync_ends e i us Hne) as (Hu & _ & Hp & Hcases).
    cbv zeta in Hu, Hp, Hcases. rewrite Hu. intros Hc.
    destruct Hcases as [(Hc0 & _) | [(Hc1 & _)
      | [(_ & Hok & _) | (_ & _ & (err & Hr & Hm) & Hs & Hcmp & _)]]];
      [lia | lia | destruct (narrative_not_both _ Hok Hfail) |].
    exists err. repeat split; assumption.
Qed.

Lemma narrative_down_fails : narrative_fails (Batch.narrative Runs.narrative_down).
Proof. intros k r _ H. discriminate H. Qed.

Lemma narrative_failure_fails_batch_witness :
  Batch.count_completed
    (Batch.urls (snd (Batch.run_analysis Runs.narrative_down
                        (Batch.new_world "b1" Runs.two_urls)))) = 2
  /\ exists err,
       fst (Batch.run_analysis Runs.narrative_down
              (Batch.new_world "b1" Runs.two_urls)) = inl err
       /\ Batch.status
            (Batch.batch (snd (Batch.run_analysis Runs.narrative_down
                                 (Batch.new_world "b1" Runs.two_urls)))) = FAILED
       /\ Batch.comparison (snd (Batch.run_analysis Runs.narrative_down
                                   (Batch.new_world "b1" Runs.two_urls))) = None.
Proof.
  assert (Hne : Runs.two_urls <> []) by (unfold Runs.two_urls; discriminate).
  assert (Hc : Batch.count_completed
                 (Batch.urls (snd (Batch.run_analysis Runs.narrative_down
                                     (Batch.new_world "b1" Runs.two_urls)))) = 2)
    by (vm_compute; reflexivity).
  split; [exact Hc|].
  destruct (narrative_failure_fails_batch Runs.narrative_down "b1" Runs.two_urls
              Hne narrative_down_fails) as (_ & _ & H).
  destruct H as (err & Hr & Hs & _ & _ & Hcmp).
  - rewrite Hc. discriminate.
  - exists err. repeat split; assumption.
Defined.

(** C6 as stated fails: with both children COMPLETED and the narrative
    call failing three times, the Batch ends FAILED, not COMPLETED, and no
    Comparison exists, under either orchestrator. *)
Lemma narrative_failure_leaves_no_comparison :
  (Batch.count_completed
     (Batch.urls (snd (Batch.run_analysis Runs.narrative_down
                         (Batch.new_world "b1" Runs.two_urls)))) = 2
   /\ Batch.status
        (Batch.batch (snd (Batch.run_analysis Runs.narrative_down
                             (Batch.new_world "b1" Runs.two_urls)))) <> COMPLETED
   /\ Batch.comparison (snd (Batch.run_analysis Runs.narrative_down
                               (Batch.new_world "b1" Runs.two_urls))) = None)
  /\ (Batch.status
        (Batch.batch (snd (Batch.run_competitive_analysis Runs.narrative_down
                             (Batch.new_world "b1" Runs.two_urls)))) <> COMPLETED
      /\ Batch.comparison (snd (Batch.run_competitive_analysis Runs.narrative_down
                                  (Batch.new_world "b1" Runs.two_urls))) = None).
Proof.
  repeat split; try (vm_compute; reflexivity); vm_compute; discriminate.
Qed.

(** C5: the counters at the end of a run.  Under the asynchronous
    orchestrator they add up to the total.  Under the synchronous one they
    add up to the total unless at least two children are COMPLETED and the
    narrative call fails three times: then the Batch is FAILED with both
    counters 0, although it has at least one URL. *)
Theorem batch_counters_at_the_end (e : Batch.env) (i : string)
    (us : list string) :
  us <> [] ->
  let a := Batch.batch (snd (Batch.run_competitive_analysis e (Batch.new_world i us))) in
  let w := snd (Batch.run_analysis e (Batch.new_world i us)) in
  let s := Batch.batch w in
  let c := Batch.count_completed (Batch.urls w) in
  Batch.completed_count a + Batch.failed_count a = Batch.total_urls a
  /\ 0 < Batch.total_urls s
  /\ (c < 2 \/ narrative_succeeds (Batch.narrative e) ->
      Batch.completed_count s + Batch.failed_count s = Batch.total_urls s)
  /\ (2 <= c -> narrative_fails (Batch.narrative e) ->
      Batch.status s = FAILED
      /\ Batch.completed_count s = 0 /\ Batch.failed_count s = 0
      /\ Batch.completed_count s + Batch.failed_count s < Batch.total_urls s).
Proof.
  intros Hne. cbv zeta.
  assert (Hlen : 0 < Z.of_nat (List.length us))
    by (destruct us; [congruence | cbn [List.length]; lia]).
  split.
  { destruct (async_ends e i us Hne) as (_ & Ht & _ & Hcc & Hfc & _).
    cbv zeta in Ht, Hcc, Hfc. lia. }
  destruct (sync_ends e i us Hne) as (Hu & Ht & _ & Hcases).
  cbv zeta in Hu, Ht, Hcases. rewrite Hu, Ht.
  split; [exact Hlen|].
  destruct Hcases as [(Hc & _ & _ & _ & Hcc & Hfc) | [(Hc & _ & _ & _ & Hcc & Hfc)
    | [(Hc & Hok & _ & _ & _ & Hcc & Hfc) | (Hc & Hfail & _ & Hs & _ & Hcc & Hfc)]]].
  - split; intros; lia.
  - split; intros; lia.
  - split; [intros; lia|]. intros _ Hfail.
    destruct (narrative_not_both _ Hok Hfail).
  - split.
    + intros [Hlt | Hok]; [lia | destruct (narrative_not_both _ Hok Hfail)].
    + intros _ _. repeat split; try assumption. lia.
Qed.

Lemma batch_counters_at_the_end_witness :
  Batch.status
    (Batch.batch (snd (Batch.run_analysis Runs.narrative_down
                         (Batch.new_world "b1" Runs.two_urls)))) = FAILED
  /\ Batch.completed_count
       (Batch.batch (snd (Batch.run_analysis Runs.narrative_down
                            (Batch.new_world "b1" Runs.two_urls)))) = 0
  /\ Batch.failed_count
       (Batch.batch (snd (Batch.run_analysis Runs.narrative_down
                            (Batch.new_world "b1" Runs.two_urls)))) = 0
  /\ Batch.total_urls
       (Batch.batch (snd (Batch.run_analysis Runs.narrative_down
                            (Batch.new_world "b1" Runs.two_urls)))) = 2.
Proof.
  assert (Hne : Runs.two_urls <> []) by (unfold Runs.two_urls; discriminate).
  destruct (batch_counters_at_the_end Runs.narrative_down "b1" Runs.two_urls Hne)
    as (_ & _ & _ & H).
  destruct H as (Hs & Hcc & Hfc & _).
  - apply Z.leb_le. vm_compute. reflexivity.
  - exact narrative_down_fails.
  - split; [exact Hs|]. split; [exact Hcc|]. split; [exact Hfc|].
    vm_compute. reflexivity.
Defined.

End BatchOutcome.

(* ===================================================================== *)
(** * Further properties of the rule scorer *)
(* ===================================================================== *)

Section RuleScorerBounds.

(** The heading score is one of six values: without an H1 the H2 deduction
    is not applied, so the score never falls below 30. *)
Lemma heading_score_values (h : gmap string (list string)) :
  mem (SEO.score (SEO._analyze_headings h)) [30; 50; 60; 70; 80; 100] = true.
Proof.
  unfold SEO._analyze_headings, SEO.h1_step, SEO.h2_step, SEO.hierarchy_step.
  cbv zeta.
  destruct (SEO.heading_count h "h1") as [|[|n]];
    destruct (SEO.heading_count h "h2") as [|k];
    destruct (SEO.hierarchy_gap h [1; 2; 3; 4; 5]%nat); reflexivity.
Qed.

Definition rule_score_bounded (meta hd perf mobile sec sd : Z) : bool :=
  let s := Py.round2
             (SEO.total_score
                [ ("meta_tags", meta); ("headings", hd); ("performance", perf);
                  ("mobile", mobile); ("security", sec);
                  ("structured_data", sd) ]) in
  PrimFloat.leb 8.5%float s && PrimFloat.leb s 100%float.

Lemma rule_score_bounds_enumeration :
  forallb (fun meta =>
  forallb (fun hd =>
  forallb (fun perf =>
  forallb (fun mobile =>
  forallb (fun sec =>
  forallb (fun sd => rule_score_bounded meta hd perf mobile sec sd)
    structured_scores) flag_scores) flag_scores) performance_scores)
    [30; 50; 60; 70; 80; 100]) meta_scores = true.
Proof. vm_compute. reflexivity. Qed.

(** X1: for every crawl snapshot, also one with missing keys, the overall
    score [analyze] returns lies between 8.5 and 100: it stays inside the
    documented range 0-100, and the lowest value is 8.5 because the
    heading score is at least 30 and the performance score at least 20. *)
Theorem seo_score_bounds (cd : SEO.crawl_data) (r : SEO.seo_result) :
  SEO.analyze cd = inr r ->
  PrimFloat.leb 8.5%float (SEO.seo_score r) = true
  /\ PrimFloat.leb (SEO.seo_score r) 100%float = true.
Proof.
  intros Hr. destruct (analyze_returns cd r Hr) as (a & Ha & ->).
  rewrite analyze_seo_score, analyze_category_scores.
  pose proof (meta_score_range (default ∅ (SEO.meta_tags cd))) as H1.
  pose proof (heading_score_values (default ∅ (SEO.headings cd))) as H2.
  pose proof (performance_score_range (default 0%float (SEO.load_time cd))) as H3.
  pose proof (mobile_score_range (default false (SEO.mobile_friendly cd))) as H4.
  pose proof (security_score_range (default false (SEO.ssl_enabled cd))) as H5.
  pose proof (structured_score_range _ _ Ha) as H6.
  apply mem_In in H1, H2, H3, H4, H5, H6.
  pose proof rule_score_bounds_enumeration as E.
  rewrite forallb_forall in E. specialize (E _ H1).
  rewrite forallb_forall in E. specialize (E _ H2).
  rewrite forallb_forall in E. specialize (E _ H3).
  rewrite forallb_forall in E. specialize (E _ H4).
  rewrite forallb_forall in E. specialize (E _ H5).
  rewrite forallb_forall in E. specialize (E _ H6).
  unfold rule_score_bounded in E. cbv zeta in E.
  apply andb_true_iff in E. exact E.
Qed.

(** A page with no title, no description, an H3 as its only heading, a
    slow load, no viewport, no https and no structured data gets the
    lowest score. *)
Definition bare_page : SEO.crawl_data :=
  {| SEO.url := "http://bare.example";
     SEO.meta_tags := Some ∅;
     SEO.headings := Some (<["h3" := ["Details"]]> ∅);
     SEO.load_time := Some 7.25%float;
     SEO.mobile_friendly := Some false;
     SEO.ssl_enabled := Some false;
     SEO.structured_data := Some [];
     SEO.html := "";
     SEO.text := "" |}.

Lemma seo_score_bounds_witness :
  exists r,
    SEO.analyze bare_page = inr r
    /\ SEO.seo_score r = 8.5%float
    /\ PrimFloat.leb 8.5%float (SEO.seo_score r) = true
    /\ PrimFloat.leb (SEO.seo_score r) 100%float = true.
Proof.
  destruct (SEO.analyze bare_page) as [err|r] eqn:E;
    [vm_compute in E; discriminate|].
  exists r. split; [reflexivity|].
  split; [vm_compute in E; injection E as <-; reflexivity|].
  exact (seo_score_bounds bare_page r E).
Defined.

End RuleScorerBounds.

Section RuleScorerReports.

(** The number of findings a category analysis carries. *)
Definition reported (a : SEO.analysis) : nat :=
  (List.length (SEO.issues a) + List.length (SEO.recommendations a))%nat.

(** A step of a category analysis adds its full amount and reports
    nothing, or adds less and reports something. *)
Definition full_or_reported (full : Z) (a a' : SEO.analysis) : Prop :=
  (SEO.score a' = SEO.score a + full /\ reported a' = reported a)
  \/ (SEO.score a' < SEO.score a + full /\ (reported a < reported a')%nat).

Ltac step_cases :=
  repeat case_match;
  unfold full_or_reported, reported;
  cbn [SEO.score SEO.issues SEO.recommendations SEO.add_rec SEO.add_issue
       SEO.add_score];
  rewrite ?length_app; cbn [List.length]; lia.

Lemma title_step_reports (m : gmap string string) (a : SEO.analysis) :
  full_or_reported 40 a (SEO.title_step m a).
Proof. unfold SEO.title_step. step_cases. Qed.

Lemma description_step_reports (m : gmap string string) (a : SEO.analysis) :
  full_or_reported 40 a (SEO.description_step m a).
Proof. unfold SEO.description_step. step_cases. Qed.

Lemma open_graph_step_reports (m : gmap string string) (a : SEO.analysis) :
  full_or_reported 10 a (SEO.open_graph_step m a).
Proof. unfold SEO.open_graph_step. step_cases. Qed.

Lemma canonical_step_reports (m : gmap string string) (a : SEO.analysis) :
  full_or_reported 10 a (SEO.canonical_step m a).
Proof. unfold SEO.canonical_step. step_cases. Qed.

Lemma h1_step_reports (h : gmap string (list string)) (a : SEO.analysis) :
  full_or_reported 0 a (SEO.h1_step h a).
Proof. unfold SEO.h1_step. step_cases. Qed.

Lemma h2_step_reports (h : gmap string (list string)) (a : SEO.analysis) :
  full_or_reported 0 a (SEO.h2_step h a).
Proof. unfold SEO.h2_step. step_cases. Qed.

Lemma hierarchy_step_reports (h : gmap string (list string)) (a : SEO.analysis) :
  full_or_reported 0 a (SEO.hierarchy_step h a).
Proof. unfold SEO.hierarchy_step. step_cases. Qed.

Lemma meta_full_iff_silent (m : gmap string string) :
  SEO.score (SEO._analyze_meta_tags m) = 100
  <-> reported (SEO._analyze_meta_tags m) = 0%nat.
Proof.
  unfold SEO._analyze_meta_tags. cbv zeta.
  set (a0 := {| SEO.score := 0; SEO.issues := []; SEO.recommendations := [] |}).
  pose proof (title_step_reports m a0) as H1.
  pose proof (description_step_reports m (SEO.title_step m a0)) as H2.
  pose proof (open_graph_step_reports m
                (SEO.description_step m (SEO.title_step m a0))) as H3.
  pose proof (canonical_step_reports m
                (SEO.open_graph_step m
                   (SEO.description_step m (SEO.title_step m a0)))) as H4.
  unfold full_or_reported in *.
  unfold reported at 1. cbn [SEO.score SEO.issues SEO.recommendations].
  fold (reported (SEO.canonical_step m
                    (SEO.open_graph_step m
                       (SEO.description_step m (SEO.title_step m a0))))).
  change (SEO.score a0) with 0 in H1. change (reported a0) with 0%nat in H1.
  lia.
Qed.

Lemma headings_full_iff_silent (h : gmap string (list string)) :
  SEO.score (SEO._analyze_headings h) = 100
  <-> reported (SEO._analyze_headings h) = 0%nat.
Proof.
  unfold SEO._analyze_headings. cbv zeta.
  set (a0 := {| SEO.score := 100; SEO.issues := []; SEO.recommendations := [] |}).
  pose proof (h1_step_reports h a0) as H1.
  pose proof (h2_step_reports h (SEO.h1_step h a0)) as H2.
  pose proof (hierarchy_step_reports h (SEO.h2_step h (SEO.h1_step h a0))) as H3.
  unfold full_or_reported in *.
  unfold reported at 1. cbn [SEO.score SEO.issues SEO.recommendations].
  fold (reported (SEO.hierarchy_step h (SEO.h2_step h (SEO.h1_step h a0)))).
  change (SEO.score a0) with 100 in H1. change (reported a0) with 0%nat in H1.
  lia.
Qed.

Lemma performance_full_iff_silent (load_time : float) :
  SEO.perf_score (SEO._analyze_performance load_time) = 100
  <-> SEO.perf_issue (SEO._analyze_performance load_time) = None
      /\ SEO.perf_recommendations (SEO._analyze_performance load_time) = [].
Proof.
  unfold SEO._analyze_performance.
  repeat case_match; cbn [SEO.perf_score SEO.perf_issue SEO.perf_recommendations];
    (split; [intros Hs; first [split; reflexivity | discriminate Hs]
            | intros [Hi Hr]; first [reflexivity | discriminate Hi]]).
Qed.

Lemma structured_full_iff_silent (sd : list json) (a : SEO.analysis) :
  SEO._analyze_structured_data sd = inr a ->
  SEO.score a = 100 <-> SEO.recommendations a = [].
Proof.
  intros H.
  destruct (structured_analysis_cases sd a H)
    as [[_ ->] | [(_ & _ & ->) | (_ & _ & ->)]];
    cbn [SEO.score SEO.recommendations no_structured_data
         valid_structured_data plain_structured_data];
    (split; intros Hs; first [reflexivity | discriminate Hs]).
Qed.

Definition rule_score_full (meta hd perf mobile sec sd : Z) : bool :=
  eqb
    (PrimFloat.Leibniz.eqb
       (Py.round2
          (SEO.total_score
             [ ("meta_tags", meta); ("headings", hd); ("performance", perf);
               ("mobile", mobile); ("security", sec);
               ("structured_data", sd) ]))
       100%float)
    ((meta =? 100) && (hd =? 100) && (perf =? 100) && (mobile =? 100)
     && (sec =? 100) && (sd =? 100)).

Lemma rule_score_full_enumeration :
  forallb (fun meta =>
  forallb (fun hd =>
  forallb (fun perf =>
  forallb (fun mobile =>
  forallb (fun sec =>
  forallb (fun sd => rule_score_full meta hd perf mobile sec sd)
    structured_scores) flag_scores) flag_scores) performance_scores)
    heading_scores) meta_scores = true.
Proof. vm_compute. reflexivity. Qed.

(** The overall score is 100 exactly when each of the six category scores
    is 100. *)
Lemma seo_score_full_iff (cd : SEO.crawl_data) (a : SEO.analysis) :
  SEO._analyze_structured_data (default [] (SEO.structured_data cd)) = inr a ->
  SEO.seo_score (analyzed cd a) = 100%float
  <-> Forall (fun ks => snd ks = 100) (SEO.category_scores (analyzed cd a)).
Proof.
  intros Ha.
  rewrite analyze_seo_score, analyze_category_scores.
  pose proof (meta_score_range (default ∅ (SEO.meta_tags cd))) as H1.
  pose proof (heading_score_range (default ∅ (SEO.headings cd))) as H2.
  pose proof (performance_score_range (default 0%float (SEO.load_time cd))) as H3.
  pose proof (mobile_score_range (default false (SEO.mobile_friendly cd))) as H4.
  pose proof (security_score_range (default false (SEO.ssl_enabled cd))) as H5.
  pose proof (structured_score_range _ _ Ha) as H6.
  apply mem_In in H1, H2, H3, H4, H5, H6.
  pose proof rule_score_full_enumeration as E.
  rewrite forallb_forall in E. specialize (E _ H1).
  rewrite forallb_forall in E. specialize (E _ H2).
  rewrite forallb_forall in E. specialize (E _ H3).
  rewrite forallb_forall in E. specialize (E _ H4).
  rewrite forallb_forall in E. specialize (E _ H5).
  rewrite forallb_forall in E. specialize (E _ H6).
  unfold rule_score_full in E. apply eqb_prop in E.
  set (s := Py.round2 _) in *.
  split.
  - intros Hs.
    assert (Hb : PrimFloat.Leibniz.eqb s 100%float = true)
      by (apply FloatAxioms.Leibniz.eqb_spec; exact Hs).
    rewrite Hb in E. symmetry in E.
    repeat (apply andb_true_iff in E; destruct E as [E ?]).
    repeat constructor; cbn [snd]; apply Z.eqb_eq; assumption.
  - intros HF.
    repeat match goal with
           | H : Forall _ (_ :: _) |- _ => inversion H; subst; clear H
           end.
    cbn [snd] in *.
    apply FloatAxioms.Leibniz.eqb_spec. rewrite E.
    repeat (apply andb_true_iff; split); apply Z.eqb_eq; assumption.
Qed.

(** X2: whenever [analyze] returns, it gives the overall score 100
    exactly when it reports nothing: no issue and no recommendation.
    Every branch of the six category analyses that withholds points adds
    an issue or a recommendation, and no branch that grants all points
    adds one. *)
Theorem perfect_score_iff_nothing_reported (cd : SEO.crawl_data)
    (r : SEO.seo_result) :
  SEO.analyze cd = inr r ->
  SEO.seo_score r = 100%float
  <-> SEO.seo_issues r = [] /\ SEO.seo_recommendations r = [].
Proof.
  intros Hret. destruct (analyze_returns cd r Hret) as (a & Ha & ->).
  clear Hret.
  rewrite (seo_score_full_iff cd a Ha), analyze_category_scores.
  unfold analyzed. cbv zeta.
  set (meta := default ∅ (SEO.meta_tags cd)).
  set (hs := default ∅ (SEO.headings cd)).
  set (lt := default 0%float (SEO.load_time cd)).
  pose proof (meta_full_iff_silent meta) as Hm.
  pose proof (headings_full_iff_silent hs) as Hh.
  pose proof (performance_full_iff_silent lt) as Hp.
  pose proof (structured_full_iff_silent _ a Ha) as Hs.
  unfold reported in Hm, Hh.
  destruct (default false (SEO.mobile_friendly cd)),
           (default false (SEO.ssl_enabled cd));
    cbn [SEO._analyze_mobile SEO._analyze_security fst snd
         SEO.seo_issues SEO.seo_recommendations];
    (split;
     [ intros HF;
       repeat match goal with
              | H : Forall _ (_ :: _) |- _ => inversion H; subst; clear H
              end;
       cbn [snd] in *; try discriminate
     | intros [Hi Hr];
       repeat match goal with
              | H : (_ ++ _)%list = [] |- _ =>
                  apply app_eq_nil in H; destruct H
              end;
       try discriminate ]).
  - assert (Hm0 : (List.length (SEO.issues (SEO._analyze_meta_tags meta))
              + List.length (SEO.recommendations (SEO._analyze_meta_tags meta)))%nat = 0%nat)
      by (apply Hm; assumption).
    assert (Hh0 : (List.length (SEO.issues (SEO._analyze_headings hs))
              + List.length (SEO.recommendations (SEO._analyze_headings hs)))%nat = 0%nat)
      by (apply Hh; assumption).
    destruct (proj1 Hp ltac:(assumption)) as [Hpi Hpr].
    pose proof (proj1 Hs ltac:(assumption)) as Hsr.
    destruct (SEO.issues (SEO._analyze_meta_tags meta)); [|cbn in Hm0; lia].
    destruct (SEO.recommendations (SEO._analyze_meta_tags meta)); [|cbn in Hm0; lia].
    destruct (SEO.issues (SEO._analyze_headings hs)); [|cbn in Hh0; lia].
    destruct (SEO.recommendations (SEO._analyze_headings hs)); [|cbn in Hh0; lia].
    rewrite Hpi, Hpr, Hsr. split; reflexivity.
  - repeat match goal with
           | H : ?l = [] |- _ => rewrite H in *; clear H
           end.
    repeat constructor; cbn [snd].
    + apply Hm. reflexivity.
    + apply Hh. reflexivity.
    + apply Hp. split; [|reflexivity].
      destruct (SEO.perf_issue (SEO._analyze_performance lt));
        [discriminate | reflexivity].
    + apply Hs. reflexivity.
Qed.

(** A page on which every check of the six analyses passes. *)
Definition perfect_page : SEO.crawl_data :=
  {| SEO.url := "https://example.com";
     SEO.meta_tags :=
       Some (<["title" := "Example Domain Reference Pages"]>
               (<["description" := SEO.scenario1_description]>
                  (<["og:title" := "Example Domain"]>
                     (<["og:description" := "Example"]>
                        (<["og:image" := "https://example.com/a.png"]>
                           (<["og:url" := "https://example.com"]>
                              (<["canonical" := "https://example.com/"]> ∅)))))));
     SEO.headings := Some (<["h1" := ["Example Domain"]]>
                             (<["h2" := ["More information"]]> ∅));
     SEO.load_time := Some 1.5%float;
     SEO.mobile_friendly := Some true;
     SEO.ssl_enabled := Some true;
     SEO.structured_data :=
       Some [ JObj (<["@type" := JStr "Organization"]> ∅) ];
     SEO.html := "<html></html>";
     SEO.text := "Example Domain" |}.

Lemma perfect_score_iff_nothing_reported_witness :
  exists r,
    SEO.analyze perfect_page = inr r
    /\ SEO.seo_issues r = [] /\ SEO.seo_recommendations r = []
    /\ SEO.seo_score r = 100%float.
Proof.
  destruct (SEO.analyze perfect_page) as [err|r] eqn:E;
    [vm_compute in E; discriminate|].
  exists r. split; [reflexivity|].
  assert (Hsilent : SEO.seo_issues r = [] /\ SEO.seo_recommendations r = []).
  { pose proof E as E'. vm_compute in E'. injection E' as <-.
    split; reflexivity. }
  split; [exact (proj1 Hsilent)|]. split; [exact (proj2 Hsilent)|].
  exact (proj2 (perfect_score_iff_nothing_reported perfect_page r E) Hsilent).
Defined.

End RuleScorerReports.

Section FloatOrder.

(** The order of binary64 numbers, through their specification: [<=]
    followed by [<] is [<] (neither holds when a NaN is involved). *)
Lemma SFcompare_le_lt_trans (x y z : spec_float) :
  SFleb x y = true -> SFltb y z = true -> SFltb x z = true.
Proof.
  unfold SFleb, SFltb.
  destruct x as [sx|sx| |sx mx ex], y as [sy|sy| |sy my ey],
    z as [sz|sz| |sz mz ez]; cbn [SFcompare];
    try discriminate; try (intros _ _; reflexivity);
    try (destruct sx; try discriminate; intros _ _; reflexivity);
    try (destruct sx, sy; try discriminate; intros _ _; reflexivity);
    try (destruct sx, sz; try discriminate; intros _ _; reflexivity);
    try (destruct sy, sz; discriminate);
    try (destruct sx, sy, sz; discriminate).
  all: try (destruct sx, sy, sz; try discriminate; try (intros _ _; reflexivity)).
  all: change (Pos.compare_cont Eq ?a ?b) with (Pos.compare a b).
  all: destruct (Z.compare_spec ex ey), (Z.compare_spec ey ez),
         (Z.compare_spec ex ez); try lia; try discriminate;
       try (intros _ _; reflexivity); subst.
  all: destruct (Pos.compare_spec mx my), (Pos.compare_spec my mz),
         (Pos.compare_spec mx mz); cbn [CompOpp]; try lia; try discriminate;
       try (intros _ _; reflexivity).
Qed.

Lemma float_le_lt_trans (x y z : float) :
  PrimFloat.leb x y = true -> PrimFloat.ltb y z = true ->
  PrimFloat.ltb x z = true.
Proof.
  rewrite FloatAxioms.leb_spec, !FloatAxioms.ltb_spec.
  apply SFcompare_le_lt_trans.
Qed.

End FloatOrder.

Section Performance.

(** X4: a page that loads at least as fast never gets a lower performance
    score: for load times [a <= b] (binary64 comparison, so neither is a
    NaN) the score of [a] is at least the score of [b]. *)
Theorem performance_score_monotone (a b : float) :
  PrimFloat.leb a b = true ->
  SEO.perf_score (SEO._analyze_performance b)
  <= SEO.perf_score (SEO._analyze_performance a).
Proof.
  intros Hab. unfold SEO._analyze_performance.
  destruct (PrimFloat.ltb b SEO.PERF_EXCELLENT) eqn:B1.
  { rewrite (float_le_lt_trans _ _ _ Hab B1). cbn. lia. }
  destruct (PrimFloat.ltb b SEO.PERF_GOOD) eqn:B2.
  { rewrite (float_le_lt_trans _ _ _ Hab B2).
    destruct (PrimFloat.ltb a SEO.PERF_EXCELLENT); cbn; lia. }
  destruct (PrimFloat.ltb b SEO.PERF_ACCEPTABLE) eqn:B3.
  { rewrite (float_le_lt_trans _ _ _ Hab B3).
    destruct (PrimFloat.ltb a SEO.PERF_EXCELLENT),
      (PrimFloat.ltb a SEO.PERF_GOOD); cbn; lia. }
  destruct (PrimFloat.ltb a SEO.PERF_EXCELLENT),
    (PrimFloat.ltb a SEO.PERF_GOOD), (PrimFloat.ltb a SEO.PERF_ACCEPTABLE);
    cbn; lia.
Qed.

Lemma performance_score_monotone_witness :
  SEO.perf_score (SEO._analyze_performance 4.2%float) = 50
  /\ SEO.perf_score (SEO._analyze_performance 1.5%float) = 100
  /\ SEO.perf_score (SEO._analyze_performance 4.2%float)
     <= SEO.perf_score (SEO._analyze_performance 1.5%float).
Proof.
  split; [vm_compute; reflexivity|]. split; [vm_compute; reflexivity|].
  apply (performance_score_monotone 1.5%float 4.2%float).
  vm_compute. reflexivity.
Defined.

End Performance.

(* ===================================================================== *)
(** * The shape of the recommendations *)
(* ===================================================================== *)

Section Recommendations.

Definition levels : list string := ["critical"; "high"; "medium"; "low"].

(** A recommendation dict with exactly the five keys, the given category,
    and a priority and an impact among the four levels. *)
Definition well_formed (category : string) (r : recommendation) : Prop :=
  r !! "category" = Some category
  /\ (exists p, r !! "priority" = Some p /\ In p levels)
  /\ (exists i, r !! "impact" = Some i /\ In i levels)
  /\ is_Some (r !! "title")
  /\ is_Some (r !! "description")
  /\ size r = 5%nat.

Lemma mk_rec_well_formed (c p t d i : string) :
  In p levels -> In i levels -> well_formed c (mk_rec c p t d i).
Proof.
  intros Hp Hi. unfold well_formed, mk_rec.
  split; [now simplify_map_eq|].
  split; [exists p; split; [now simplify_map_eq | exact Hp]|].
  split; [exists i; split; [now simplify_map_eq | exact Hi]|].
  split; [now simplify_map_eq|].
  split; [now simplify_map_eq|].
  rewrite !map_size_insert_None; [rewrite map_size_empty; reflexivity | ..];
    now simplify_map_eq.
Qed.

Ltac levels_solve := unfold levels; cbn [In]; tauto.

Ltac recs_step :=
  repeat case_match;
  cbn [SEO.recommendations SEO.add_rec SEO.add_issue SEO.add_score];
  try assumption;
  apply Forall_app; (split; [assumption|]);
  (constructor; [apply mk_rec_well_formed; levels_solve | constructor]).

Lemma title_step_recs (m : gmap string string) (a : SEO.analysis) :
  Forall (well_formed "seo") (SEO.recommendations a) ->
  Forall (well_formed "seo") (SEO.recommendations (SEO.title_step m a)).
Proof. intros H. unfold SEO.title_step. recs_step. Qed.

Lemma description_step_recs (m : gmap string string) (a : SEO.analysis) :
  Forall (well_formed "seo") (SEO.recommendations a) ->
  Forall (well_formed "seo") (SEO.recommendations (SEO.description_step m a)).
Proof. intros H. unfold SEO.description_step. recs_step. Qed.

Lemma open_graph_step_recs (m : gmap string string) (a : SEO.analysis) :
  Forall (well_formed "seo") (SEO.recommendations a) ->
  Forall (well_formed "seo") (SEO.recommendations (SEO.open_graph_step m a)).
Proof. intros H. unfold SEO.open_graph_step. recs_step. Qed.

Lemma canonical_step_recs (m : gmap string string) (a : SEO.analysis) :
  Forall (well_formed "seo") (SEO.recommendations a) ->
  Forall (well_formed "seo") (SEO.recommendations (SEO.canonical_step m a)).
Proof. intros H. unfold SEO.canonical_step. recs_step. Qed.

Lemma h1_step_recs (h : gmap string (list string)) (a : SEO.analysis) :
  Forall (well_formed "seo") (SEO.recommendations a) ->
  Forall (well_formed "seo") (SEO.recommendations (SEO.h1_step h a)).
Proof. intros H. unfold SEO.h1_step. recs_step. Qed.

Lemma h2_step_recs (h : gmap string (list string)) (a : SEO.analysis) :
  Forall (well_formed "seo") (SEO.recommendations a) ->
  Forall (well_formed "seo") (SEO.recommendations (SEO.h2_step h a)).
Proof. intros H. unfold SEO.h2_step. recs_step. Qed.

Lemma hierarchy_step_recs (h : gmap string (list string)) (a : SEO.analysis) :
  Forall (well_formed "seo") (SEO.recommendations a) ->
  Forall (well_formed "seo") (SEO.recommendations (SEO.hierarchy_step h a)).
Proof. intros H. unfold SEO.hierarchy_step. recs_step. Qed.

Ltac one_rec :=
  repeat case_match; cbn [SEO.recommendations SEO.perf_recommendations fst snd];
  repeat constructor; apply mk_rec_well_formed; levels_solve.

(** X3: every recommendation [analyze] returns, whatever the crawl data,
    is a dict with exactly the keys category, priority, title, description
    and impact; its category is seo and its priority and its impact are
    among critical, high, medium and low. *)
Theorem seo_recommendations_well_formed (cd : SEO.crawl_data)
    (r : SEO.seo_result) :
  SEO.analyze cd = inr r ->
  Forall (well_formed "seo") (SEO.seo_recommendations r).
Proof.
  intros Hr. destruct (analyze_returns cd r Hr) as (a & Ha & ->).
  unfold analyzed. cbv zeta.
  destruct (SEO._analyze_mobile _) as [ms mr] eqn:Em.
  destruct (SEO._analyze_security _) as [ss sr] eqn:Es.
  cbn [SEO.seo_recommendations fst snd].
  repeat (apply Forall_app; split).
  - unfold SEO._analyze_meta_tags. cbv zeta. cbn [SEO.recommendations].
    apply canonical_step_recs, open_graph_step_recs, description_step_recs,
      title_step_recs. constructor.
  - unfold SEO._analyze_headings. cbv zeta. cbn [SEO.recommendations].
    apply hierarchy_step_recs, h2_step_recs, h1_step_recs. constructor.
  - unfold SEO._analyze_performance. one_rec.
  - unfold SEO._analyze_mobile in Em.
    destruct (default false (SEO.mobile_friendly cd)); injection Em as <- <-;
      repeat constructor; apply mk_rec_well_formed; levels_solve.
  - unfold SEO._analyze_security in Es.
    destruct (default false (SEO.ssl_enabled cd)); injection Es as <- <-;
      repeat constructor; apply mk_rec_well_formed; levels_solve.
  - destruct (structured_analysis_cases _ a Ha)
      as [[_ ->] | [(_ & _ & ->) | (_ & _ & ->)]];
      cbn [SEO.recommendations no_structured_data valid_structured_data
           plain_structured_data];
      repeat constructor; apply mk_rec_well_formed; levels_solve.
Qed.

Lemma seo_recommendations_well_formed_witness :
  exists r,
    SEO.analyze SEO.scenario1 = inr r
    /\ List.length (SEO.seo_recommendations r) = 3%nat
    /\ Forall (well_formed "seo") (SEO.seo_recommendations r).
Proof.
  destruct (SEO.analyze SEO.scenario1) as [err|r] eqn:E;
    [vm_compute in E; discriminate|].
  exists r. split; [reflexivity|].
  split; [vm_compute in E; injection E as <-; reflexivity|].
  exact (seo_recommendations_well_formed SEO.scenario1 r E).
Defined.

(** X6: [_generate_aeo_recommendations] returns at most six
    recommendations, each a dict with exactly the five keys, category aeo,
    and a priority and an impact among the four levels. *)
Theorem aeo_recommendations_well_formed (r : gmap string string)
    (clarity_score : Z) :
  Forall (well_formed "aeo") (LLM._generate_aeo_recommendations r clarity_score)
  /\ (List.length (LLM._generate_aeo_recommendations r clarity_score) <= 6)%nat.
Proof.
  unfold LLM._generate_aeo_recommendations. cbv zeta. split.
  - repeat (apply Forall_app; split);
      (case_match; [|constructor]);
      repeat constructor; apply mk_rec_well_formed; levels_solve.
  - rewrite !length_app.
    repeat match goal with
           | |- context [List.length (if ?b then _ else _)] => destruct b
           end; cbn [List.length]; lia.
Qed.

End Recommendations.

(* ===================================================================== *)
(** * Further properties of the semantic scorer *)
(* ===================================================================== *)

Section SemanticScoreBounds.

Definition semantic_score_bounded (c k pen : Z) : bool :=
  let s := aeo_core c (nth (Z.to_nat k) completeness_values 0%float) pen in
  PrimFloat.leb 0%float s && PrimFloat.leb s 100%float.

Lemma semantic_score_bounds_enumeration :
  forallb (fun c =>
  forallb (fun k =>
  forallb (fun pen => semantic_score_bounded c k pen) [0; 5; 10])
    [0; 1; 2; 3; 4]) clarity_scores = true.
Proof. vm_compute. reflexivity. Qed.

(** X5: for every report and every integer clarity score between -100
    and 100 (the provider is asked for 1 to 10), the score of
    [_calculate_aeo_score] lies between 0 and 100. *)
Theorem aeo_score_bounds (r : gmap string string) (clarity_score : Z) :
  -100 <= clarity_score <= 100 ->
  PrimFloat.leb 0%float (LLM._calculate_aeo_score r clarity_score) = true
  /\ PrimFloat.leb (LLM._calculate_aeo_score r clarity_score) 100%float = true.
Proof.
  intros Hc.
  change (LLM._calculate_aeo_score r clarity_score)
    with (aeo_core clarity_score (LLM.completeness_score r) (LLM.penalty r)).
  rewrite completeness_score_value.
  pose proof semantic_score_bounds_enumeration as E.
  rewrite forallb_forall in E. specialize (E _ (clarity_scores_In _ Hc)).
  rewrite forallb_forall in E.
  specialize (E _ (proj1 (mem_In _ _) (complete_fields_range r))).
  rewrite forallb_forall in E.
  specialize (E _ (proj1 (mem_In _ _) (penalty_range r))).
  unfold semantic_score_bounded in E. cbv zeta in E.
  apply andb_true_iff in E. exact E.
Qed.

Lemma aeo_score_bounds_witness :
  LLM._calculate_aeo_score
    (<["overall_impression" := "Confusing and vague"]> ∅) 1 = 0%float
  /\ PrimFloat.leb 0%float
       (LLM._calculate_aeo_score
          (<["overall_impression" := "Confusing and vague"]> ∅) 1) = true
  /\ PrimFloat.leb
       (LLM._calculate_aeo_score
          (<["overall_impression" := "Confusing and vague"]> ∅) 1)
       100%float = true.
Proof.
  split.
  - apply FloatAxioms.Leibniz.eqb_spec. vm_compute. reflexivity.
  - apply (aeo_score_bounds (<["overall_impression" := "Confusing and vague"]> ∅) 1).
    lia.
Defined.

End SemanticScoreBounds.

Section Retry.

Definition succeeded {A : Type} (r : Py.exn + A) : bool :=
  match r with inr _ => true | inl _ => false end.

Lemma retry_from_first_success {A : Type} (call : nat -> Py.exn + A) (n k : nat) :
  Py.retry_from call k (S n) =
  match List.find succeeded (map call (seq k (S n))) with
  | Some r => r
  | None => call (k + n)%nat
  end.
Proof.
  revert k. induction n as [|n IH]; intros k.
  - cbn. rewrite Nat.add_0_r. destruct (call k); reflexivity.
  - change (Py.retry_from call k (S (S n)))
      with (match call k with
            | inr a => inr a
            | inl e => Py.retry_from call (S k) (S n)
            end).
    change (seq k (S (S n))) with (k :: seq (S k) (S n)).
    cbn [map List.find].
    destruct (call k) as [e|a]; cbn [succeeded]; [|reflexivity].
    rewrite IH. replace (S k + n)%nat with (k + S n)%nat by lia. reflexivity.
Qed.

(** X7: the two calls decorated with tenacity's
    [@retry(stop=stop_after_attempt(3), reraise=True)] return what the
    first successful attempt among the first three returns; when all
    three fail they raise the exception of the third attempt.  Later
    attempts are never made. *)
Theorem retry_three_attempts (provider : nat -> LLM.attempt)
    (competitor_data : list Aggregator.competitor)
    (narrative : nat -> Aggregator.attempt) :
  LLM.analyze_brand_recognition provider =
    match List.find succeeded
            (map (fun k => LLM.analyze_once (provider k)) [0; 1; 2]%nat) with
    | Some r => r
    | None => LLM.analyze_once (provider 2%nat)
    end
  /\ Aggregator.analyze_competitive_landscape competitor_data narrative =
       match List.find succeeded
               (map (fun k => Aggregator.analyze_once competitor_data (narrative k))
                    [0; 1; 2]%nat) with
       | Some r => r
       | None => Aggregator.analyze_once competitor_data (narrative 2%nat)
       end.
Proof.
  unfold LLM.analyze_brand_recognition,
    Aggregator.analyze_competitive_landscape, Py.retry.
  rewrite !retry_from_first_success. split; reflexivity.
Qed.

(** The failure a run of the semantic scorer ends with is an
    [LLMAnalysisException] whose message names the provider error or the
    JSON error; an empty response counts as a provider error. *)
Lemma analyze_once_failure (a : LLM.attempt) (err : Py.exn) :
  LLM.analyze_once a = inl err ->
  Py.exn_type err = "LLMAnalysisException"
  /\ (Py.startswith "Anthropic Claude API error: " (Py.exn_msg err) = true
      \/ Py.startswith "Invalid JSON response from Claude: " (Py.exn_msg err)
         = true).
Proof.
  destruct a; cbn; intros [= <-]; cbn [Py.exn_type Py.exn_msg];
    (split; [reflexivity|]); first [left; reflexivity | right; reflexivity].
Qed.

End Retry.

(* ===================================================================== *)
(** * Further properties of the single-URL pipeline *)
(* ===================================================================== *)

Section JobPayloads.

(** The payloads [_update_progress] sends, in the order of the stages. *)
Definition stage_payloads : list Job.progress_data :=
  map (fun sp : string * Z =>
         {| Job.pd_status := "processing"; Job.pd_step := Some (fst sp);
            Job.pd_progress := Some (snd sp); Job.pd_error := None |})
      [ ("Crawling website", 10); ("Crawl completed", 30);
        ("Analyzing SEO metrics", 35); ("SEO analysis completed", 60);
        ("Running AI analysis", 65); ("AI analysis completed", 90);
        ("Saving results", 95) ].

(** The payload [_handle_error] sends. *)
Definition failure_payload (err : Py.exn) : Job.progress_data :=
  {| Job.pd_status := "failed"; Job.pd_step := None; Job.pd_progress := None;
     Job.pd_error := Some (Py.exn_msg err) |}.

(** X8: what the progress callback of a single-URL run receives.  A run
    that returns has sent the seven stage payloads, all with status
    processing and with progress 10, 30, 35, 60, 65, 90, 95: the
    COMPLETED transition and progress 100 are written to the row but
    never sent.  A run that raises has sent the first one (the crawl
    failed), three (the rule scorer raised), five (the semantic scorer
    failed) or seven (saving failed) of them, followed by one failed
    payload with the error text.  Without a callback nothing is sent. *)
Theorem progress_payloads_of_a_run (e : Job.env) (u : string) :
  let res := Job.run_analysis e (Job.new_world u) in
  let sent := Job.sent (snd res) in
  match fst res with
  | inr _ => sent = if Job.has_callback e then stage_payloads else []
  | inl err =>
      exists n, In n [1; 3; 5; 7]%nat
        /\ sent = if Job.has_callback e
                  then (firstn n stage_payloads ++ [failure_payload err])%list
                  else []
  end.
Proof.
  cbv zeta. rewrite run_analysis_eq. unfold run_spec. cbv zeta.
  rewrite url_after_start.
  destruct e as [crawl provider shot cb].
  cbn [Job.crawl Job.provider Job.save_screenshot Job.has_callback].
  destruct (crawl (Job.url (Job.request (Job.new_world u)))) as [err|cd];
    [| destruct (SEO.analyze cd) as [err|seo];
       [| destruct (LLM.analyze_brand_recognition provider) as [err|aeo];
          [| destruct shot as [err|path] ] ] ];
    cbn [fst snd].
  - exists 1%nat. split; [cbn; tauto|]. destruct cb; reflexivity.
  - exists 3%nat. split; [cbn; tauto|]. destruct cb; reflexivity.
  - exists 5%nat. split; [cbn; tauto|]. destruct cb; reflexivity.
  - exists 7%nat. split; [cbn; tauto|]. destruct cb; reflexivity.
  - destruct cb; reflexivity.
Qed.

(** A run on a page whose JSON-LD script holds an array: the rule scorer
    raises after the third payload, and the failed payload carries the
    text of its [AttributeError]. *)
Lemma rule_scorer_failure_payloads :
  let res := Job.run_analysis Runs.job_rules_fail
               (Job.new_world "https://a.example") in
  fst res = inl (SEO.no_get (JList [ JObj (<["@type" := JStr "Organization"]> ∅) ]))
  /\ map Job.pd_progress (Job.sent (snd res))
     = [Some 10; Some 30; Some 35; None]
  /\ map Job.pd_error (Job.sent (snd res))
     = [None; None; None; Some "'list' object has no attribute 'get'"]
  /\ Job.status (Job.request (snd res)) = FAILED
  /\ Job.progress (Job.request (snd res)) = 35.
Proof. cbv zeta. repeat split; vm_compute; reflexivity. Qed.

End JobPayloads.
Section JobLifecycle.

(** X9: the statuses the request row goes through, commit by commit: it
    is created PENDING, is PROCESSING in every commit of the run but the
    last, and is COMPLETED or FAILED in the last one, which holds the row
    as the run leaves it.  The row then has [started_at] set, and has
    [completed_at] set exactly when it is COMPLETED: a failed job gets no
    completion time. *)
Theorem job_status_lifecycle (e : Job.env) (u : string) :
  let w := snd (Job.run_analysis e (Job.new_world u)) in
  let final := Job.request w in
  (exists n, (1 <= n)%nat
     /\ map Job.status (Job.committed w)
        = (PENDING :: repeat PROCESSING n ++ [Job.status final])%list)
  /\ (Job.status final = COMPLETED \/ Job.status final = FAILED)
  /\ List.last (Job.committed w) (Job.new_request u) = final
  /\ Job.started_at final = true
  /\ (Job.completed_at final = true <-> Job.status final = COMPLETED).
Proof.
  cbv zeta. rewrite run_analysis_eq. unfold run_spec. cbv zeta.
  rewrite url_after_start.
  destruct (Job.crawl e (Job.url (Job.request (Job.new_world u)))) as [err|cd];
    [| destruct (SEO.analyze cd) as [err|seo];
       [| destruct (LLM.analyze_brand_recognition (Job.provider e)) as [err|aeo];
          [| destruct (Job.save_screenshot e) as [err|path] ] ] ];
    cbn [fst snd].
  - split; [exists 2%nat; split; [lia | lazy; reflexivity]|].
    lazy. repeat split; auto; discriminate.
  - split; [exists 4%nat; split; [lia | lazy; reflexivity]|].
    lazy. repeat split; auto; discriminate.
  - split; [exists 6%nat; split; [lia | lazy; reflexivity]|].
    lazy. repeat split; auto; discriminate.
  - split; [exists 8%nat; split; [lia | lazy; reflexivity]|].
    lazy. repeat split; auto; discriminate.
  - split; [exists 9%nat; split; [lia | lazy; reflexivity]|].
    lazy. repeat split; auto.
Qed.

End JobLifecycle.

Section StoredPages.

Lemma take_length (n : nat) (s : string) :
  String.length (Py.take n s) = Nat.min n (String.length s).
Proof.
  unfold Py.take. revert s.
  induction n as [|n IH]; intros [|c s]; cbn; try reflexivity.
  now rewrite IH.
Qed.

Lemma take_prefix (n : nat) (s : string) :
  String.prefix (Py.take n s) s = true.
Proof.
  unfold Py.take. revert s.
  induction n as [|n IH]; intros [|c s]; cbn; try reflexivity.
  rewrite IH. now destruct (Ascii.ascii_dec c c).
Qed.

Lemma take_all (n : nat) (s : string) :
  (String.length s <= n)%nat -> Py.take n s = s.
Proof.
  unfold Py.take. revert s.
  induction n as [|n IH]; intros [|c s]; cbn; intros H;
    try reflexivity; try lia.
  rewrite IH by lia. reflexivity.
Qed.

(** X10: the page source and the page text a returned run stores are the
    first 50000 characters of what the crawler delivered: a prefix of it,
    of length min(50000, length), and the whole of it when it is no
    longer than that. *)
Theorem stored_pages_are_truncated (e : Job.env) (w : Job.world)
    (r : Job.AnalysisResult) :
  fst (Job.run_analysis e w) = inr r ->
  exists cd,
    Job.crawl e (Job.url (Job.request w)) = inr cd
    /\ String.prefix (Job.page_html r) (SEO.html cd) = true
    /\ String.length (Job.page_html r)
       = Nat.min 50000 (String.length (SEO.html cd))
    /\ String.prefix (Job.page_text r) (SEO.text cd) = true
    /\ String.length (Job.page_text r)
       = Nat.min 50000 (String.length (SEO.text cd))
    /\ ((String.length (SEO.html cd) <= 50000)%nat ->
        Job.page_html r = SEO.html cd)
    /\ ((String.length (SEO.text cd) <= 50000)%nat ->
        Job.page_text r = SEO.text cd).
Proof.
  rewrite run_analysis_eq. unfold run_spec. cbv zeta.
  rewrite url_after_start.
  destruct (Job.crawl e (Job.url (Job.request w))) as [err|cd];
    [discriminate|].
  destruct (SEO.analyze cd) as [err|seo]; [discriminate|].
  destruct (LLM.analyze_brand_recognition (Job.provider e)) as [err|aeo];
    [discriminate|].
  destruct (Job.save_screenshot e) as [err|path]; [discriminate|].
  cbn [fst]. intros [= <-]. exists cd. cbn [new_result Job.page_html Job.page_text].
  split; [reflexivity|].
  split; [apply take_prefix|]. split; [apply take_length|].
  split; [apply take_prefix|]. split; [apply take_length|].
  split; apply take_all.
Qed.

Lemma stored_pages_are_truncated_witness :
  exists r,
    fst (Job.run_analysis Runs.job_ok (Job.new_world "https://a.example")) = inr r
    /\ Job.page_html r = "<html></html>"
    /\ Job.page_text r = "Example Domain".
Proof.
  destruct (fst (Job.run_analysis Runs.job_ok (Job.new_world "https://a.example")))
    as [err|r] eqn:E; [vm_compute in E; discriminate|].
  exists r. split; [reflexivity|].
  destruct (stored_pages_are_truncated Runs.job_ok
              (Job.new_world "https://a.example") r E)
    as (cd & Hcd & _ & _ & _ & _ & Hh & Ht).
  cbn in Hcd. injection Hcd as <-.
  split; [apply Hh | apply Ht]; apply Nat.leb_le; vm_compute; reflexivity.
Defined.

End StoredPages.

(* ===================================================================== *)
(** * Properties of the aggregator's rankings *)
(* ===================================================================== *)

Section SortBy.

Context {A : Type} (before : A -> A -> bool).

Lemma insert_by_perm (x : A) (l : list A) :
  Permutation (x :: l) (Py.insert_by before x l).
Proof.
  induction l as [|y l IH]; cbn [Py.insert_by]; [reflexivity|].
  destruct (before y x); [|reflexivity].
  rewrite perm_swap. now apply perm_skip.
Qed.

Lemma sort_by_perm (l : list A) : Permutation l (Py.sort_by before l).
Proof.
  induction l as [|x l IH]; cbn [Py.sort_by]; [reflexivity|].
  rewrite <- insert_by_perm. now apply perm_skip.
Qed.

(** With an asymmetric [before], no element of the sorted list sorts
    strictly before its predecessor. *)
Hypothesis before_asym : forall x y, before x y = true -> before y x = false.

Definition not_after (x y : A) : Prop := before y x = false.

Lemma insert_by_sorted (x : A) (l : list A) :
  Sorted not_after l -> Sorted not_after (Py.insert_by before x l).
Proof.
  induction l as [|y l IH]; intros Hs; cbn [Py.insert_by].
  - repeat constructor.
  - inversion Hs as [|? ? Hl Hy]; subst.
    destruct (before y x) eqn:E.
    + constructor; [now apply IH|].
      destruct l as [|z l]; cbn [Py.insert_by].
      * constructor. unfold not_after. now apply before_asym.
      * destruct (before z x) eqn:Ez.
        -- inversion Hy; subst. now constructor.
        -- constructor. unfold not_after. now apply before_asym.
    + constructor; [assumption|]. constructor. exact E.
Qed.

Lemma sort_by_sorted (l : list A) : Sorted not_after (Py.sort_by before l).
Proof.
  induction l as [|x l IH]; cbn [Py.sort_by]; [constructor|].
  now apply insert_by_sorted.
Qed.

End SortBy.

Section Rankings.

Lemma float_lt_asym (x y : float) :
  PrimFloat.ltb x y = true -> PrimFloat.ltb y x = false.
Proof.
  rewrite !FloatAxioms.ltb_spec. unfold SFltb.
  destruct (Prim2SF x) as [sx|sx| |sx mx ex], (Prim2SF y) as [sy|sy| |sy my ey];
    cbn [SFcompare]; try discriminate; try reflexivity;
    try (destruct sx; discriminate || reflexivity);
    try (destruct sy; discriminate || reflexivity);
    try (destruct sx, sy; discriminate || reflexivity).
  change (Pos.compare_cont Eq ?a ?b) with (Pos.compare a b).
  destruct sx, sy; try discriminate; try reflexivity;
    destruct (Z.compare_spec ex ey), (Z.compare_spec ey ex); try lia;
    try discriminate; try reflexivity;
    destruct (Pos.compare_spec mx my), (Pos.compare_spec my mx);
    cbn [CompOpp]; try lia; try discriminate; try reflexivity.
Qed.

(** The score a result contributes to the ranking of a metric. *)
Definition ranked_score (metric_type : string) (r : Aggregator.completed_result)
  : float :=
  Py.round2 (if String.eqb metric_type "seo"
             then Job.seo_score (snd r) else Job.aeo_score (snd r)).

Lemma imap_ranking_fields (scores : list (string * float * option string))
    (leader_score avg_score : float) (k : nat) :
  let rs :=
    imap (fun idx item =>
            {| Aggregator.url := fst (fst item);
               Aggregator.label := snd item;
               Aggregator.score := snd (fst item);
               Aggregator.rank := Z.of_nat (k + idx) + 1;
               Aggregator.delta_from_leader :=
                 Py.round2 (PrimFloat.sub (snd (fst item)) leader_score);
               Aggregator.delta_from_average :=
                 Py.round2 (PrimFloat.sub (snd (fst item)) avg_score) |})
         scores in
  map (fun rk => (Aggregator.url rk, Aggregator.score rk, Aggregator.label rk)) rs
  = scores
  /\ map Aggregator.rank rs
     = map (fun i => Z.of_nat i + 1) (seq k (List.length scores)).
Proof.
  cbv zeta. revert k.
  induction scores as [|[[u s] l] scores IH]; intros k; [split; reflexivity|].
  cbn [imap map seq List.length fst snd Aggregator.url Aggregator.score
       Aggregator.label Aggregator.rank].
  rewrite Nat.add_0_r.
  specialize (IH (S k)).
  assert (Hext :
    imap ((fun idx item =>
            {| Aggregator.url := fst (fst item);
               Aggregator.label := snd item;
               Aggregator.score := snd (fst item);
               Aggregator.rank := Z.of_nat (k + idx) + 1;
               Aggregator.delta_from_leader :=
                 Py.round2 (PrimFloat.sub (snd (fst item)) leader_score);
               Aggregator.delta_from_average :=
                 Py.round2 (PrimFloat.sub (snd (fst item)) avg_score) |}) ∘ S)
         scores
    = imap (fun idx item =>
            {| Aggregator.url := fst (fst item);
               Aggregator.label := snd item;
               Aggregator.score := snd (fst item);
               Aggregator.rank := Z.of_nat (S k + idx) + 1;
               Aggregator.delta_from_leader :=
                 Py.round2 (PrimFloat.sub (snd (fst item)) leader_score);
               Aggregator.delta_from_average :=
                 Py.round2 (PrimFloat.sub (snd (fst item)) avg_score) |})
         scores).
  { apply imap_ext. intros i x _. cbn. do 2 f_equal. lia. }
  rewrite Hext. destruct IH as [IH1 IH2]. rewrite IH1, IH2. split; reflexivity.
Qed.

(** What [_calculate_rankings] returns, as the properties below use it. *)
Lemma calculate_rankings_facts
    (results : list Aggregator.completed_result) (metric_type : string) :
  let rs := Aggregator._calculate_rankings results metric_type in
  Permutation (map (fun rk => (Aggregator.url rk, Aggregator.score rk)) rs)
              (map (fun r => (fst r, ranked_score metric_type r)) results)
  /\ map Aggregator.rank rs
     = map (fun i => Z.of_nat i + 1) (seq 0 (List.length results))
  /\ Forall (fun rk => Aggregator.label rk = None) rs
  /\ Sorted (fun a b => PrimFloat.ltb (Aggregator.score a) (Aggregator.score b)
                        = false) rs.
Proof.
  cbv zeta. unfold Aggregator._calculate_rankings. cbv zeta.
  set (scores0 := map _ results).
  set (scores := Py.sort_by_float_desc _ scores0).
  set (avg := match scores with [] => _ | _ :: _ => PrimFloat.div _ _ end).
  set (ldr := match scores with [] => _ | s :: _ => snd (fst s) end).
  set (rs := imap _ scores).
  destruct (imap_ranking_fields scores ldr avg 0) as [Hf Hr].
  cbv zeta in Hf, Hr. change (imap _ scores) with rs in Hf, Hr.
  assert (Hperm : Permutation scores0 scores)
    by (subst scores; unfold Py.sort_by_float_desc; apply sort_by_perm).
  assert (Hsorted :
    Sorted (fun a b : string * float * option string =>
              PrimFloat.ltb (snd (fst a)) (snd (fst b)) = false) scores).
  { subst scores. unfold Py.sort_by_float_desc.
    apply (sort_by_sorted
             (fun x y : string * float * option string =>
                PrimFloat.ltb (snd (fst y)) (snd (fst x)))).
    intros x y. apply float_lt_asym. }
  split; [|split; [|split]].
  - assert (H1 : map (fun rk => (Aggregator.url rk, Aggregator.score rk)) rs
                 = map fst scores)
      by (rewrite <- Hf, map_map; reflexivity).
    assert (H2 : map (fun r => (fst r, ranked_score metric_type r)) results
                 = map fst scores0)
      by (subst scores0; rewrite map_map; reflexivity).
    rewrite H1, H2. apply Permutation_map. symmetry. exact Hperm.
  - rewrite Hr. f_equal. f_equal.
    rewrite <- (Permutation_length Hperm). subst scores0. apply length_map.
  - assert (Hl : Forall (fun s : string * float * option string => snd s = None)
                        scores).
    { apply (Permutation_Forall Hperm). subst scores0.
      apply List.Forall_forall. intros s Hin. apply in_map_iff in Hin.
      destruct Hin as (r & <- & _). reflexivity. }
    rewrite <- Hf in Hl. rewrite List.Forall_forall in Hl.
    apply List.Forall_forall. intros rk Hin.
    apply (Hl (Aggregator.url rk, Aggregator.score rk, Aggregator.label rk)).
    apply in_map_iff. exists rk. split; [reflexivity | exact Hin].
  - rewrite <- Hf in Hsorted. clear -Hsorted.
    induction rs as [|a rs IH]; [constructor|].
    cbn [map] in Hsorted. inversion Hsorted as [|? ? Hs Hh]; subst.
    constructor; [now apply IH|].
    destruct rs as [|b rs]; constructor.
    cbn [map] in Hh. inversion Hh; subst. assumption.
Qed.

(** X11: [_calculate_rankings] ranks every result once.  The entries are
    the (url, rounded score) pairs of the results in another order, their
    ranks are 1, 2, ..., n from the top, every label is [None], and no
    entry has a score strictly greater than the entry before it. *)
Theorem rankings_rank_every_result (results : list Aggregator.completed_result)
    (metric_type : string) :
  let rs := Aggregator._calculate_rankings results metric_type in
  Permutation (map (fun rk => (Aggregator.url rk, Aggregator.score rk)) rs)
              (map (fun r => (fst r, ranked_score metric_type r)) results)
  /\ map Aggregator.rank rs
     = map (fun i => Z.of_nat i + 1) (seq 0 (List.length results))
  /\ Forall (fun rk => Aggregator.label rk = None) rs
  /\ Sorted (fun a b => PrimFloat.ltb (Aggregator.score a) (Aggregator.score b)
                        = false) rs.
Proof. exact (calculate_rankings_facts results metric_type). Qed.

End Rankings.
Section MarketLeader.

Lemma not_nan_spec (x : float) :
  PrimFloat.is_nan x = false -> Prim2SF x <> S754_nan.
Proof.
  unfold PrimFloat.is_nan. rewrite FloatAxioms.eqb_spec. intros H E.
  rewrite E in H. discriminate H.
Qed.

(** Among numbers, "not less" is "greater or equal", and [<=] is
    transitive. *)
Lemma float_not_lt_le (x y : float) :
  PrimFloat.is_nan x = false -> PrimFloat.is_nan y = false ->
  PrimFloat.ltb x y = false -> PrimFloat.leb y x = true.
Proof.
  intros Hx Hy. apply not_nan_spec in Hx, Hy.
  rewrite FloatAxioms.ltb_spec, FloatAxioms.leb_spec. unfold SFltb, SFleb.
  destruct (Prim2SF x) as [sx|sx| |sx mx ex], (Prim2SF y) as [sy|sy| |sy my ey];
    try congruence; cbn [SFcompare]; try reflexivity;
    try (destruct sx; discriminate || reflexivity);
    try (destruct sy; discriminate || reflexivity);
    try (destruct sx, sy; discriminate || reflexivity).
  change (Pos.compare_cont Eq ?a ?b) with (Pos.compare a b).
  destruct sx, sy; try discriminate; try reflexivity;
    destruct (Z.compare_spec ex ey), (Z.compare_spec ey ex); try lia;
    try discriminate; try reflexivity;
    destruct (Pos.compare_spec mx my), (Pos.compare_spec my mx);
    cbn [CompOpp]; try lia; try discriminate; try reflexivity.
Qed.

Lemma SFleb_trans (x y z : spec_float) :
  SFleb x y = true -> SFleb y z = true -> SFleb x z = true.
Proof.
  unfold SFleb.
  destruct x as [sx|sx| |sx mx ex], y as [sy|sy| |sy my ey],
    z as [sz|sz| |sz mz ez]; cbn [SFcompare];
    try discriminate; try (intros _ _; reflexivity);
    try (destruct sx; try discriminate; intros _ _; reflexivity);
    try (destruct sx, sy; try discriminate; intros _ _; reflexivity);
    try (destruct sx, sz; try discriminate; intros _ _; reflexivity);
    try (destruct sy, sz; discriminate);
    try (destruct sx, sy, sz; discriminate).
  all: try (destruct sx, sy, sz; try discriminate; try (intros _ _; reflexivity)).
  all: change (Pos.compare_cont Eq ?a ?b) with (Pos.compare a b).
  all: destruct (Z.compare_spec ex ey), (Z.compare_spec ey ez),
         (Z.compare_spec ex ez); try lia; try discriminate;
       try (intros _ _; reflexivity); subst.
  all: destruct (Pos.compare_spec mx my), (Pos.compare_spec my mz),
         (Pos.compare_spec mx mz); cbn [CompOpp]; try lia; try discriminate;
       try (intros _ _; reflexivity).
Qed.

Lemma float_le_trans (x y z : float) :
  PrimFloat.leb x y = true -> PrimFloat.leb y z = true ->
  PrimFloat.leb x z = true.
Proof. rewrite !FloatAxioms.leb_spec. apply SFleb_trans. Qed.

Lemma float_le_refl (x : float) :
  PrimFloat.is_nan x = false -> PrimFloat.leb x x = true.
Proof.
  intros Hx. apply float_not_lt_le; try assumption.
  destruct (PrimFloat.ltb x x) eqn:E; [|reflexivity].
  pose proof (float_lt_asym _ _ E). congruence.
Qed.

(** In a list of numbers in which no element is greater than its
    predecessor, no element is greater than the first. *)
Lemma sorted_head_is_top {A : Type} (key : A -> float) (a : A) (l : list A) :
  Sorted (fun x y => PrimFloat.ltb (key x) (key y) = false) (a :: l) ->
  Forall (fun x => PrimFloat.is_nan (key x) = false) (a :: l) ->
  Forall (fun x => PrimFloat.leb (key x) (key a) = true) (a :: l).
Proof.
  revert a. induction l as [|b l IH]; intros a Hs Hn.
  - constructor; [|constructor]. apply float_le_refl. now inversion Hn.
  - inversion Hs as [|? ? Hs' Hh]; subst. inversion Hh; subst.
    inversion Hn as [|? ? Ha Hn']; subst.
    assert (Hb : PrimFloat.is_nan (key b) = false) by now inversion Hn'.
    assert (Hba : PrimFloat.leb (key b) (key a) = true)
      by now apply float_not_lt_le.
    constructor; [now apply float_le_refl|].
    eapply List.Forall_impl; [|exact (IH b Hs' Hn')].
    intros x Hx. cbv beta in Hx. eapply float_le_trans; eassumption.
Qed.

(** The head of a ranking without NaN: rank 1, an analysed URL, and the
    greatest score. *)
Lemma ranking_top (results : list Aggregator.completed_result)
    (metric_type : string) :
  let rs := Aggregator._calculate_rankings results metric_type in
  results <> [] ->
  Forall (fun rk => PrimFloat.is_nan (Aggregator.score rk) = false) rs ->
  exists top,
    hd_error rs = Some top
    /\ Aggregator.rank top = 1
    /\ Aggregator.label top = None
    /\ In (Aggregator.url top) (map fst results)
    /\ Forall (fun rk => PrimFloat.leb (Aggregator.score rk)
                           (Aggregator.score top) = true) rs.
Proof.
  cbv zeta. intros Hne Hn.
  destruct (calculate_rankings_facts results metric_type)
    as (Hperm & Hranks & Hlabels & Hsorted).
  destruct (Aggregator._calculate_rankings results metric_type)
    as [|top rs] eqn:E.
  { apply Permutation_length in Hperm. rewrite !length_map in Hperm.
    destruct results; [congruence | discriminate]. }
  exists top. split; [reflexivity|].
  split.
  { destruct results; [congruence|]. cbn in Hranks. now injection Hranks. }
  split; [now inversion Hlabels|].
  split.
  { assert (Hin : In (Aggregator.url top, Aggregator.score top)
                     (map (fun r => (fst r, ranked_score metric_type r)) results)).
    { eapply Permutation_in; [exact Hperm|]. now left. }
    apply in_map_iff in Hin. destruct Hin as (r & [= Hu _] & Hr).
    apply in_map_iff. exists r. split; assumption. }
  apply sorted_head_is_top; assumption.
Qed.

(** X12: when none of the ranked scores is a NaN, the two leaders
    [_identify_market_leader] names are the entries of rank 1 of the SEO
    and of the AEO ranking: each is one of the analysed URLs, and no entry
    of its ranking has a greater score. *)
Theorem market_leader_has_top_score
    (results : list Aggregator.completed_result) :
  let seo := Aggregator._calculate_rankings results "seo" in
  let aeo := Aggregator._calculate_rankings results "aeo" in
  results <> [] ->
  Forall (fun rk => PrimFloat.is_nan (Aggregator.score rk) = false)
         (seo ++ aeo) ->
  exists s a,
    Aggregator._identify_market_leader seo aeo
    = (Some {| Aggregator.l_url := Aggregator.url s;
               Aggregator.l_score := Aggregator.score s;
               Aggregator.l_label := None |},
       Some {| Aggregator.l_url := Aggregator.url a;
               Aggregator.l_score := Aggregator.score a;
               Aggregator.l_label := None |})
    /\ hd_error seo = Some s /\ hd_error aeo = Some a
    /\ Aggregator.rank s = 1 /\ Aggregator.rank a = 1
    /\ In (Aggregator.url s) (map fst results)
    /\ In (Aggregator.url a) (map fst results)
    /\ Forall (fun rk => PrimFloat.leb (Aggregator.score rk)
                           (Aggregator.score s) = true) seo
    /\ Forall (fun rk => PrimFloat.leb (Aggregator.score rk)
                           (Aggregator.score a) = true) aeo.
Proof.
  cbv zeta. intros Hne Hn. apply Forall_app in Hn. destruct Hn as [Hs Ha].
  destruct (ranking_top results "seo" Hne Hs) as (s & Hs1 & Hs2 & Hs3 & Hs4 & Hs5).
  destruct (ranking_top results "aeo" Hne Ha) as (a & Ha1 & Ha2 & Ha3 & Ha4 & Ha5).
  exists s, a. repeat split; try assumption.
  unfold Aggregator._identify_market_leader, Aggregator.leader_of.
  destruct (Aggregator._calculate_rankings results "seo") as [|s' ?];
    [discriminate|].
  destruct (Aggregator._calculate_rankings results "aeo") as [|a' ?];
    [discriminate|].
  cbn in Hs1, Ha1. injection Hs1 as ->. injection Ha1 as ->.
  rewrite Hs3, Ha3. reflexivity.
Qed.

End MarketLeader.
Section CompetitorData.

(** Two completed analyses with the given scores. *)
Definition sample_result (seo aeo : float) : Job.AnalysisResult :=
  {| Job.page_html := "<html></html>"; Job.page_text := "Example";
     Job.screenshot_path := "storage/screenshots/job.png";
     Job.seo_score := seo;
     Job.seo_metrics :=
       SEO.metrics (analyzed SEO.scenario1 valid_structured_data);
     Job.aeo_score := aeo;
     Job.aeo_metrics := Runs.clear_reply;
     Job.recommendations := [] |}.

Definition sample_results : list Aggregator.completed_result :=
  [ ("https://a.example", sample_result 72.5%float 81%float);
    ("https://b.example", sample_result 90%float 64.25%float) ].

Lemma rank_map_lookup (rankings : list Aggregator.ranking) (u : string) :
  In u (map Aggregator.url rankings) ->
  exists rk, In rk rankings /\ Aggregator.url rk = u
             /\ Aggregator.rank_map rankings !! u = Some (Aggregator.rank rk).
Proof.
  intros Hin. unfold Aggregator.rank_map.
  set (l := rev (map (fun r => (Aggregator.url r, Aggregator.rank r)) rankings)).
  destruct (list_to_map l !! u) as [z|] eqn:E.
  - apply (elem_of_list_to_map_2 (M := gmap string)) in E.
    apply list_elem_of_In in E. subst l. apply in_rev, in_map_iff in E.
    destruct E as (rk & [= Hu Hz] & Hrk). exists rk. subst. auto.
  - apply (not_elem_of_list_to_map_2 (M := gmap string)) in E.
    exfalso. apply E. apply in_map_iff in Hin. destruct Hin as (rk & <- & Hrk).
    apply list_elem_of_fmap. exists (Aggregator.url rk, Aggregator.rank rk).
    split; [reflexivity|]. apply list_elem_of_In. subst l.
    apply -> in_rev. apply in_map_iff. exists rk. auto.
Qed.

(** X13: [_prepare_competitor_data] describes the results in their
    order.  The SEO and the AEO rank of each competitor are the ranks of
    ranking entries with the competitor's URL, hence between 1 and the
    number of results: the default rank 0 of the lookup is never used.
    Each competitor carries at most five issues and no label. *)
Theorem competitor_data_ranks (results : list Aggregator.completed_result) :
  let seo := Aggregator._calculate_rankings results "seo" in
  let aeo := Aggregator._calculate_rankings results "aeo" in
  let cd := Aggregator._prepare_competitor_data results seo aeo in
  let n := Z.of_nat (List.length results) in
  map Aggregator.c_url cd = map fst results
  /\ Forall (fun c =>
       (exists rk, In rk seo /\ Aggregator.url rk = Aggregator.c_url c
                   /\ Aggregator.rank rk = Aggregator.c_seo_rank c)
       /\ (exists rk, In rk aeo /\ Aggregator.url rk = Aggregator.c_url c
                      /\ Aggregator.rank rk = Aggregator.c_aeo_rank c)
       /\ 1 <= Aggregator.c_seo_rank c <= n
       /\ 1 <= Aggregator.c_aeo_rank c <= n
       /\ (List.length (Aggregator.c_issues c) <= 5)%nat
       /\ Aggregator.c_label c = None) cd.
Proof.
  cbv zeta.
  assert (Hurls : forall mt r, In r results ->
            In (fst r) (map Aggregator.url
                          (Aggregator._calculate_rankings results mt))).
  { intros mt r Hr.
    destruct (calculate_rankings_facts results mt) as (Hperm & _).
    apply (Permutation_map fst) in Hperm. rewrite !map_map in Hperm.
    cbn [fst] in Hperm.
    eapply Permutation_in; [symmetry; exact Hperm|].
    apply in_map_iff. exists r. auto. }
  assert (Hrange : forall mt rk,
            In rk (Aggregator._calculate_rankings results mt) ->
            1 <= Aggregator.rank rk <= Z.of_nat (List.length results)).
  { intros mt rk Hrk.
    destruct (calculate_rankings_facts results mt) as (_ & Hranks & _).
    assert (Hin : In (Aggregator.rank rk)
                     (map Aggregator.rank
                        (Aggregator._calculate_rankings results mt)))
      by (apply in_map; exact Hrk).
    cbv zeta in Hranks. rewrite Hranks in Hin. apply in_map_iff in Hin.
    destruct Hin as (i & <- & Hi). apply in_seq in Hi. lia. }
  unfold Aggregator._prepare_competitor_data.
  split; [rewrite map_map; reflexivity|].
  apply List.Forall_forall. intros c Hc. apply in_map_iff in Hc.
  destruct Hc as (r & <- & Hr).
  cbn [Aggregator.c_url Aggregator.c_seo_rank Aggregator.c_aeo_rank
       Aggregator.c_issues Aggregator.c_label].
  destruct (rank_map_lookup _ _ (Hurls "seo" r Hr)) as (rk1 & H1 & Hu1 & Hl1).
  destruct (rank_map_lookup _ _ (Hurls "aeo" r Hr)) as (rk2 & H2 & Hu2 & Hl2).
  rewrite Hl1, Hl2. cbn [default].
  split; [exists rk1; auto|]. split; [exists rk2; auto|].
  split; [apply (Hrange "seo"); exact H1|].
  split; [apply (Hrange "aeo"); exact H2|].
  split; [rewrite length_firstn; lia | reflexivity].
Qed.

Lemma market_leader_has_top_score_witness :
  exists s a,
    hd_error (Aggregator._calculate_rankings sample_results "seo") = Some s
    /\ hd_error (Aggregator._calculate_rankings sample_results "aeo") = Some a
    /\ Aggregator.url s = "https://b.example"
    /\ Aggregator.url a = "https://a.example"
    /\ Forall (fun rk => PrimFloat.leb (Aggregator.score rk)
                           (Aggregator.score s) = true)
              (Aggregator._calculate_rankings sample_results "seo").
Proof.
  assert (Hne : sample_results <> []) by (unfold sample_results; discriminate).
  assert (Hn : Forall (fun rk => PrimFloat.is_nan (Aggregator.score rk) = false)
                      (Aggregator._calculate_rankings sample_results "seo"
                       ++ Aggregator._calculate_rankings sample_results "aeo"))
    by (vm_compute; repeat constructor).
  destruct (market_leader_has_top_score sample_results Hne Hn)
    as (s & a & _ & Hs & Ha & _ & _ & _ & _ & Htop & _).
  exists s, a. split; [exact Hs|]. split; [exact Ha|].
  vm_compute in Hs, Ha. injection Hs as <-. injection Ha as <-.
  split; [reflexivity|]. split; [reflexivity|]. exact Htop.
Defined.

End CompetitorData.

(* ===================================================================== *)
(** * The batch row, commit by commit *)
(* ===================================================================== *)

Section BatchRows.

Lemma count_completed_le_length (kids : list Job.world) :
  Batch.count_completed kids <= Z.of_nat (List.length kids).
Proof.
  unfold Batch.count_completed.
  pose proof (filter_length_le
                (fun cw => status_eqb (Job.status (Job.request cw)) COMPLETED)
                kids). lia.
Qed.

(** What every committed batch row satisfies. *)
Definition row_ok (n : Z) (b : Batch.CompetitiveAnalysisBatch) : Prop :=
  Batch.total_urls b = n
  /\ 0 <= Batch.completed_count b
  /\ 0 <= Batch.failed_count b
  /\ Batch.completed_count b + Batch.failed_count b <= n
  /\ 0 <= Batch.progress b <= 100.

Ltac batch_compute :=
  lazy beta iota zeta delta
    [Batch.committed Batch.batch Batch.urls Batch.comparison Batch.sent
     Batch.modify_batch Batch.commit Batch.callback Batch.send
     Batch._update_batch_status Batch._handle_batch_error
     Batch._update_batch_progress Batch._finalize_batch
     Batch.set_progress Batch.set_status Batch.set_counts Batch.set_started
     Batch.set_completed_at Batch.set_error Batch.set_error_if
     Batch.new_world Batch.new_batch compared async_tail sync_tail
     Batch.progress Batch.status Batch.total_urls Batch.completed_count
     Batch.failed_count Batch.id Batch.started_at Batch.completed_at
     Batch.error_message row_ok
     mbind mret Py.M_bind Py.M_ret Py.bind Py.ret fst snd app map
     hd_error List.last repeat].

Lemma async_rows (e : Batch.env) (i : string) (us : list string) :
  us <> [] ->
  let w := snd (Batch.run_competitive_analysis e (Batch.new_world i us)) in
  let rows := Batch.committed w in
  Forall (row_ok (Z.of_nat (List.length us))) rows
  /\ StronglySorted Z.le (map Batch.progress rows)
  /\ hd_error rows = Some (Batch.new_batch i us)
  /\ List.last rows (Batch.new_batch i us) = Batch.batch w
  /\ (exists k, (1 <= k)%nat
        /\ map Batch.status rows
           = (PENDING :: repeat PROCESSING k ++ [Batch.status (Batch.batch w)])%list).
Proof.
  intros Hne. cbv zeta.
  rewrite async_run_eq by (cbn; destruct us; [congruence | discriminate]).
  unfold async_spec, async_tail. cbv zeta.
  set (w1 := snd (Batch._update_batch_status e PROCESSING 0 None (Batch.new_world i us))).
  destruct (analyze_all_urls_run e w1) as (_ & (Hb & Hc & Hcmp) & Hu).
  destruct (snd (Batch._analyze_all_urls_concurrently e w1))
    as [b2 c2 u2 cmp2 s2].
  cbn [Batch.batch Batch.committed Batch.comparison Batch.urls] in Hb, Hc, Hcmp, Hu.
  subst b2 c2 cmp2.
  assert (Hlen : List.length u2 = List.length us).
  { rewrite Hu. change (Batch.urls w1) with (map Job.new_world us).
    now rewrite length_imap, length_map. }
  pose proof (count_completed_le_length u2) as Hle.
  assert (H0 : 0 <= Batch.count_completed u2)
    by (unfold Batch.count_completed; lia).
  rewrite Hlen in *. clear Hu.
  cbn [Batch.urls] in *.
  set (c := Batch.count_completed u2) in *. clearbody c.
  set (n := Z.of_nat (List.length us)) in *.
  assert (Hn : 0 < n) by (subst n; destruct us; [congruence | cbn; lia]).
  subst w1.
  destruct ((2 <=? c)) eqn:E2.
  - apply Z.leb_le in E2.
    assert (E0 : (c =? 0) = false) by (apply Z.eqb_neq; lia).
    destruct (Aggregator.build_comparison _ _) as [err|[cmp|]].
    + batch_compute.
      split; [repeat constructor; lia|].
      split; [repeat constructor; lia|].
      split; [reflexivity|]. split; [reflexivity|].
      exists 1%nat. split; [lia | reflexivity].
    + rewrite E0.
      batch_compute.
      split; [repeat constructor; lia|].
      split; [repeat constructor; lia|].
      split; [reflexivity|]. split; [reflexivity|].
      exists 2%nat. split; [lia | reflexivity].
    + rewrite E0.
      batch_compute.
      split; [repeat constructor; lia|].
      split; [repeat constructor; lia|].
      split; [reflexivity|]. split; [reflexivity|].
      exists 1%nat. split; [lia | reflexivity].
  - destruct (c =? 0) eqn:E0;
      batch_compute;
      (split; [repeat constructor; lia|]);
      (split; [repeat constructor; lia|]);
      (split; [reflexivity|]); (split; [reflexivity|]);
      exists 1%nat; (split; [lia | reflexivity]).
Qed.

Lemma sync_rows (e : Batch.env) (i : string) (us : list string) :
  us <> [] ->
  let w := snd (Batch.run_analysis e (Batch.new_world i us)) in
  let rows := Batch.committed w in
  Forall (row_ok (Z.of_nat (List.length us))) rows
  /\ StronglySorted Z.le (map Batch.progress rows)
  /\ hd_error rows = Some (Batch.new_batch i us)
  /\ List.last rows (Batch.new_batch i us) = Batch.batch w
  /\ (exists k, (1 <= k)%nat
        /\ map Batch.status rows
           = (PENDING :: PENDING :: repeat PROCESSING k
              ++ [Batch.status (Batch.batch w)])%list).
Proof.
  intros Hne. cbv zeta.
  rewrite sync_run_eq by (cbn; destruct us; [congruence | discriminate]).
  unfold sync_spec, sync_tail. cbv zeta.
  set (w1 := snd (Batch._update_batch_progress 5 (Batch.new_world i us))).
  set (w2 := snd (Batch.commit _)).
  destruct (run_concurrent_analyses_run e w2) as (_ & (Hb & Hc & Hcmp) & _).
  destruct (snd (Batch._run_concurrent_analyses e w2)) as [b2 c2 u2 cmp2 s2].
  cbn [Batch.batch Batch.committed Batch.comparison] in Hb, Hc, Hcmp.
  subst b2 c2 cmp2.
  change (Batch.urls w2) with (map Job.new_world us).
  change (Batch.urls w1) with (map Job.new_world us).
  set (results := imap (child_result e) (map Job.new_world us)).
  assert (Hrl : List.length results = List.length us)
    by (subst results; now rewrite length_imap, length_map).
  pose proof (filter_length_le Batch.is_completed results) as Hle.
  rewrite Hrl in *.
  set (k := List.length (List.filter Batch.is_completed results)) in *.
  clearbody k. clear Hrl. clearbody results.
  assert (Hn : (0 < List.length us)%nat)
    by (destruct us; [congruence | cbn; lia]).
  subst w2 w1.
  destruct (2 <=? k)%nat eqn:E2.
  - apply Nat.leb_le in E2.
    assert (E0 : (Z.of_nat k =? 0) = false) by (apply Z.eqb_neq; lia).
    assert (E2' : (2 <=? Z.of_nat k) = true) by (apply Z.leb_le; lia).
    destruct (Aggregator.build_comparison _ _) as [err|[cmp|]].
    + destruct (Py.truthy (Py.take 500 (Py.exn_msg err))) eqn:Et;
        batch_compute; rewrite Et; batch_compute;
        (split; [repeat constructor; lia|]);
        (split; [repeat constructor; lia|]);
        (split; [reflexivity|]); (split; [reflexivity|]);
        exists 2%nat; (split; [lia | reflexivity]).
    + rewrite E0, E2'. batch_compute.
      split; [repeat constructor; lia|].
      split; [repeat constructor; lia|].
      split; [reflexivity|]. split; [reflexivity|].
      exists 3%nat. split; [lia | reflexivity].
    + rewrite E0, E2'. batch_compute.
      split; [repeat constructor; lia|].
      split; [repeat constructor; lia|].
      split; [reflexivity|]. split; [reflexivity|].
      exists 3%nat. split; [lia | reflexivity].
  - apply Nat.leb_gt in E2.
    assert (E2' : (2 <=? Z.of_nat k) = false) by (apply Z.leb_gt; lia).
    rewrite E2'.
    destruct (Z.of_nat k =? 0) eqn:E0;
      batch_compute; lazy beta iota delta [Py.truthy]; batch_compute;
      (split; [repeat constructor; lia|]);
      (split; [repeat constructor; lia|]);
      (split; [reflexivity|]); (split; [reflexivity|]);
      exists 3%nat; (split; [lia | reflexivity]).
Qed.

(** X14: every batch row an orchestrator commits, from the row the API
    created to the final one, has the batch's number of URLs as total,
    non-negative counters with [completed_count + failed_count <= total],
    and a progress between 0 and 100; the committed progress never
    decreases; the row is PENDING, then PROCESSING, and only the last
    commit, which holds the row as the run leaves it, carries the final
    status. *)
Theorem batch_rows_keep_invariants (e : Batch.env) (i : string)
    (us : list string) (w : Batch.world) :
  us <> [] ->
  w = snd (Batch.run_competitive_analysis e (Batch.new_world i us))
  \/ w = snd (Batch.run_analysis e (Batch.new_world i us)) ->
  let rows := Batch.committed w in
  let n := Z.of_nat (List.length us) in
  Forall (fun b =>
            Batch.total_urls b = n
            /\ 0 <= Batch.completed_count b
            /\ 0 <= Batch.failed_count b
            /\ Batch.completed_count b + Batch.failed_count b <= n
            /\ 0 <= Batch.progress b <= 100) rows
  /\ StronglySorted Z.le (map Batch.progress rows)
  /\ hd_error rows = Some (Batch.new_batch i us)
  /\ List.last rows (Batch.new_batch i us) = Batch.batch w
  /\ (exists j k, (1 <= j)%nat /\ (1 <= k)%nat
        /\ map Batch.status rows
           = (repeat PENDING j ++ repeat PROCESSING k
              ++ [Batch.status (Batch.batch w)])%list).
Proof.
  intros Hne [-> | ->]; cbv zeta.
  - destruct (async_rows e i us Hne) as (H1 & H2 & H3 & H4 & k & Hk & H5).
    repeat split; try assumption.
    exists 1%nat, k. repeat split; try lia. exact H5.
  - destruct (sync_rows e i us Hne) as (H1 & H2 & H3 & H4 & k & Hk & H5).
    repeat split; try assumption.
    exists 2%nat, k. repeat split; try lia. exact H5.
Qed.

Lemma batch_rows_keep_invariants_witness :
  map (fun b => (Batch.progress b, Batch.completed_count b, Batch.failed_count b))
      (Batch.committed
         (snd (Batch.run_analysis Runs.first_fails
                 (Batch.new_world "b1" Runs.three_urls))))
  = [ (0, 0, 0); (5, 0, 0); (10, 0, 0); (80, 0, 0); (95, 0, 0); (100, 2, 1) ]
  /\ StronglySorted Z.le
       (map Batch.progress
          (Batch.committed
             (snd (Batch.run_analysis Runs.first_fails
                     (Batch.new_world "b1" Runs.three_urls))))).
Proof.
  split; [vm_compute; reflexivity|].
  assert (Hne : Runs.three_urls <> []) by (unfold Runs.three_urls; discriminate).
  destruct (batch_rows_keep_invariants Runs.first_fails "b1" Runs.three_urls _
              Hne (or_intror eq_refl)) as (_ & H & _).
  exact H.
Defined.

End BatchRows.

(* ===================================================================== *)
(** * The two batch orchestrators side by side *)
(* ===================================================================== *)

Section BatchFinal.

(** The quorum rule: the final status and error for [c] completed members. *)
Definition quorum (c : Z) : AnalysisStatus * option string :=
  if c =? 0 then (FAILED, Some "All URL analyses failed")
  else if 2 <=? c then (COMPLETED, None)
  else (FAILED, Some "Insufficient successful analyses (minimum 2 required)").

(** A batch row after its run. *)
Definition final_row (i : string) (n c f : Z) (st : AnalysisStatus)
    (msg : option string) : Batch.CompetitiveAnalysisBatch :=
  {| Batch.id := i; Batch.status := st; Batch.progress := 100;
     Batch.total_urls := n; Batch.completed_count := c;
     Batch.failed_count := f; Batch.started_at := true;
     Batch.completed_at := true; Batch.error_message := msg |}.

Definition summary_of (n c : Z) (cmp : option Aggregator.ComparisonResult)
  : Batch.summary :=
  {| Batch.s_status := status_value (fst (quorum c));
     Batch.s_total_urls := n;
     Batch.s_completed_count := c;
     Batch.s_failed_count := n - c;
     Batch.s_has_comparison := bool_decide (is_Some cmp) |}.

Ltac final_compute :=
  lazy beta iota zeta delta
    [Batch.committed Batch.batch Batch.urls Batch.comparison Batch.sent
     Batch.modify_batch Batch.commit Batch.callback Batch.send
     Batch._update_batch_status Batch._handle_batch_error
     Batch._update_batch_progress Batch._finalize_batch
     Batch.set_progress Batch.set_status Batch.set_counts Batch.set_started
     Batch.set_completed_at Batch.set_error Batch.set_error_if
     Batch.new_world Batch.new_batch compared async_tail sync_tail
     Batch.progress Batch.status Batch.total_urls Batch.completed_count
     Batch.failed_count Batch.id Batch.started_at Batch.completed_at
     Batch.error_message final_row summary_of quorum
     mbind mret Py.M_bind Py.M_ret Py.bind Py.ret fst snd].

(** How the asynchronous run ends, from the members' rows and the outcome
    of the aggregator. *)
Lemma async_final (e : Batch.env) (i : string) (us : list string) :
  us <> [] ->
  let res := Batch.run_competitive_analysis e (Batch.new_world i us) in
  let kids := async_kids e us in
  let c := Batch.count_completed kids in
  let n := Z.of_nat (List.length us) in
  Batch.urls (snd res) = kids
  /\ match (if 2 <=? c
            then Aggregator.build_comparison (fetched kids) (Batch.narrative e)
            else inr None) with
     | inl err =>
         fst res = inl err
         /\ Batch.batch (snd res)
            = final_row i n c (n - c) FAILED (Some (Py.exn_msg err))
         /\ Batch.comparison (snd res) = None
     | inr cmp =>
         fst res = inr (summary_of n c cmp)
         /\ Batch.batch (snd res)
            = final_row i n c (n - c) (fst (quorum c)) (snd (quorum c))
         /\ Batch.comparison (snd res) = cmp
     end.
Proof.
  intros Hne. cbv zeta.
  rewrite async_run_eq by (cbn; destruct us; [congruence | discriminate]).
  unfold async_spec, async_tail. cbv zeta.
  set (w1 := snd (Batch._update_batch_status e PROCESSING 0 None (Batch.new_world i us))).
  destruct (analyze_all_urls_run e w1) as (_ & (Hb & Hc & Hcmp) & Hu).
  change (Batch.urls w1) with (map Job.new_world us) in Hu.
  fold (async_kids e us) in Hu.
  destruct (snd (Batch._analyze_all_urls_concurrently e w1))
    as [b2 c2 u2 cmp2 s2].
  cbn [Batch.batch Batch.committed Batch.comparison Batch.urls] in Hb, Hc, Hcmp, Hu.
  subst b2 c2 cmp2 u2.
  assert (Hlen : List.length (async_kids e us) = List.length us)
    by (unfold async_kids; now rewrite length_imap, length_map).
  cbn [Batch.urls]. rewrite Hlen.
  set (c := Batch.count_completed (async_kids e us)).
  subst w1.
  destruct (2 <=? c) eqn:E2.
  - assert (E0 : (c =? 0) = false)
      by (apply Z.leb_le in E2; apply Z.eqb_neq; lia).
    cbn [Batch.urls Batch.modify_batch snd].
    destruct (Aggregator.build_comparison _ _) as [err|[cmp|]].
    + final_compute. repeat split.
    + final_compute. rewrite E0, E2. final_compute. repeat split.
    + final_compute. rewrite E0, E2. final_compute. repeat split.
  - destruct (c =? 0) eqn:E0; final_compute; rewrite ?E0, ?E2;
      final_compute; repeat split.
Qed.

(** How the synchronous run ends. *)
Lemma sync_final (e : Batch.env) (i : string) (us : list string) :
  us <> [] ->
  let res := Batch.run_analysis e (Batch.new_world i us) in
  let kids := sync_kids e us in
  let c := Batch.count_completed kids in
  let n := Z.of_nat (List.length us) in
  Batch.urls (snd res) = kids
  /\ match (if 2 <=? c
            then Aggregator.build_comparison (fetched kids) (Batch.narrative e)
            else inr None) with
     | inl err =>
         fst res = inl err
         /\ Batch.batch (snd res)
            = final_row i n 0 0 FAILED
                (if Py.truthy (Py.take 500 (Py.exn_msg err))
                 then Some (Py.take 500 (Py.exn_msg err)) else None)
         /\ Batch.comparison (snd res) = None
     | inr cmp =>
         fst res = inr (summary_of n c cmp)
         /\ Batch.batch (snd res)
            = final_row i n c (n - c) (fst (quorum c)) (snd (quorum c))
         /\ Batch.comparison (snd res) = cmp
     end.
Proof.
  intros Hne. cbv zeta.
  rewrite sync_run_eq by (cbn; destruct us; [congruence | discriminate]).
  unfold sync_spec, sync_tail. cbv zeta.
  set (w1 := snd (Batch._update_batch_progress 5 (Batch.new_world i us))).
  set (w2 := snd (Batch.commit _)).
  destruct (run_concurrent_analyses_run e w2) as (_ & (Hb & Hc & Hcmp) & Hu).
  change (Batch.urls w2) with (map Job.new_world us) in *.
  change (Batch.urls w1) with (map Job.new_world us).
  fold (sync_kids e us) in Hu.
  destruct (snd (Batch._run_concurrent_analyses e w2)) as [b2 c2 u2 cmp2 s2].
  cbn [Batch.batch Batch.committed Batch.comparison Batch.urls] in Hb, Hc, Hcmp, Hu.
  subst b2 c2 cmp2 u2.
  pose proof (completed_results_count e us) as Hcount.
  fold (sync_kids e us) in Hcount.
  set (results := imap (child_result e) (map Job.new_world us)) in *.
  assert (Hrl : List.length results = List.length us)
    by (subst results; now rewrite length_imap, length_map).
  rewrite length_map, Hrl, Hcount.
  set (c := Batch.count_completed (sync_kids e us)) in *.
  assert (Hk : (2 <=? List.length (List.filter Batch.is_completed results))%nat
               = (2 <=? c)).
  { rewrite <- Hcount.
    destruct (2 <=? List.length (List.filter Batch.is_completed results))%nat eqn:E.
    - apply Nat.leb_le in E. symmetry. apply Z.leb_le. lia.
    - apply Nat.leb_gt in E. symmetry. apply Z.leb_gt. lia. }
  rewrite Hk. subst w2 w1.
  destruct (2 <=? c) eqn:E2.
  - assert (E0 : (c =? 0) = false)
      by (apply Z.leb_le in E2; apply Z.eqb_neq; lia).
    cbn [Batch.urls Batch._update_batch_progress Batch.modify_batch Batch.commit
         mbind Py.M_bind Py.bind snd].
    destruct (Aggregator.build_comparison _ _) as [err|[cmp|]].
    + final_compute.
      destruct (Py.truthy (Py.take 500 (Py.exn_msg err))); repeat split.
    + final_compute. rewrite E0, E2. final_compute.
      lazy beta iota delta [Py.truthy]. repeat split.
    + final_compute. rewrite E0, E2. final_compute.
      lazy beta iota delta [Py.truthy]. repeat split.
  - destruct (c =? 0) eqn:E0; final_compute; rewrite ?E0, ?E2;
      final_compute; lazy beta iota delta [Py.truthy]; final_compute;
      repeat split.
Qed.

End BatchFinal.
Section BatchMembers.






(** X15: under either orchestrator each member of a batch ends exactly as
    a run of the single-URL pipeline on its URL with the member's own
    collaborators would end it: the member rows are in the order of the
    URLs, and what one member's crawler or provider does never shows in
    another member's row or result. *)
Theorem batch_members_run_standalone (e : Batch.env) (i : string)
    (us : list string) :
  us <> [] ->
  let a := snd (Batch.run_competitive_analysis e (Batch.new_world i us)) in
  let s := snd (Batch.run_analysis e (Batch.new_world i us)) in
  List.length (Batch.urls a) = List.length us
  /\ List.length (Batch.urls s) = List.length us
  /\ forall k u, us !! k = Some u ->
       Batch.urls a !! k
       = Some (snd (Job.run_analysis
                      (Batch.child_env e k (Batch.has_callback e))
                      (Job.new_world u)))
       /\ Batch.urls s !! k
          = Some (snd (Job.run_analysis (Batch.child_env e k false)
                         (Job.new_world u))).
Proof.
  intros Hne. cbv zeta.
  destruct (async_final e i us Hne) as [Ha _].
  destruct (sync_final e i us Hne) as [Hs _].
  cbv zeta in Ha, Hs. rewrite Ha, Hs. unfold async_kids, sync_kids.
  rewrite !length_imap, !length_map. split; [reflexivity|]. split; [reflexivity|].
  intros k u Hk. rewrite !list_lookup_imap, !list_lookup_fmap, Hk.
  split; reflexivity.
Qed.

Lemma batch_members_run_standalone_witness :
  map (fun cw => Job.status (Job.request cw))
      (Batch.urls (snd (Batch.run_analysis Runs.first_fails
                          (Batch.new_world "b1" Runs.three_urls))))
  = [FAILED; COMPLETED; COMPLETED]
  /\ Batch.urls (snd (Batch.run_analysis Runs.first_fails
                        (Batch.new_world "b1" Runs.three_urls))) !! 0%nat
     = Some (snd (Job.run_analysis (Batch.child_env Runs.first_fails 0 false)
                    (Job.new_world "https://a.example"))).
Proof.
  split; [vm_compute; reflexivity|].
  assert (Hne : Runs.three_urls <> []) by (unfold Runs.three_urls; discriminate).
  destruct (batch_members_run_standalone Runs.first_fails "b1" Runs.three_urls Hne)
    as (_ & _ & H).
  destruct (H 0%nat "https://a.example" eq_refl) as [_ Hs]. exact Hs.
Defined.



(** X17: the dict a batch run returns describes the row it leaves.  Its
    status, total and counters are those of the final row, the counters
    add up to the total, and it reports a comparison exactly when a
    comparison row exists, which is exactly when the batch is COMPLETED. *)
Theorem batch_summary_matches_row (e : Batch.env) (i : string)
    (us : list string) (res : (Py.exn + Batch.summary) * Batch.world)
    (summary : Batch.summary) :
  us <> [] ->
  res = Batch.run_competitive_analysis e (Batch.new_world i us)
  \/ res = Batch.run_analysis e (Batch.new_world i us) ->
  fst res = inr summary ->
  let b := Batch.batch (snd res) in
  Batch.s_status summary = status_value (Batch.status b)
  /\ Batch.s_total_urls summary = Batch.total_urls b
  /\ Batch.s_completed_count summary = Batch.completed_count b
  /\ Batch.s_failed_count summary = Batch.failed_count b
  /\ Batch.s_completed_count summary + Batch.s_failed_count summary
     = Batch.s_total_urls summary
  /\ (Batch.s_has_comparison summary = true
      <-> is_Some (Batch.comparison (snd res)))
  /\ (Batch.s_has_comparison summary = true <-> Batch.status b = COMPLETED).
Proof.
  intros Hne Hres Hout. cbv zeta.
  assert (Hcases :
    exists kids c cmp,
      List.length kids = List.length us
      /\ Forall child_done kids
      /\ c = Batch.count_completed kids
      /\ (if 2 <=? c
          then Aggregator.build_comparison (fetched kids) (Batch.narrative e)
          else inr None) = inr cmp
      /\ summary = summary_of (Z.of_nat (List.length us)) c cmp
      /\ Batch.batch (snd res)
         = final_row i (Z.of_nat (List.length us)) c
             (Z.of_nat (List.length us) - c) (fst (quorum c)) (snd (quorum c))
      /\ Batch.comparison (snd res) = cmp).
  { destruct Hres as [-> | ->].
    - destruct (async_final e i us Hne) as [_ Hf]. cbv zeta in Hf.
      exists (async_kids e us), (Batch.count_completed (async_kids e us)).
      destruct (if 2 <=? _ then _ else _) as [err|cmp];
        destruct Hf as (Ho & Hr & Hc); rewrite Ho in Hout; [discriminate|].
      injection Hout as <-. exists cmp.
      split; [unfold async_kids; now rewrite length_imap, length_map|].
      split; [apply children_done|]. auto.
    - destruct (sync_final e i us Hne) as [_ Hf]. cbv zeta in Hf.
      exists (sync_kids e us), (Batch.count_completed (sync_kids e us)).
      destruct (if 2 <=? _ then _ else _) as [err|cmp];
        destruct Hf as (Ho & Hr & Hc); rewrite Ho in Hout; [discriminate|].
      injection Hout as <-. exists cmp.
      split; [unfold sync_kids; now rewrite length_imap, length_map|].
      split; [apply children_done|]. auto. }
  destruct Hcases as (kids & c & cmp & Hlen & Hdone & Hc & Hbc & -> & Hr & Hcmp).
  rewrite Hr, Hcmp.
  cbn [summary_of final_row Batch.s_status Batch.s_total_urls
       Batch.s_completed_count Batch.s_failed_count Batch.s_has_comparison
       Batch.status Batch.total_urls Batch.completed_count Batch.failed_count].
  split; [reflexivity|]. split; [reflexivity|]. split; [reflexivity|].
  split; [reflexivity|]. split; [lia|].
  split; [apply bool_decide_eq_true|].
  rewrite bool_decide_eq_true. unfold quorum.
  destruct (2 <=? c) eqn:E2.
  - assert (E0 : (c =? 0) = false)
      by (apply Z.leb_le in E2; apply Z.eqb_neq; lia).
    rewrite E0. cbn [fst]. apply Z.leb_le in E2.
    assert (Hfl : (2 <= List.length (fetched kids))%nat)
      by (pose proof (fetched_length kids Hdone); lia).
    destruct (build_comparison_cases _ (Batch.narrative e) Hfl)
      as [(_ & cmp' & Hb) | (_ & err & msg & Hb & _)];
      rewrite Hb in Hbc; [|discriminate].
    injection Hbc as <-. split; intros _; [reflexivity | eexists; reflexivity].
  - injection Hbc as <-.
    destruct (c =? 0); cbn [fst]; split; intros H;
      first [discriminate H | destruct H as [? H]; discriminate H].
Qed.

Lemma batch_summary_matches_row_witness :
  exists summary,
    fst (Batch.run_analysis Runs.first_fails
           (Batch.new_world "b1" Runs.three_urls)) = inr summary
    /\ Batch.s_status summary = "completed"
    /\ Batch.s_completed_count summary = 2
    /\ Batch.s_failed_count summary = 1
    /\ Batch.s_completed_count summary + Batch.s_failed_count summary
       = Batch.s_total_urls summary.
Proof.
  assert (Hne : Runs.three_urls <> []) by (unfold Runs.three_urls; discriminate).
  destruct (fst (Batch.run_analysis Runs.first_fails
                   (Batch.new_world "b1" Runs.three_urls)))
    as [err|summary] eqn:E; [vm_compute in E; discriminate|].
  exists summary. split; [reflexivity|].
  destruct (batch_summary_matches_row Runs.first_fails "b1" Runs.three_urls _
              summary Hne (or_intror eq_refl) E)
    as (_ & _ & _ & _ & Hsum & _).
  vm_compute in E. injection E as <-.
  split; [reflexivity|]. split; [reflexivity|]. split; [reflexivity|].
  exact Hsum.
Defined.

End BatchMembers.


(* ===================================================================== *)
(** * When the rule scorer raises *)
(* ===================================================================== *)

Section RuleScorerFailure.

(** The entries the loop of [_analyze_structured_data] passes over: dicts
    whose type is not recognised. *)
Definition passed_over (item : json) : Prop :=
  exists fields,
    item = JObj fields /\ SEO.in_valid_types (SEO.item_type fields) = false.

Lemma has_valid_schema_stops (before after : list json) (item : json) :
  Forall passed_over before ->
  SEO.has_valid_schema (before ++ item :: after)
  = match SEO.entry_type item with
    | inl err => inl err
    | inr t => if SEO.in_valid_types t then inr true
               else SEO.has_valid_schema after
    end.
Proof.
  induction 1 as [|i before (fields & -> & Hi) _ IH]; [reflexivity|].
  cbn [app SEO.has_valid_schema SEO.entry_type]. rewrite Hi. exact IH.
Qed.

Lemma analyze_raises_type (cd : SEO.crawl_data) (err : Py.exn) :
  SEO.analyze cd = inl err -> Py.exn_type err = "AttributeError".
Proof.
  rewrite analyze_eq.
  destruct (SEO._analyze_structured_data _) as [err'|a] eqn:E; [|discriminate].
  intros [= ->]. exact (proj1 (structured_analysis_raises _ _ E)).
Qed.

(** X18: [analyze] raises exactly when the structured data of the page
    holds an entry that is not a dict and every entry before it is a dict
    of no recognised type.  It then raises the [AttributeError] of
    [item.get] on that entry, whose text names the entry's Python type.
    An entry behind a recognised one is never looked at, and with dict
    entries only [analyze] returns. *)
Theorem rule_scorer_raises_on_non_dict_entry (cd : SEO.crawl_data)
    (err : Py.exn) :
  SEO.analyze cd = inl err <->
  exists before item after,
    default [] (SEO.structured_data cd) = (before ++ item :: after)%list
    /\ Forall passed_over before
    /\ (forall fields, item <> JObj fields)
    /\ err = Py.Exn "AttributeError"
               ("'" +:+ type_name item +:+ "' object has no attribute 'get'").
Proof.
  rewrite analyze_eq.
  set (sd := default [] (SEO.structured_data cd)). split.
  - destruct (SEO._analyze_structured_data sd) as [err'|a] eqn:E;
      [|discriminate].
    intros [= ->]. unfold SEO._analyze_structured_data in E.
    destruct sd as [|i sd]; [discriminate|].
    destruct (SEO.has_valid_schema (i :: sd)) as [err'|[|]] eqn:Eh;
      [|discriminate|discriminate].
    injection E as ->.
    destruct (has_valid_schema_raises _ _ Eh)
      as (before & item & after & Hsd & -> & Hnd & Hb).
    exists before, item, after. repeat split; assumption.
  - intros (before & item & after & -> & Hb & Hnd & ->).
    unfold SEO._analyze_structured_data.
    rewrite (has_valid_schema_stops before after item Hb).
    destruct item as [| b | n | x | str | l | fields];
      try (destruct before; reflexivity).
    exfalso. exact (Hnd fields eq_refl).
Qed.

(** X19: when the crawl returned a page on which the rule scorer raises,
    the run raises that exception unwrapped and leaves the job FAILED at
    progress 35 in the step Analyzing SEO metrics, with the text and the
    type of the exception in the row, no completion time and no result
    row, whatever the semantic scorer and the screenshot store would have
    done. *)
Theorem job_fails_at_rule_scorer (e : Job.env) (u : string)
    (cd : SEO.crawl_data) (err : Py.exn) :
  Job.crawl e u = inr cd ->
  SEO.analyze cd = inl err ->
  let res := Job.run_analysis e (Job.new_world u) in
  let final := Job.request (snd res) in
  fst res = inl err
  /\ Py.exn_type err = "AttributeError"
  /\ Job.status final = FAILED
  /\ Job.progress final = 35
  /\ Job.current_step final = Some "Analyzing SEO metrics"
  /\ Job.error_message final = Some (Py.exn_msg err)
  /\ Job.err_details final
     = Some {| Job.ed_type := "AttributeError";
               Job.ed_step := Some "Analyzing SEO metrics";
               Job.ed_progress := 35 |}
  /\ Job.completed_at final = false
  /\ Job.result (snd res) = None
  /\ map Job.progress (Job.committed (snd res)) = [0; 0; 10; 30; 35; 35].
Proof.
  intros Hcrawl Hseo. cbv zeta.
  pose proof (analyze_raises_type cd err Hseo) as Hty.
  rewrite run_analysis_eq. unfold run_spec. cbv zeta.
  rewrite url_after_start.
  change (Job.url (Job.request (Job.new_world u))) with u.
  rewrite Hcrawl, Hseo. cbn [fst snd].
  split; [reflexivity|]. split; [exact Hty|].
  lazy. rewrite <- Hty. repeat split.
Qed.

Lemma job_fails_at_rule_scorer_witness :
  let res := Job.run_analysis Runs.job_rules_fail
               (Job.new_world "https://a.example") in
  Job.status (Job.request (snd res)) = FAILED
  /\ Job.progress (Job.request (snd res)) = 35
  /\ Job.error_message (Job.request (snd res))
     = Some "'list' object has no attribute 'get'".
Proof.
  cbv zeta.
  assert (Hseo : SEO.analyze Runs.ld_array_page
                 = inl (SEO.no_get
                          (JList [JObj (<["@type" := JStr "Organization"]> ∅)])))
    by (vm_compute; reflexivity).
  destruct (job_fails_at_rule_scorer Runs.job_rules_fail "https://a.example"
              Runs.ld_array_page _ eq_refl Hseo)
    as (_ & _ & Hs & Hp & _ & Hm & _).
  split; [exact Hs|]. split; [exact Hp|]. exact Hm.
Defined.

End RuleScorerFailure.
